(** * Fire-weather index: physics-informed training script and prediction endpoint

    A shallow embedding of [train_pinn_model.py] (the training script) and of
    the model-loading and [/api/predict] parts of [app.py].

    Numbers are IEEE-754 binary floating-point values, taken from the
    Standard Library's [SpecFloat]: binary32 for TensorFlow tensors
    ([np.float32], the Keras default dtype) and binary64 for Python floats and
    the statistics of scikit-learn's [StandardScaler].

    The two programs are mostly calls into libraries. The forward pass of
    the dense network, the gradient with respect to the inputs, the
    reductions, the scaler and the built-ins [float] and [round] are
    written out after the libraries' documented behaviour (sums are
    accumulated from the left). The gradient with respect to the trainable
    variables, the Adam update, the random draws and the file formats of
    [pickle] and Keras are parameters of the sections that use them. *)

From Stdlib Require Import ZArith Bool List Lia Ascii.
From Stdlib Require Import Floats.SpecFloat.
From stdpp Require Import base option list gmap strings.

(** ** IEEE-754 arithmetic *)

(** binary32: 24 bits of precision, infinities at exponent 128. *)
Module F32.
Definition prec : Z := 24%Z.
Definition emax : Z := 128%Z.
Definition t : Type := spec_float.

Definition zero : t := S754_zero false.
Definition nan : t := S754_nan.
Definition inf : t := S754_infinity false.

Definition add (x y : t) : t := SFadd prec emax x y.
Definition sub (x y : t) : t := SFsub prec emax x y.
Definition mul (x y : t) : t := SFmul prec emax x y.
Definition div (x y : t) : t := SFdiv prec emax x y.
Definition opp (x : t) : t := SFopp x.
Definition ltb (x y : t) : bool := SFltb x y.
Definition leb (x y : t) : bool := SFleb x y.
Definition eqb (x y : t) : bool := SFeqb x y.

(** Integer to float, rounding to nearest even. *)
Definition of_Z (n : Z) : t := binary_normalize prec emax n 0%Z false.
Definition one : t := of_Z 1%Z.

(** Rounding of an arbitrary binary floating-point value [m * 2^e] (a cast
    from a wider format). *)
Definition round (x : spec_float) : t :=
  match x with
  | S754_finite s m e => binary_normalize prec emax (cond_Zopp s (Zpos m)) e s
  | _ => x
  end.

Definition is_nan (x : t) : bool :=
  match x with S754_nan => true | _ => false end.
Definition is_finite (x : t) : bool :=
  match x with S754_zero _ | S754_finite _ _ _ => true | _ => false end.
(** [x == 0.0]: true of both signed zeros. *)
Definition is_zero (x : t) : bool :=
  match x with S754_zero _ => true | _ => false end.
End F32.

(** binary64: Python's [float], NumPy's [float64]. *)
Module F64.
Definition prec : Z := 53%Z.
Definition emax : Z := 1024%Z.
Definition t : Type := spec_float.

Definition zero : t := S754_zero false.
Definition nan : t := S754_nan.
Definition inf : t := S754_infinity false.

Definition add (x y : t) : t := SFadd prec emax x y.
Definition sub (x y : t) : t := SFsub prec emax x y.
Definition mul (x y : t) : t := SFmul prec emax x y.
Definition div (x y : t) : t := SFdiv prec emax x y.
Definition sqrt (x : t) : t := SFsqrt prec emax x.
Definition opp (x : t) : t := SFopp x.
Definition ltb (x y : t) : bool := SFltb x y.
Definition leb (x y : t) : bool := SFleb x y.
Definition eqb (x y : t) : bool := SFeqb x y.

Definition of_Z (n : Z) : t := binary_normalize prec emax n 0%Z false.
Definition one : t := of_Z 1%Z.

(** Widening of a binary32 value: exact, the mantissa is only realigned. *)
Definition of_f32 (x : F32.t) : t :=
  match x with
  | S754_finite s m e => binary_normalize prec emax (cond_Zopp s (Zpos m)) e s
  | _ => x
  end.

Definition is_nan (x : t) : bool :=
  match x with S754_nan => true | _ => false end.
Definition is_inf (x : t) : bool :=
  match x with S754_infinity _ => true | _ => false end.
Definition is_finite (x : t) : bool :=
  match x with S754_zero _ | S754_finite _ _ _ => true | _ => false end.
Definition is_zero (x : t) : bool :=
  match x with S754_zero _ => true | _ => false end.
End F64.

(** Positive and not a NaN: a positive finite number or plus infinity. *)
Definition positive_float (x : spec_float) : Prop :=
  match x with
  | S754_finite false _ _ | S754_infinity false => True
  | _ => False
  end.

(** ** TensorFlow element-wise operations and reductions (float32) *)

Module TF.
(** [tf.maximum]: the larger operand; a NaN operand gives NaN. *)
Definition maximum (x y : F32.t) : F32.t :=
  if F32.is_nan x || F32.is_nan y then F32.nan
  else if F32.ltb x y then y else x.

Definition negative (x : F32.t) : F32.t := F32.opp x.
Definition square (x : F32.t) : F32.t := F32.mul x x.

(** [tf.reduce_sum] over a rank-1 tensor, accumulated from the left. *)
Definition reduce_sum (v : list F32.t) : F32.t :=
  fold_left F32.add v F32.zero.

(** [tf.reduce_mean]: the sum divided by the number of elements; the mean
    of an empty tensor is [0/0], a NaN. *)
Definition reduce_mean (v : list F32.t) : F32.t :=
  F32.div (reduce_sum v) (F32.of_Z (Z.of_nat (length v))).

(** [t[:, j]] for a rank-2 tensor given as a list of rows. Tensors of the
    script have the static shape [(batch, 8)], so that [j < 8] is always in
    range; [nan] stands for the entry of a row that is too short. *)
Definition column (j : nat) (m : list (list F32.t)) : list F32.t :=
  map (fun row => nth j row F32.nan) m.
End TF.

(** ** Python outcomes *)

(** An exception, identified by the name of its class. *)
Record exn := Exn { exn_class : string }.

Definition ValueError : exn := Exn "ValueError".
Definition TypeError : exn := Exn "TypeError".
Definition AttributeError : exn := Exn "AttributeError".
Definition OverflowError : exn := Exn "OverflowError".
Definition FileNotFoundError : exn := Exn "FileNotFoundError".
Definition ImportError : exn := Exn "ImportError".

(** The two error classes that the specification names; no class of these
    names is defined or raised anywhere in the two source files. *)
Definition DegenerateFeatureError : exn := Exn "DegenerateFeatureError".
Definition NumericInstabilityError : exn := Exn "NumericInstabilityError".

(** A call either returns or raises. *)
Inductive outcome (A : Type) : Type :=
  | Returned (a : A)
  | Raised (e : exn).
Arguments Returned {A} a.
Arguments Raised {A} e.

#[global] Instance outcome_ret : MRet outcome := fun A a => Returned a.
#[global] Instance outcome_bind : MBind outcome := fun A B k c =>
  match c with
  | Returned a => k a
  | Raised e => Raised e
  end.

(** ** The Keras model (script section 4) *)

Module Keras.
Inductive activation := relu | linear.

(** A [Dense] layer: [kernel] has shape (inputs, units), [bias] has one
    entry per unit. *)
Record Dense := mkDense {
  kernel : list (list F32.t);
  bias : list F32.t;
  act : activation
}.

(** [Sequential]: the layers in order; these are also the model's
    [trainable_variables]. *)
Definition Sequential : Type := list Dense.

(** [tf.nn.relu] is [max(x, 0)]; the identity for the last layer. *)
Definition apply_activation (a : activation) (z : F32.t) : F32.t :=
  match a with
  | relu => TF.maximum z F32.zero
  | linear => z
  end.

(** Entry [j] of the product of the row vector [x] with the kernel. *)
Definition dot (x : list F32.t) (K : list (list F32.t)) (j : nat) : F32.t :=
  TF.reduce_sum (zip_with F32.mul x (TF.column j K)).

Definition pre_activation (L : Dense) (x : list F32.t) : list F32.t :=
  imap (fun j b => F32.add (dot x (kernel L) j) b) (bias L).

Definition call_layer (L : Dense) (x : list F32.t) : list F32.t :=
  map (apply_activation (act L)) (pre_activation L x).

(** The model applied to one sample, and to a batch ([model(x_batch)],
    [model.predict]); no layer behaves differently under [training=True]. *)
Definition forward (m : Sequential) (x : list F32.t) : list F32.t :=
  fold_left (fun h L => call_layer L h) m x.

Definition call (m : Sequential) (x_batch : list (list F32.t))
  : list (list F32.t) :=
  map (forward m) x_batch.

(** The units and activation of every layer, in order. *)
Definition architecture (m : Sequential) : list (nat * activation) :=
  map (fun L => (length (bias L), act L)) m.

(** Reverse pass of one layer: the upstream gradient [g] (one entry per
    unit) goes through the activation ([ReluGrad] lets it pass where the
    activation is positive) and then through the transposed kernel. *)
Definition activation_grad (a : activation) (z g : F32.t) : F32.t :=
  match a with
  | relu => if F32.ltb F32.zero (apply_activation relu z) then g else F32.zero
  | linear => g
  end.

Definition backward_layer (L : Dense) (x g : list F32.t) : list F32.t :=
  let gz := zip_with (activation_grad (act L)) (pre_activation L x) g in
  map (fun row => TF.reduce_sum (zip_with F32.mul row gz)) (kernel L).

(** Gradient of the (summed) output with respect to the input sample. *)
Fixpoint input_gradient (m : Sequential) (x : list F32.t) : list F32.t :=
  match m with
  | [] => map (fun _ => F32.one) x
  | L :: m' =>
      backward_layer L x (input_gradient m' (call_layer L x))
  end.

(** [tape.gradient(y_pred, x_batch)] with [x_batch] watched: a tensor of
    the shape of [x_batch]. The tape returns [None] only for a target that
    does not depend on the source, which a [Sequential] output never is. *)
Definition tape_gradient_inputs (m : Sequential) (x_batch : list (list F32.t))
  : option (list (list F32.t)) :=
  Some (map (input_gradient m) x_batch).

(** [tf.keras.losses.MeanSquaredError]: the mean over the last axis of the
    squared difference, then the mean over the batch. *)
Definition MeanSquaredError (y_true y_pred : list (list F32.t)) : F32.t :=
  TF.reduce_mean
    (zip_with (fun yt yp =>
                 TF.reduce_mean (zip_with (fun a b => TF.square (F32.sub a b)) yt yp))
              y_true y_pred).
End Keras.

(** ** scikit-learn's [StandardScaler] (script section 3, [app.py] line 190) *)

Module Sklearn.
(** The fitted attributes of the estimator, computed in float64. *)
Record StandardScaler := mkScaler {
  mean_ : list F64.t;
  var_ : list F64.t;
  scale_ : list F64.t
}.

Definition column (j : nat) (X : list (list F64.t)) : list F64.t :=
  map (fun row => nth j row F64.nan) X.

Definition n_features (X : list (list F64.t)) : nat :=
  match X with
  | [] => 0
  | row :: _ => length row
  end.

(** Input validation of [fit] and [transform]: at least one sample, and no
    infinite entry ([ensure_all_finite="allow-nan"]); both are reported as
    [ValueError]. The script has removed every row with a NaN beforehand,
    so that the NaN-skipping of the statistics is not modelled. *)
Definition check_array (X : list (list F64.t)) : outcome (list (list F64.t)) :=
  match X with
  | [] => Raised ValueError
  | _ => if existsb (existsb F64.is_inf) X then Raised ValueError
         else Returned X
  end.

Definition sum (v : list F64.t) : F64.t := fold_left F64.add v F64.zero.

Definition mean (v : list F64.t) : F64.t :=
  F64.div (sum v) (F64.of_Z (Z.of_nat (length v))).

(** Population variance (no Bessel correction). *)
Definition variance (v : list F64.t) : F64.t :=
  let mu := mean v in
  mean (map (fun x => let d := F64.sub x mu in F64.mul d d) v).

(** [_handle_zeros_in_scale]: "if a variance is zero, we can't achieve unit
    variance, and the data is left as-is, giving a scaling factor of 1". *)
Definition handle_zeros_in_scale (s : F64.t) : F64.t :=
  if F64.is_zero s then F64.one else s.

Definition fit (X : list (list F64.t)) : outcome StandardScaler :=
  X ← check_array X;
  let columns := map (fun j => column j X) (seq 0 (n_features X)) in
  let var := map variance columns in
  mret {| mean_ := map mean columns;
          var_ := var;
          scale_ := map (fun v => handle_zeros_in_scale (F64.sqrt v)) var |}.

(** [(x - mean_) / scale_], feature by feature. *)
Definition standardize (s : StandardScaler) (row : list F64.t) : list F64.t :=
  zip_with (fun x ms => F64.div (F64.sub x ms.1) ms.2)
           row (zip (mean_ s) (scale_ s)).

(** [transform]: every row standardized; a row with another number of
    features than the scaler was fitted on is a [ValueError]. *)
Definition transform (s : StandardScaler) (X : list (list F64.t))
  : outcome (list (list F64.t)) :=
  X ← check_array X;
  if forallb (fun row => Nat.eqb (length row) (length (mean_ s))) X then
    mret (map (standardize s) X)
  else Raised ValueError.

(** [TransformerMixin.fit_transform]: [fit(X).transform(X)]; the fitted
    estimator is the receiver, returned here next to the result. *)
Definition fit_transform (X : list (list F64.t))
  : outcome (StandardScaler * list (list F64.t)) :=
  s ← fit X;
  Xs ← transform s X;
  mret (s, Xs).
End Sklearn.

(** Conversions between the float32 data of the script and the float64
    computations of the scaler. *)
Definition astype_float64 (X : list (list F32.t)) : list (list F64.t) :=
  map (map F64.of_f32) X.
Definition astype_float32 (X : list (list F64.t)) : list (list F32.t) :=
  map (map F32.round) X.

(** ** [tf.data]: slicing and batching *)

Module Dataset.
(** [from_tensor_slices((X, y))]: one element per row. *)
Definition from_tensor_slices {A B : Type} (X : list A) (y : list B)
  : list (A * B) := zip X y.

(** [batch(n)]: consecutive groups of [n] elements, the last one possibly
    smaller; [fuel] bounds the number of groups. *)
Fixpoint batch_aux {A : Type} (fuel n : nat) (l : list A) : list (list A) :=
  match fuel with
  | O => []
  | S fuel' =>
      match l with
      | [] => []
      | _ => take n l :: batch_aux fuel' n (drop n l)
      end
  end.

Definition batch {A : Type} (n : nat) (l : list A) : list (list A) :=
  batch_aux (length l) n l.

(** A batch of pairs, seen as the pair of tensors that iteration yields. *)
Definition unzip_batch {A B : Type} (b : list (A * B)) : list A * list B :=
  (map fst b, map snd b).
End Dataset.

(** ** Files *)

(** [os.path.join(base_dir, name)]. The part of the file system that the
    two programs share is a map from paths to file contents,
    [gmap string Content]; what a content is, is left to the serializers. *)
Definition path_join (dir name : string) : string := dir +:+ "/" +:+ name.

(** ** The training script [train_pinn_model.py] *)

Module TrainPinnModel.
(** *** 1. Configuration *)
Definition FEATURES : list string :=
  ["Temperature"; "RH"; "Ws"; "Rain"; "FFMC"; "DMC"; "DC"; "ISI"].
Definition TARGET : string := "FWI".
Definition PHYSICS_FEATURES_INDICES : gmap string nat :=
  {[ "Temperature" := 0; "RH" := 1; "Ws" := 2; "Rain" := 3 ]}.
Definition N_EPOCHS : nat := 100.
Definition BATCH_SIZE : nat := 32.
(** The Python literal [0.1], a float64. *)
Definition PHYSICS_LOSS_WEIGHT : F64.t :=
  S754_finite false 7205759403792794 (-56).

(** *** 5. Loss functions *)

Definition mse_loss_fn := Keras.MeanSquaredError.

(** The body of [physics_loss_fn] after the tape has produced [gradients].
    The four keys are the literal keys of [PHYSICS_FEATURES_INDICES]. *)
Definition physics_penalty (gradients : option (list (list F32.t))) : F32.t :=
  match gradients with
  | None => F32.zero
  | Some gradients =>
      let grad_temp :=
        TF.column (PHYSICS_FEATURES_INDICES !!! "Temperature") gradients in
      let grad_rh := TF.column (PHYSICS_FEATURES_INDICES !!! "RH") gradients in
      let grad_ws := TF.column (PHYSICS_FEATURES_INDICES !!! "Ws") gradients in
      let grad_rain :=
        TF.column (PHYSICS_FEATURES_INDICES !!! "Rain") gradients in
      let loss_temp :=
        TF.reduce_mean (map (TF.maximum F32.zero) (map TF.negative grad_temp)) in
      let loss_rh := TF.reduce_mean (map (TF.maximum F32.zero) grad_rh) in
      let loss_ws :=
        TF.reduce_mean (map (TF.maximum F32.zero) (map TF.negative grad_ws)) in
      let loss_rain := TF.reduce_mean (map (TF.maximum F32.zero) grad_rain) in
      F32.add (F32.add (F32.add loss_temp loss_rh) loss_ws) loss_rain
  end.

Definition physics_loss_fn (model : Keras.Sequential)
    (x_batch : list (list F32.t)) : F32.t :=
  physics_penalty (Keras.tape_gradient_inputs model x_batch).

(** The three values that [train_step] returns. *)
Record losses := mkLosses {
  data_loss : F32.t;
  physics_loss : F32.t;
  total_loss : F32.t
}.

(** What the tape of [train_step] records, as a function of the trainable
    variables. The float64 weight becomes a float32 constant when it is
    multiplied with the float32 tensor. *)
Definition taped_losses (x_batch y_batch : list (list F32.t))
    (model : Keras.Sequential) : losses :=
  let y_pred := Keras.call model x_batch in
  let data_loss := mse_loss_fn y_batch y_pred in
  let physics_loss := physics_loss_fn model x_batch in
  let total_loss :=
    F32.add data_loss (F32.mul (F32.round PHYSICS_LOSS_WEIGHT) physics_loss) in
  mkLosses data_loss physics_loss total_loss.

(** [tf.keras.metrics.Mean]: a running total and a count. *)
Record Mean := mkMean { total : F32.t; count : nat }.
Definition Mean_new : Mean := mkMean F32.zero 0.
Definition update_state (m : Mean) (v : F32.t) : Mean :=
  mkMean (F32.add (total m) v) (S (count m)).
Definition result (m : Mean) : F32.t :=
  match count m with
  | O => F32.zero
  | S _ => F32.div (total m) (F32.of_Z (Z.of_nat (count m)))
  end.

(** One printed progress line. *)
Record report := mkReport {
  report_epoch : nat;
  report_data : F32.t;
  report_physics : F32.t;
  report_total : F32.t
}.

(** *** 9. File names *)
Definition scaler_filename : string := "scaler_pinn.pkl".
Definition model_filename : string := "fwi_pinn_model.keras".

Section Training.
(** Operations of the framework that the script calls: reverse-mode
    differentiation of a recorded scalar with respect to the trainable
    variables, and the Adam update with its state. *)
Variable Gradients : Type.
Variable tape_gradient :
  (Keras.Sequential -> F32.t) -> Keras.Sequential -> Gradients.
Variable Optimizer : Type.
Variable apply_gradients :
  Optimizer -> Gradients -> Keras.Sequential -> Optimizer * Keras.Sequential.

(** What the run draws at random: the order of the samples in each epoch
    ([shuffle], called without a seed) and the initial kernels (Glorot
    uniform, by layer and shape). *)
Variable shuffle :
  nat -> list (list F32.t * list F32.t) -> list (list F32.t * list F32.t).
Variable glorot_uniform : nat -> nat -> nat -> list (list F32.t).

(** [train_test_split(X, y, test_size=0.2, random_state=42)]. *)
Variable train_test_split :
  list (list F32.t) -> list (list F32.t) ->
  (list (list F32.t) * list (list F32.t)) *
  (list (list F32.t) * list (list F32.t)).

(** Serializers: what [pickle.dump] and [model.save] write to a file. *)
Variable Content : Type.
Variable pickle_dumps : Sklearn.StandardScaler -> Content.
Variable keras_save : Keras.Sequential -> Content.

(** *** 3. Split and scale *)
Record scaled_data := mkScaled {
  scaler : Sklearn.StandardScaler;
  X_train_scaled : list (list F64.t);
  X_test_scaled : list (list F64.t);
  y_train : list (list F32.t);
  y_test : list (list F32.t)
}.

Definition split_and_scale (X y : list (list F32.t)) : outcome scaled_data :=
  let '((X_train, X_test), (y_train, y_test)) := train_test_split X y in
  fitted ← Sklearn.fit_transform (astype_float64 X_train);
  X_test_scaled ← Sklearn.transform fitted.1 (astype_float64 X_test);
  mret (mkScaled fitted.1 fitted.2 X_test_scaled y_train y_test).

(** One pass over [train_dataset]: shuffled anew, then batched. *)
Definition train_dataset (d : scaled_data) (epoch : nat)
  : list (list (list F32.t) * list (list F32.t)) :=
  map Dataset.unzip_batch
      (Dataset.batch BATCH_SIZE
         (shuffle epoch
            (Dataset.from_tensor_slices
               (astype_float32 (X_train_scaled d)) (y_train d)))).

(** *** 4. The model *)

(** Units and activation of the three [Dense] layers. *)
Definition LAYERS : list (nat * Keras.activation) :=
  [(128, Keras.relu); (64, Keras.relu); (1, Keras.linear)].

Definition build_model : Keras.Sequential :=
  [ Keras.mkDense (glorot_uniform 0 (length FEATURES) 128)
                  (replicate 128 F32.zero) Keras.relu;
    Keras.mkDense (glorot_uniform 1 128 64)
                  (replicate 64 F32.zero) Keras.relu;
    Keras.mkDense (glorot_uniform 2 64 1)
                  (replicate 1 F32.zero) Keras.linear ].

(** *** 6. The training step *)

(** The optimizer with its state, the trainable variables, and two
    records kept for reasoning: the losses returned by every call of
    [train_step] and the model after every call, oldest first. *)
Record state := mkState {
  optimizer : Optimizer;
  model : Keras.Sequential;
  step_losses : list losses;
  trajectory : list Keras.Sequential;
  printed : list report
}.

Definition train_step (optimizer : Optimizer) (model : Keras.Sequential)
    (x_batch y_batch : list (list F32.t))
  : (Optimizer * Keras.Sequential) * losses :=
  let tape := taped_losses x_batch y_batch in
  let gradients := tape_gradient (fun vars => total_loss (tape vars)) model in
  (apply_gradients optimizer gradients model, tape model).

(** *** 7. The training loop *)

(** The three running means of one epoch. *)
Record epoch_metrics := mkMetrics {
  epoch_data_loss_avg : Mean;
  epoch_physics_loss_avg : Mean;
  epoch_total_loss_avg : Mean
}.

Definition metrics_new : epoch_metrics :=
  mkMetrics Mean_new Mean_new Mean_new.

(** The body of the inner [for]: one call of [train_step], then the
    three [update_state]. *)
Definition batch_body (sm : state * epoch_metrics)
    (b : list (list F32.t) * list (list F32.t)) : state * epoch_metrics :=
  let '(st, m) := sm in
  let '(x_batch, y_batch) := b in
  let '((optimizer', model'), l) :=
    train_step (optimizer st) (model st) x_batch y_batch in
  (mkState optimizer' model'
           (step_losses st ++ [l]) (trajectory st ++ [model'])
           (printed st),
   mkMetrics (update_state (epoch_data_loss_avg m) (data_loss l))
             (update_state (epoch_physics_loss_avg m) (physics_loss l))
             (update_state (epoch_total_loss_avg m) (total_loss l))).

(** The body of the outer [for]. *)
Definition epoch_body
    (dataset : nat -> list (list (list F32.t) * list (list F32.t)))
    (st : state) (epoch : nat) : state :=
  let '(st', m) := fold_left batch_body (dataset epoch) (st, metrics_new) in
  if ((epoch + 1) mod 10 =? 0) || (epoch =? N_EPOCHS - 1) then
    mkState (optimizer st') (model st') (step_losses st') (trajectory st')
            (printed st' ++
             [mkReport (epoch + 1)
                       (result (epoch_data_loss_avg m))
                       (result (epoch_physics_loss_avg m))
                       (result (epoch_total_loss_avg m))])
  else st'.

Definition training_loop
    (dataset : nat -> list (list (list F32.t) * list (list F32.t)))
    (optimizer : Optimizer) (model : Keras.Sequential) : state :=
  fold_left (epoch_body dataset) (seq 0 N_EPOCHS)
            (mkState optimizer model [] [] []).

(** *** 9. Saving *)
Definition save (base_dir : string) (scaler : Sklearn.StandardScaler)
    (model : Keras.Sequential) (fs : gmap string Content)
  : gmap string Content :=
  let scaler_path := path_join base_dir scaler_filename in
  let model_path := path_join base_dir model_filename in
  <[model_path := keras_save model]>
    (<[scaler_path := pickle_dumps scaler]> fs).

(** *** The script from section 3 on

    [X] and [y] are the cleaned data of section 2, [Adam] the fresh
    optimizer of section 5. Section 8 only prints the test loss: it
    changes neither the trained variables nor the scaler. The result is
    the final loop state and the file system after the two writes.

    This is the run in which [train_test_split] returns a split and both
    files can be written. What those calls raise otherwise (the
    [ValueError] of a split that leaves no training row, the [OSError] of
    a failed write) is not part of the model: [Raised] stands for the
    scaler's input validation only, and nothing is proved from the absence
    of other exceptions. *)
Definition main (base_dir : string) (Adam : Optimizer)
    (X y : list (list F32.t)) (fs : gmap string Content)
  : outcome (state * gmap string Content) :=
  d ← split_and_scale X y;
  let st := training_loop (train_dataset d) Adam build_model in
  mret (st, save base_dir (scaler d) (model st) fs).
End Training.
End TrainPinnModel.

(** ** Python built-ins used by the endpoint *)

Module Py.
(** A JSON value as [request.json] delivers it, as far as [float] and
    truthiness tell values apart: [VOther] is a list or a dict. *)
Inductive value :=
  | VNone
  | VBool (b : bool)
  | VInt (n : Z)
  | VFloat (x : F64.t)
  | VStr (s : string)
  | VOther.

(** The request body: a JSON object, or another JSON value, of which only
    the truthiness matters. *)
Inductive json :=
  | JObject (d : gmap string value)
  | JOther (truthy : bool).

Definition truthy (j : json) : bool :=
  match j with
  | JObject d => negb (bool_decide (d = ∅))
  | JOther t => t
  end.

(** [j or {}]. *)
Definition or_empty_dict (j : json) : json :=
  if truthy j then j else JObject ∅.

(** [data.get(key, default)]: only a dict has the method. *)
Definition get (data : json) (key : string) (default : value) : outcome value :=
  match data with
  | JObject d =>
      Returned (match d !! key with Some v => v | None => default end)
  | JOther _ => Raised AttributeError
  end.

Section Float.
(** [float(s)] for a string: the parsed number, or [None] where Python
    raises [ValueError]. *)
Variable float_of_str : string -> option F64.t.

Definition float (v : value) : outcome F64.t :=
  match v with
  | VNone => Raised TypeError
  | VBool b => Returned (if b then F64.one else F64.zero)
  | VInt n =>
      let x := F64.of_Z n in
      if F64.is_inf x then Raised OverflowError else Returned x
  | VFloat x => Returned x
  | VStr s =>
      match float_of_str s with
      | Some x => Returned x
      | None => Raised ValueError
      end
  | VOther => Raised TypeError
  end.
End Float.

(** [N / D] rounded to the nearest integer, ties to even ([0 <= N], [0 < D]). *)
Definition round_half_even_div (N D : Z) : Z :=
  let q := (N / D)%Z in
  match (2 * (N mod D) ?= D)%Z with
  | Lt => q
  | Gt => (q + 1)%Z
  | Eq => if Z.even q then q else (q + 1)%Z
  end.

(** [round(x, 2)]: the float nearest to the decimal that is [x] rounded
    half-even to two places; NaN, infinities, zeros and integral values
    are returned unchanged. *)
Definition round2 (x : F64.t) : F64.t :=
  match x with
  | S754_finite s m e =>
      if (0 <=? e)%Z then x
      else
        match round_half_even_div (100 * Zpos m) (2 ^ (- e)) with
        | Zpos r =>
            let '(q, e', l) :=
              SFdiv_core_binary F64.prec F64.emax (Zpos r) 0 100 0 in
            binary_round_aux F64.prec F64.emax s q e' l
        | _ => S754_zero s
        end
  | _ => x
  end.
End Py.

(** ** The server [app.py]: loading the models, and [/api/predict] *)

Module App.
#[global] Instance exn_eq_dec : EqDecision exn.
Proof. solve_decision. Defined.

(** The two module-level globals; [None] when loading failed. *)
Record models := mkModels {
  scaler : option Sklearn.StandardScaler;
  pinn_model : option Keras.Sequential
}.

(** A JSON response body, and the pair that a view returns. *)
Inductive body :=
  | fwi_prediction (fwi_value : F64.t)
  | error (msg : string)
  | prediction_error (e : exn)
  | unauthorized.

Definition response : Type := body * nat.

(** The keys read from the request, in the order of the features the model
    was trained on. *)
Definition feature_keys : list string :=
  ["temperature"; "humidity"; "wind_speed"; "rain";
   "ffmc"; "dmc"; "dc"; "isi"].

Section Server.
Variable float_of_str : string -> option F64.t.
(** Deserializers: what [pickle.load] and [tf.keras.models.load_model] make
    of a file's content. *)
Variable Content : Type.
Variable pickle_loads : Content -> outcome Sklearn.StandardScaler.
Variable keras_load : Content -> outcome Keras.Sequential.

(** Opening and reading a file. *)
Definition read_file (fs : gmap string Content) (path : string)
  : outcome Content :=
  match fs !! path with
  | Some content => Returned content
  | None => Raised FileNotFoundError
  end.

(** The body of the [try] block at import time, lines 26 to 32. *)
Definition load_artifacts (base_dir : string) (fs : gmap string Content)
  : outcome (Sklearn.StandardScaler * Keras.Sequential) :=
  let scaler_path := path_join base_dir "scaler_pinn.pkl" in
  let model_path := path_join base_dir "fwi_pinn_model.keras" in
  scaler ← read_file fs scaler_path ≫= pickle_loads;
  pinn_model ← read_file fs model_path ≫= keras_load;
  mret (scaler, pinn_model).

(** The [try] statement, lines 25 to 45: each of the three handlers sets
    both globals to [None]. *)
Definition load_models (base_dir : string) (fs : gmap string Content)
  : models :=
  match load_artifacts base_dir fs with
  | Returned (scaler, pinn_model) => mkModels (Some scaler) (Some pinn_model)
  | Raised e =>
      if decide (e = FileNotFoundError) then mkModels None None
      else if decide (e = ImportError) then mkModels None None
      else mkModels None None
  end.

(** The [try] block of [predict], lines 181 to 196. *)
Definition predict_value (scaler : Sklearn.StandardScaler)
    (pinn_model : Keras.Sequential) (data : Py.json) : outcome F64.t :=
  features ← mapM (fun key => Py.get data key (Py.VInt 0)
                               ≫= Py.float float_of_str) feature_keys;
  scaled_features ← Sklearn.transform scaler [features];
  let prediction := Keras.call pinn_model (astype_float32 scaled_features) in
  match prediction with
  | (p :: _) :: _ => Returned (Py.round2 (F64.of_f32 p))
  | _ => Raised (Exn "IndexError")
  end.

(** The view function [predict]. A loaded scaler or model is a truthy
    object, so that [not pinn_model or not scaler] tests for [None]. *)
Definition predict (ctx : models) (request_json : Py.json) : response :=
  match pinn_model ctx, scaler ctx with
  | Some pinn_model, Some scaler =>
      let data := Py.or_empty_dict request_json in
      match predict_value scaler pinn_model data with
      | Returned fwi_value => (fwi_prediction fwi_value, 200)
      | Raised e => (prediction_error e, 400)
      end
  | _, _ =>
      (error "Prediction models are not available on the server.", 503)
  end.

(** [@login_required]: a request without a logged-in user is answered
    with 401 and the view is not called. *)
Definition login_required (view : response) (is_authenticated : bool)
  : response :=
  if is_authenticated then view else (unauthorized, 401).

Definition api_predict (ctx : models) (is_authenticated : bool)
    (request_json : Py.json) : response :=
  login_required (predict ctx request_json) is_authenticated.
End Server.
End App.


(** ** The losses in the words of the specification *)

Module Spec.
(** The known direction of the output in a designated feature. *)
Inductive monotonicity := NonDecreasing | NonIncreasing.

(** Temperature, relative humidity, wind speed and rain: the first four
    fields of the feature vector, each with its direction. *)
Definition designated_features : list (nat * monotonicity) :=
  [(0, NonDecreasing); (1, NonIncreasing); (2, NonDecreasing); (3, NonIncreasing)].

(** [max(0, -gradient)] where the output must not decrease, [max(0, gradient)]
    where it must not increase. *)
Definition violation (d : monotonicity) (gradient : F32.t) : F32.t :=
  match d with
  | NonDecreasing => TF.maximum F32.zero (F32.opp gradient)
  | NonIncreasing => TF.maximum F32.zero gradient
  end.

(** The per-sample violation averaged over the batch, for one feature. *)
Definition mean_violation (gradients : list (list F32.t))
    (f : nat * monotonicity) : F32.t :=
  TF.reduce_mean (map (fun row => violation f.2 (nth f.1 row F32.nan)) gradients).

(** The four averages summed into one scalar. *)
Definition physics_penalty (gradients : list (list F32.t)) : F32.t :=
  match map (mean_violation gradients) designated_features with
  | [] => F32.zero
  | first :: others => fold_left F32.add others first
  end.

(** Total loss: data loss plus weight times physics loss. *)
Definition total_loss (weight data_loss physics_loss : F32.t) : F32.t :=
  F32.add data_loss (F32.mul weight physics_loss).

(** The number of training steps of a run: one per batch of every epoch. *)
Definition scheduled_steps {B : Type} (dataset : nat -> list B) : nat :=
  list_sum (map (fun epoch => length (dataset epoch))
                (seq 0 TrainPinnModel.N_EPOCHS)).

(** The losses that [train_step] computes on some batch of the data set,
    at some value of the trainable variables. *)
Definition recorded_on
    (dataset : nat -> list (list (list F32.t) * list (list F32.t)))
    (l : TrainPinnModel.losses) : Prop :=
  exists epoch x_batch y_batch vars,
    In (x_batch, y_batch) (dataset epoch)
    /\ l = TrainPinnModel.taped_losses x_batch y_batch vars.

(** The signs under which the specification promises no penalty. *)
Definition respects_physics (row : list F32.t) : Prop :=
  F32.leb F32.zero (nth 0 row F32.nan) = true /\
  F32.leb (nth 1 row F32.nan) F32.zero = true /\
  F32.leb F32.zero (nth 2 row F32.nan) = true /\
  F32.leb (nth 3 row F32.nan) F32.zero = true.
End Spec.

(** ** Signs of floating-point values *)

(** Not below zero: a zero of either sign, a positive number, plus infinity,
    or a NaN (which compares below nothing). *)
Definition not_negative (x : spec_float) : Prop :=
  match x with
  | S754_zero _ | S754_finite false _ _ | S754_infinity false | S754_nan => True
  | _ => False
  end.

(** The same without the negative zero: what sums, products and quotients of
    such values stay in. *)
Definition plus_signed (x : spec_float) : Prop :=
  match x with
  | S754_zero false | S754_finite false _ _ | S754_infinity false | S754_nan =>
      True
  | _ => False
  end.

(** ** Quantities used to state properties of the training loop *)

(** What [tf.keras.metrics.Mean] reports for the values it was given:
    their mean, and [0.0] when it was given none. *)
Definition reported_mean (values : list F32.t) : F32.t :=
  match values with
  | [] => F32.zero
  | _ :: _ => TF.reduce_mean values
  end.

(** The condition under which the loop prints a progress line. *)
Definition prints_progress (epoch : nat) : bool :=
  ((epoch + 1) mod 10 =? 0) || (epoch =? TrainPinnModel.N_EPOCHS - 1).

(** ** Accounts and sessions ([app.py], sections 3 and 4) *)

Module Auth.
(** A row of the [User] table. *)
Record User := mkUser {
  id : nat;
  email : string;
  password : string
}.

(** What the views answer. *)
Inductive body :=
  | message (msg : string)
  | error (msg : string)
  | login_successful (user_email : string)
  | session_info (is_logged_in : bool) (user_email : option string)
  | unauthorized.

Definition response : Type := body * nat.

(** [data.get('email')] and [data.get('password')] for a body that is a JSON
    object whose two fields, where present, are strings: [None] for an
    absent or [null] field. *)
Record credentials := mkCredentials {
  given_email : option string;
  given_password : option string
}.

(** Truthiness of such a value: [None] and the empty string are falsy. *)
Definition truthy (v : option string) : bool :=
  match v with
  | None => false
  | Some s => negb (String.eqb s "")
  end.

(** [User.query.filter_by(email=email).first()]. *)
Definition first_by_email (users : list User) (e : string) : option User :=
  List.find (fun u => String.eqb (email u) e) users.

(** [db.session.get(User, user_id)]. *)
Definition get_by_id (users : list User) (i : nat) : option User :=
  List.find (fun u => Nat.eqb (id u) i) users.

(** The primary key of a new row: one more than the largest key in use. *)
Definition next_id (users : list User) : nat :=
  S (fold_right Nat.max 0 (map id users)).

(** [load_user]: the session stores the user's id. *)
Definition load_user (users : list User) (user_id : nat) : option User :=
  get_by_id users user_id.

(** [current_user], for a session that holds a user id or nothing: the
    loaded user, or the anonymous user ([None]). *)
Definition current_user (users : list User) (session : option nat)
  : option User :=
  match session with
  | Some user_id => load_user users user_id
  | None => None
  end.

Definition is_authenticated (users : list User) (session : option nat) : bool :=
  match current_user users session with
  | Some _ => true
  | None => false
  end.

Section Bcrypt.
(** [bcrypt.generate_password_hash], which draws a salt, and
    [bcrypt.check_password_hash]. *)
Variable Salt : Type.
Variable generate_password_hash : Salt -> string -> string.
Variable check_password_hash : string -> string -> bool.

(** [register]: the new table, and the answer. *)
Definition register (users : list User) (salt : Salt) (c : credentials)
  : list User * response :=
  match given_email c, given_password c with
  | Some e, Some p =>
      if negb (truthy (Some e) && truthy (Some p)) then
        (users, (error "Email and password are required", 400))
      else
        match first_by_email users e with
        | Some _ => (users, (error "Email already registered", 409))
        | None =>
            let hashed_password := generate_password_hash salt p in
            let new_user := mkUser (next_id users) e hashed_password in
            (users ++ [new_user],
             (message ("User " +:+ e +:+ " registered successfully"), 201))
        end
  | _, _ => (users, (error "Email and password are required", 400))
  end.

(** [login]: the new session, and the answer. *)
Definition login (users : list User) (session : option nat) (c : credentials)
  : option nat * response :=
  match given_email c, given_password c with
  | Some e, Some p =>
      if negb (truthy (Some e) && truthy (Some p)) then
        (session, (error "Email and password are required", 400))
      else
        match first_by_email users e with
        | Some user =>
            if check_password_hash (password user) p then
              (Some (id user), (login_successful (email user), 200))
            else (session, (error "Invalid email or password", 401))
        | None => (session, (error "Invalid email or password", 401))
        end
  | _, _ => (session, (error "Email and password are required", 400))
  end.
End Bcrypt.

(** [logout], under [@login_required]. *)
Definition logout (users : list User) (session : option nat)
  : option nat * response :=
  if is_authenticated users session then
    (None, (message "Logout successful", 200))
  else (session, (unauthorized, 401)).

(** [check_session]. *)
Definition check_session (users : list User) (session : option nat)
  : response :=
  match current_user users session with
  | Some user => (session_info true (Some (email user)), 200)
  | None => (session_info false None, 401)
  end.
End Auth.

Definition IndexError : exn := Exn "IndexError".
Definition KeyError : exn := Exn "KeyError".

(** ** Active fires ([app.py], [get_fires]) *)

Module Fires.
(** [s.split(sep)] for a one-character separator: the pieces between the
    separators, at least one piece. *)
Fixpoint split (sep : Ascii.ascii) (s : string) : list string :=
  match s with
  | EmptyString => [EmptyString]
  | String c rest =>
      if Ascii.eqb c sep then EmptyString :: split sep rest
      else match split sep rest with
           | piece :: pieces => String c piece :: pieces
           | [] => [String c EmptyString]
           end
  end.

(** [l.index(x)]: the first position of [x], or [ValueError]. *)
Fixpoint index (x : string) (l : list string) : outcome nat :=
  match l with
  | [] => Raised ValueError
  | y :: l' =>
      if String.eqb y x then Returned 0
      else i ← index x l'; mret (S i)
  end.

(** [l[i]] for [0 <= i]: the item, or [IndexError]. *)
Definition item (l : list string) (i : nat) : outcome string :=
  match l !! i with
  | Some s => Returned s
  | None => Raised (IndexError)
  end.

Record fire := mkFire { lat : F64.t; lon : F64.t }.

Inductive body :=
  | fires (l : list fire)
  | error (msg : string)
  | failed (e : exn).

Definition response : Type := body * nat.

Section Service.
Variable float_of_str : string -> option F64.t.
(** [requests.get(url, timeout=15)], [raise_for_status()] and
    [response.text.splitlines()]: the lines of the answer, or the exception
    of a failed request. *)
Variable get_lines : string -> outcome (list string).

Definition float (s : string) : outcome F64.t :=
  match float_of_str s with
  | Some x => Returned x
  | None => Raised ValueError
  end.

(** The body of the [for] loop: the inner [try] with its
    [except (ValueError, IndexError): continue]. *)
Definition line_body (lat_idx lon_idx : nat) (fires : list fire)
    (line : string) : outcome (list fire) :=
  let parts := split ","%char line in
  match (lat ← item parts lat_idx ≫= float;
         lon ← item parts lon_idx ≫= float;
         mret (mkFire lat lon)) with
  | Returned f => Returned (fires ++ [f])
  | Raised e =>
      if bool_decide (e = ValueError) || bool_decide (e = IndexError)
      then Returned fires
      else Raised e
  end.

Fixpoint for_lines (lat_idx lon_idx : nat) (lines : list string)
    (fires : list fire) : outcome (list fire) :=
  match lines with
  | [] => Returned fires
  | line :: rest =>
      fires' ← line_body lat_idx lon_idx fires line;
      for_lines lat_idx lon_idx rest fires'
  end.

(** The statements after the request, up to [return jsonify(fires), 200]. *)
Definition parse (csv_lines : list string) : outcome (list fire) :=
  if 1 <? length csv_lines then
    let header := split ","%char (hd EmptyString csv_lines) in
    lat_idx ← index "latitude" header;
    lon_idx ← index "longitude" header;
    for_lines lat_idx lon_idx (tl csv_lines) []
  else Returned [].

Definition url (key : string) : string :=
  "https://firms.modaps.eosdis.nasa.gov/api/area/csv/" +:+ key
  +:+ "/VIIRS_SNPP_NRT/68,6,98,38/1".

(** The view, for the value of the environment variable [NASA_API_KEY]. *)
Definition get_fires (NASA_API_KEY : option string) : response :=
  match NASA_API_KEY with
  | Some key =>
      if String.eqb key "" then (error "Server missing NASA_API_KEY", 500)
      else
        match get_lines (url key) ≫= parse with
        | Returned l => (fires l, 200)
        | Raised e => (failed e, 500)
        end
  | None => (error "Server missing NASA_API_KEY", 500)
  end.
End Service.

(** A data line's fire, when it has both fields and both are numbers. *)
Definition fire_of_line (float_of_str : string -> option F64.t)
    (lat_idx lon_idx : nat) (line : string) : option fire :=
  match split ","%char line !! lat_idx, split ","%char line !! lon_idx with
  | Some a, Some b =>
      match float_of_str a, float_of_str b with
      | Some x, Some y => Some (mkFire x y)
      | _, _ => None
      end
  | _, _ => None
  end.

(** [sep.join(pieces)]. *)
Fixpoint join (sep : Ascii.ascii) (pieces : list string) : string :=
  match pieces with
  | [] => EmptyString
  | [piece] => piece
  | piece :: rest => piece +:+ String sep (join sep rest)
  end.
End Fires.

(** ** JSON answers of the remote services

    What [response.json()] delivers, with the operations the views apply
    to it. Every operation is Python's on a value of any type: the views do
    not check the shape of an answer. *)

Module Json.
#[warnings="-register-all"]
Inductive value :=
  | JNull
  | JBool (b : bool)
  | JInt (n : Z)
  | JFloat (x : F64.t)
  | JStr (s : string)
  | JList (l : list value)
  | JDict (d : gmap string value).

(** [bool(v)]. *)
Definition truthy (v : value) : bool :=
  match v with
  | JNull => false
  | JBool b => b
  | JInt n => negb (n =? 0)%Z
  | JFloat x => negb (F64.is_zero x)
  | JStr s => negb (String.eqb s "")
  | JList l => negb (Nat.eqb (length l) 0)
  | JDict d => negb (Nat.eqb (size d) 0)
  end.

(** [v or default]. *)
Definition or_else (v default : value) : value :=
  if truthy v then v else default.

(** [v.get(key, default)]: only a dict has the method. *)
Definition get (v : value) (key : string) (default : value) : outcome value :=
  match v with
  | JDict d => Returned (match d !! key with Some x => x | None => default end)
  | _ => Raised AttributeError
  end.

(** [key in v]: a key of a dict, an item of a list, a substring of a
    string; other values are not containers. *)
Definition contains (key : string) (v : value) : outcome bool :=
  match v with
  | JDict d => Returned (bool_decide (is_Some (d !! key)))
  | JList l =>
      Returned (existsb (fun x => match x with
                                  | JStr s => String.eqb s key
                                  | _ => false
                                  end) l)
  | JStr s =>
      Returned (match String.index 0 key s with Some _ => true | None => false end)
  | _ => Raised TypeError
  end.

(** [len(v)]. *)
Definition len (v : value) : outcome nat :=
  match v with
  | JDict d => Returned (size d)
  | JList l => Returned (length l)
  | JStr s => Returned (String.length s)
  | _ => Raised TypeError
  end.

(** [v[i]] for [0 <= i]: a dict of JSON has no integer key. *)
Definition getitem (v : value) (i : nat) : outcome value :=
  match v with
  | JList l =>
      match l !! i with
      | Some x => Returned x
      | None => Raised IndexError
      end
  | JStr s =>
      match String.get i s with
      | Some c => Returned (JStr (String c EmptyString))
      | None => Raised IndexError
      end
  | JDict _ => Raised KeyError
  | _ => Raised TypeError
  end.

(** The number [v] as the float operand of [v * c] and [v / c] for a float
    [c]: a string, a list, a dict and [None] are refused. *)
Definition float_operand (v : value) : outcome F64.t :=
  match v with
  | JBool b => Returned (if b then F64.one else F64.zero)
  | JInt n =>
      let x := F64.of_Z n in
      if F64.is_inf x then Raised OverflowError else Returned x
  | JFloat x => Returned x
  | _ => Raised TypeError
  end.

(** [a / b] for integers [a] and [0 < b]: the float nearest to the
    quotient. *)
Definition int_true_div (a b : Z) : outcome F64.t :=
  match a with
  | Z0 => Returned F64.zero
  | _ =>
      let '(q, e, l) :=
        SFdiv_core_binary F64.prec F64.emax (Z.abs a) 0 b 0 in
      let x := binary_round_aux F64.prec F64.emax (a <? 0)%Z q e l in
      if F64.is_inf x then Raised OverflowError else Returned x
  end.
End Json.

(** ** Current weather ([app.py], [get_weather]) *)

Module Weather.
Import Json.

Definition COUNTRY_COORDS : list (string * (string * string)) :=
  [("India", ("28.6139", "77.2090"));
   ("USA", ("38.9637", "-95.7129"));
   ("Canada", ("56.1304", "-106.3468"))].

(** [COUNTRY_COORDS.get(country)]. *)
Definition coords_of (country : string) : option (string * string) :=
  snd <$> List.find (fun entry => String.eqb (fst entry) country)
                    COUNTRY_COORDS.

(** The literals [2.23694] and [25.4]. *)
Definition MPH_PER_MS : F64.t := S754_finite false 5037141075225079 (-51).
Definition MM_PER_INCH : F64.t := S754_finite false 7149464408450662 (-48).

Record weather_data := mkWeather {
  temperature : value;
  humidity : value;
  wind_speed : F64.t;
  rain : F64.t
}.

(** The answer of the service inside a raised [HTTPError]. *)
Record http_response := mkHttpResponse {
  status_code : nat;
  json : outcome value;
  text : string
}.

(** How the request can fail: [HTTPError], another [RequestException], or
    an exception outside that hierarchy. *)
Inductive failure :=
  | HTTPError (resp : option http_response)
  | RequestException (str_e : string)
  | OtherException (e : exn).

Inductive detail :=
  | no_detail
  | json_detail (v : value)
  | text_detail (s : string).

Inductive body :=
  | weather (w : weather_data)
  | error (msg : string)
  | service_error (msg : string) (d : detail)
  | unexpected (e : exn).

Definition response : Type := body * nat.

(** The [for key in ('1h', '3h')] loop with its [break]. *)
Fixpoint rain_reading (keys : list string) (rain_dict : value)
    : outcome value :=
  match keys with
  | [] => Returned (JInt 0)
  | key :: rest =>
      present ← contains key rain_dict;
      if present : bool
      then v ← get rain_dict key JNull; mret (or_else v (JInt 0))
      else rain_reading rest rain_dict
  end.

(** From [data = response.json()] to the dict [weather_data]. *)
Definition weather_of (data : value) : outcome weather_data :=
  wind ← get data "wind" JNull;
  speed ← get (or_else wind (JDict ∅)) "speed" JNull;
  let wind_speed_ms := or_else speed (JInt 0) in
  main ← get data "main" JNull;
  let main_data := or_else main (JDict ∅) in
  rain ← get data "rain" JNull;
  let rain_dict := or_else rain (JDict ∅) in
  rain_mm ← rain_reading ["1h"; "3h"] rain_dict;
  temperature ← get main_data "temp" (JInt 0);
  humidity ← get main_data "humidity" (JInt 0);
  speed_ms ← float_operand wind_speed_ms;
  mm ← float_operand (or_else rain_mm (JInt 0));
  mret (mkWeather temperature humidity (F64.mul speed_ms MPH_PER_MS)
                  (F64.div mm MM_PER_INCH)).

Definition url (coords : string * string) (API_KEY : string) : string :=
  "https://api.openweathermap.org/data/2.5/weather?lat=" +:+ fst coords
  +:+ "&lon=" +:+ snd coords +:+ "&appid=" +:+ API_KEY +:+ "&units=metric".

Section Service.
(** [requests.get(url, timeout=10)], [raise_for_status()] and
    [response.json()]. *)
Variable request : string -> failure + value.

(** The view, for the query parameter [country] and the environment
    variable [OWM_API_KEY]. *)
Definition get_weather (country OWM_API_KEY : option string) : response :=
  match coords_of (default "India" country) with
  | None => (error "Country not found", 404)
  | Some coords =>
      match OWM_API_KEY with
      | None => (error "Server is missing the OpenWeatherMap API key.", 500)
      | Some API_KEY =>
          if String.eqb API_KEY ""
          then (error "Server is missing the OpenWeatherMap API key.", 500)
          else
            match request (url coords API_KEY) with
            | inr data =>
                match weather_of data with
                | Returned w => (weather w, 200)
                | Raised e => (unexpected e, 500)
                end
            | inl (HTTPError None) =>
                (service_error "Failed to fetch data from weather service."
                               no_detail, 502)
            | inl (HTTPError (Some resp)) =>
                match json resp with
                | Returned v =>
                    (service_error "Failed to fetch data from weather service."
                                   (json_detail v), status_code resp)
                | Raised _ =>
                    (service_error "Failed to fetch data from weather service."
                                   (text_detail (text resp)), 502)
                end
            | inl (RequestException str_e) =>
                (service_error "Could not connect to weather service."
                               (text_detail str_e), 502)
            | inl (OtherException e) => (unexpected e, 500)
            end
      end
  end.
End Service.
End Weather.

(** ** Station time series ([app.py], [get_station_data]) *)

Module Station.
Import Json.

Record row := mkRow {
  id : nat;
  date : value;
  airTemp : value;
  rh : value;
  wind : value;
  precip : value;
  init : string;
  month : string;
  solar : value;
  ffmc : Z;
  dmc : Z;
  dc : Z;
  isi : Z;
  bui : value;
  fwi : value
}.

Inductive body :=
  | rows (l : list row)
  | error (msg : string)
  | failed (e : exn).

Definition response : Type := body * nat.

(** [(temp_c * 9/5 + 32) if temp_c is not None else None]. A string and a
    list are repeated by [* 9] and then refused by [/ 5]. *)
Definition air_temp (temp_c : value) : outcome value :=
  match temp_c with
  | JNull => Returned JNull
  | JBool b =>
      x ← int_true_div (if b then 9 else 0) 5;
      mret (JFloat (F64.add x (F64.of_Z 32)))
  | JInt n =>
      x ← int_true_div (n * 9) 5;
      mret (JFloat (F64.add x (F64.of_Z 32)))
  | JFloat x =>
      Returned (JFloat (F64.add (F64.div (F64.mul x (F64.of_Z 9)) (F64.of_Z 5))
                                (F64.of_Z 32)))
  | JStr _ | JList _ | JDict _ => Raised TypeError
  end.

(** [obs.get(name, [None] * len(dates))[i]]. *)
Definition reading (obs : value) (name : string) (n i : nat) : outcome value :=
  series ← get obs name (JList (replicate n JNull));
  getitem series i.

(** One turn of the loop: the row appended for [i]. *)
Definition row_of (obs dates : value) (n i : nat) : outcome row :=
  temp_c ← reading obs "air_temp_set_1" n i;
  date ← getitem dates i;
  airTemp ← air_temp temp_c;
  rh ← reading obs "relative_humidity_set_1" n i;
  wind ← reading obs "wind_speed_set_1" n i;
  precip ← reading obs "precip_accum_one_hour_set_1" n i;
  mret (mkRow (i + 1) date airTemp rh wind precip "daily" "N/A" JNull
              85 6 15 2 JNull JNull).

(** From [data = response.json()] to the rows, or [None] where the view
    answers 404. *)
Definition rows_of (data : value) : outcome (option (list row)) :=
  station ← get data "STATION" JNull;
  if truthy station then
    first ← getitem station 0;
    obs ← get first "OBSERVATIONS" (JDict ∅);
    dates ← get obs "date_time" (JList []);
    n ← len dates;
    l ← mapM (row_of obs dates n) (seq 0 n);
    mret (Some l)
  else mret None.

Definition api_url (key station_id start_date end_date : string) : string :=
  "https://api.synopticdata.com/v2/stations/timeseries?token=" +:+ key
  +:+ "&stid=" +:+ station_id +:+ "&start=" +:+ start_date +:+ "0000&end="
  +:+ end_date
  +:+ "2359&vars=air_temp,relative_humidity,wind_speed,precip_accum_one_hour"
  +:+ "&obtimezone=local&units=metric,mph,in".

(** [bool(s)] for a query parameter: absent and empty are false. *)
Definition given (s : option string) : bool :=
  match s with
  | Some s => negb (String.eqb s "")
  | None => false
  end.

Section Service.
(** [requests.get(api_url, timeout=15)], [raise_for_status()] and
    [response.json()]. *)
Variable request : string -> outcome value.

Definition get_station_data (station_id start_date end_date : option string)
    (SYNOPTIC_API_KEY : option string) : response :=
  if negb (given station_id && given start_date && given end_date)
  then (error "Missing station_id, start_date, or end_date", 400)
  else if negb (given SYNOPTIC_API_KEY)
  then (error "Server missing SYNOPTIC_API_KEY", 500)
  else
    match request (api_url (default "" SYNOPTIC_API_KEY)
                           (default "" station_id) (default "" start_date)
                           (default "" end_date)) ≫= rows_of with
    | Returned (Some l) => (rows l, 200)
    | Returned None => (error "Station data not found or invalid ID", 404)
    | Raised e => (failed e, 500)
    end.
End Service.
End Station.

(** ** The gradients of a run (script sections 6 and 7)

    The gradients that the steps of a run hand to the optimizer, in order,
    and the variables that applying a sequence of gradients produces. *)

Module Run.
Section Run.
Variable Gradients : Type.
Variable tape_gradient :
  (Keras.Sequential -> F32.t) -> Keras.Sequential -> Gradients.
Variable Optimizer : Type.
Variable apply_gradients :
  Optimizer -> Gradients -> Keras.Sequential -> Optimizer * Keras.Sequential.

Definition batch : Type := list (list F32.t) * list (list F32.t).

(** [tape.gradient(total_loss, model.trainable_variables)] of [train_step]
    for a batch and the variables the step starts from. *)
Definition step_gradient (model : Keras.Sequential) (b : batch) : Gradients :=
  tape_gradient
    (fun vars =>
       TrainPinnModel.total_loss (TrainPinnModel.taped_losses b.1 b.2 vars))
    model.

(** The gradients of the steps over [batches], each computed at the
    variables that the steps before it have left. *)
Fixpoint gradients_along (batches : list batch) (optimizer : Optimizer)
    (model : Keras.Sequential) : list Gradients :=
  match batches with
  | [] => []
  | b :: rest =>
      let g := step_gradient model b in
      let om := apply_gradients optimizer g model in
      g :: gradients_along rest om.1 om.2
  end.

(** The batches of the [N_EPOCHS] passes over the data set, in order. *)
Definition batches_of_run (dataset : nat -> list batch) : list batch :=
  concat (map dataset (seq 0 TrainPinnModel.N_EPOCHS)).

Definition gradient_sequence (dataset : nat -> list batch)
    (optimizer : Optimizer) (model : Keras.Sequential) : list Gradients :=
  gradients_along (batches_of_run dataset) optimizer model.

(** [optimizer.apply_gradients] for each gradient of a sequence in turn:
    the optimizer and the variables after each application. *)
Fixpoint replay (gradients : list Gradients) (optimizer : Optimizer)
    (model : Keras.Sequential) : list (Optimizer * Keras.Sequential) :=
  match gradients with
  | [] => []
  | g :: rest =>
      let om := apply_gradients optimizer g model in
      om :: replay rest om.1 om.2
  end.

(** The optimizer and the variables after the last application. *)
Definition final (gradients : list Gradients) (optimizer : Optimizer)
    (model : Keras.Sequential) : Optimizer * Keras.Sequential :=
  fold_left (fun om g => apply_gradients om.1 g om.2) gradients
            (optimizer, model).
End Run.
End Run.

(** ** Concrete models and data used in examples *)

Module Fixtures.
(** A model of the script's architecture with constant kernels and biases:
    the rows of the first kernel are constant, [first i] for feature [i]. *)
Definition constant_model (first : nat -> F32.t) (b1 k2 b2 k3 b3 : F32.t)
  : Keras.Sequential :=
  [ Keras.mkDense (map (fun i => replicate 128 (first i)) (seq 0 8))
                  (replicate 128 b1) Keras.relu;
    Keras.mkDense (replicate 128 (replicate 64 k2))
                  (replicate 64 b2) Keras.relu;
    Keras.mkDense (replicate 64 (replicate 1 k3))
                  (replicate 1 b3) Keras.linear ].

(** Kernel entries [+1] for temperature and wind speed, [-1] for humidity
    and rain, [0] for the four sub-indices. *)
Definition physical_signs (i : nat) : F32.t :=
  match i with
  | 0 | 2 => F32.one
  | 1 | 3 => F32.opp F32.one
  | _ => F32.zero
  end.

Definition physical_model : Keras.Sequential :=
  constant_model physical_signs F32.one F32.one F32.zero F32.one F32.zero.

Definition zero_batch : list (list F32.t) := [replicate 8 F32.zero].

(** Two days without rain: the Rain column (index 3) is constant. *)
Definition dry_days : list (list F32.t) :=
  [ map F32.of_Z [25; 40; 10; 0; 85; 6; 15; 2]%Z;
    map F32.of_Z [30; 35; 12; 0; 88; 7; 20; 3]%Z ].

(** A stand-in for the framework in closed examples: the reverse pass over
    the variables is not computed and the optimizer leaves the variables as
    they are. Which batches the loop visits, and the losses of the first
    step, do not depend on either. *)
Definition no_gradients (loss : Keras.Sequential -> F32.t)
    (vars : Keras.Sequential) : unit := tt.
Definition frozen_optimizer (o g : unit) (vars : Keras.Sequential)
  : unit * Keras.Sequential := (o, vars).

(** One sample per epoch whose target is [inf], as [pd.to_numeric] reads
    the text "inf". *)
Definition infinite_target_dataset (epoch : nat)
  : list (list (list F32.t) * list (list F32.t)) :=
  [(zero_batch, [[F32.inf]])].

(** The first four fifths of the rows for training, the rest for testing. *)
Definition split_at_80 (X y : list (list F32.t))
  : (list (list F32.t) * list (list F32.t)) *
    (list (list F32.t) * list (list F32.t)) :=
  let k := length X * 4 / 5 in
  ((take k X, drop k X), (take k y, drop k y)).

(** Kernels of zeros in place of random ones. *)
Definition zero_kernels (layer fan_in fan_out : nat) : list (list F32.t) :=
  replicate fan_in (replicate fan_out F32.zero).

(** A sample order that leaves the samples as they are. *)
Definition keep_order (epoch : nat) (l : list (list F32.t * list F32.t))
  : list (list F32.t * list F32.t) := l.

(** Targets for the two dry days. *)
Definition dry_targets : list (list F32.t) :=
  [[F32.of_Z 3]; [F32.of_Z 5]].

(** A file content is the saved object itself; each loader accepts the
    content written by its own saver. *)
Definition unpickle (c : Sklearn.StandardScaler + Keras.Sequential)
  : outcome Sklearn.StandardScaler :=
  match c with
  | inl s => Returned s
  | inr _ => Raised (Exn "UnpicklingError")
  end.
Definition load_keras (c : Sklearn.StandardScaler + Keras.Sequential)
  : outcome Keras.Sequential :=
  match c with
  | inl _ => Raised ValueError
  | inr m => Returned m
  end.

(** A scaler with mean 0 and scale 1 for each of the eight features. *)
Definition unit_scaler : Sklearn.StandardScaler :=
  Sklearn.mkScaler (replicate 8 F64.zero) (replicate 8 F64.one)
                   (replicate 8 F64.one).

(** A model of the script's architecture that answers [-1.0] everywhere:
    zero kernels and output bias [-1]. *)
Definition negative_model : Keras.Sequential :=
  constant_model (fun _ => F32.zero) F32.zero F32.zero F32.zero F32.zero
                 (F32.opp F32.one).

(** No string is accepted as a number. *)
Definition reject_strings (s : string) : option F64.t := None.

(** The request of the specification's end-to-end scenario. *)
Definition scenario_request : gmap string Py.value :=
  list_to_map
    [("temperature", Py.VFloat (F64.of_Z 25)); ("humidity", Py.VFloat (F64.of_Z 40));
     ("wind_speed", Py.VFloat (F64.of_Z 10)); ("rain", Py.VFloat (F64.of_Z 0));
     ("ffmc", Py.VFloat (F64.of_Z 85)); ("dmc", Py.VFloat (F64.of_Z 6));
     ("dc", Py.VFloat (F64.of_Z 15)); ("isi", Py.VFloat (F64.of_Z 2))].

(** A request that gives the temperature and the humidity only. *)
Definition partial_request : gmap string Py.value :=
  list_to_map
    [("temperature", Py.VFloat (F64.of_Z 25)); ("humidity", Py.VInt 40)].

(** The two dry days as scaled training data, with an empty test part. *)
Definition dry_scaled : TrainPinnModel.scaled_data :=
  TrainPinnModel.mkScaled unit_scaler (astype_float64 dry_days) []
                          dry_targets [].

(** A split whose test part repeats the training part. *)
Definition split_test_is_train (X y : list (list F32.t))
  : (list (list F32.t) * list (list F32.t)) *
    (list (list F32.t) * list (list F32.t)) :=
  let k := length X * 4 / 5 in
  ((take k X, take k X), (take k y, take k y)).

(** A request whose temperature is [null]. *)
Definition null_temperature_request : gmap string Py.value :=
  list_to_map [("temperature", Py.VNone); ("humidity", Py.VInt 40)].

(** A request whose rain is [Infinity], as Python's JSON parser accepts it. *)
Definition infinite_rain_request : gmap string Py.value :=
  list_to_map [("temperature", Py.VInt 25); ("rain", Py.VFloat F64.inf)].

(** A stand-in for bcrypt in closed examples: the "hash" is the password
    behind a marker and the salt, and checking compares after the marker. *)
Definition toy_hash (salt : string) (pw : string) : string :=
  "$toy$" +:+ pw.
Definition toy_check (hash pw : string) : bool :=
  String.eqb hash ("$toy$" +:+ pw).

(** A table with one user. *)
Definition one_user : list Auth.User :=
  [Auth.mkUser 1 "ada@example.org" "$toy$lovelace"].

(** A parser for closed examples: unsigned decimal integers only. *)
Fixpoint digits_value (s : string) (acc : Z) : option Z :=
  match s with
  | EmptyString => Some acc
  | String c rest =>
      let n := Ascii.nat_of_ascii c in
      if (48 <=? n) && (n <=? 57)
      then digits_value rest (10 * acc + Z.of_nat (n - 48))%Z
      else None
  end.
Definition float_of_digits (s : string) : option F64.t :=
  match s with
  | EmptyString => None
  | _ => option_map F64.of_Z (digits_value s 0%Z)
  end.

(** A small answer of the fire service: the third line has a bad latitude,
    the fourth lacks the longitude. *)
Definition fire_lines : list string :=
  ["latitude,longitude,bright"; "10,76,300"; "x,77,310"; "12"; "13,78,305"].
Definition fire_service (u : string) : outcome (list string) :=
  Returned fire_lines.

(** An answer of the weather service with a null one-hour and a positive
    three-hour rain reading. *)
Definition rain_1h_null : gmap string Json.value :=
  {[ "1h" := Json.JNull; "3h" := Json.JInt 5 ]}.
Definition calm_answer : gmap string Json.value :=
  {[ "main" := Json.JDict {[ "temp" := Json.JInt 30;
                             "humidity" := Json.JInt 40 ]} ]}.

(** A service that is down: the gateway answers 503 with an HTML page. *)
Definition gateway_page : Weather.http_response :=
  Weather.mkHttpResponse 503 (Raised ValueError) "<html>Service Unavailable</html>".
Definition service_down (u : string) : Weather.failure + Json.value :=
  inl (Weather.HTTPError (Some gateway_page)).

(** An answer of the station service with three observation times, the
    temperatures in Celsius (the second is missing) and no wind series. *)
Definition station_observations : gmap string Json.value :=
  {[ "date_time" := Json.JList [Json.JStr "d1"; Json.JStr "d2"; Json.JStr "d3"];
     "air_temp_set_1" := Json.JList [Json.JInt 100; Json.JNull; Json.JInt 0];
     "relative_humidity_set_1" :=
       Json.JList [Json.JInt 40; Json.JInt 45; Json.JInt 50; Json.JInt 55] ]}.
Definition first_station : gmap string Json.value :=
  {[ "OBSERVATIONS" := Json.JDict station_observations ]}.
Definition station_answer : gmap string Json.value :=
  {[ "STATION" := Json.JList [Json.JDict first_station] ]}.
Definition station_service (u : string) : outcome Json.value :=
  Returned (Json.JDict station_answer).

(** The same station with a humidity series of two readings for three
    observation times. *)
Definition short_observations : gmap string Json.value :=
  <["relative_humidity_set_1" := Json.JList [Json.JInt 40; Json.JInt 45]]>
    station_observations.
Definition first_short_station : gmap string Json.value :=
  {[ "OBSERVATIONS" := Json.JDict short_observations ]}.
Definition short_answer : gmap string Json.value :=
  {[ "STATION" := Json.JList [Json.JDict first_short_station] ]}.

(** The rows the station view builds from [station_answer]. *)
Definition station_rows : list Station.row :=
  Eval vm_compute in
    match Station.rows_of (Json.JDict station_answer) with
    | Returned (Some l) => l
    | _ => []
    end.
Definition short_service (u : string) : outcome Json.value :=
  Returned (Json.JDict short_answer).
Definition unknown_station_service (u : string) : outcome Json.value :=
  Returned (Json.JDict {[ "STATION" := Json.JList [] ]}).

(** An answer of the fire service whose header names no longitude. *)
Definition headless_fire_service (u : string) : outcome (list string) :=
  Returned ["latitude,bright"; "10,300"].

(** Three days: the first two are the training part of [split_at_80]. *)
Definition three_days : list (list F32.t) :=
  [ map F32.of_Z [25; 40; 10; 0; 85; 6; 15; 2]%Z;
    map F32.of_Z [30; 35; 12; 0; 88; 7; 20; 3]%Z;
    map F32.of_Z [28; 50; 8; 1; 80; 5; 12; 1]%Z ].

(** A sample order that reverses the samples in every epoch. *)
Definition reverse_order (epoch : nat) (l : list (list F32.t * list F32.t))
  : list (list F32.t * list F32.t) := rev l.

(** A stand-in for the tape in closed examples: the "gradient" of a step is
    the value of its loss at the current variables. *)
Definition loss_as_gradient (loss : Keras.Sequential -> F32.t)
    (vars : Keras.Sequential) : F32.t := loss vars.
(** A stand-in for the optimizer: an eighth of the gradient is added to
    the bias of the output layer. *)
Definition nudge_output_bias (o : unit) (g : F32.t) (vars : Keras.Sequential)
  : unit * Keras.Sequential :=
  match vars with
  | [l1; l2; l3] =>
      (o, [l1; l2;
           Keras.mkDense (Keras.kernel l3)
             (map (fun b => F32.add b (F32.mul (S754_finite false 8388608 (-26)) g))
                  (Keras.bias l3))
             (Keras.act l3)])
  | _ => (o, vars)
  end.

(** The two training days have the same index. *)
Definition same_targets : list (list F32.t) :=
  [[F32.of_Z 3]; [F32.of_Z 3]; [F32.of_Z 4]].

(** Kernels of ones: another draw of the initial kernels. *)
Definition unit_kernels (layer fan_in fan_out : nat) : list (list F32.t) :=
  replicate fan_in (replicate fan_out F32.one).
End Fixtures.

(** * Properties *)

(** ** Facts of binary floating-point arithmetic *)

Lemma shr_1_m (mrs : shr_record) :
  (0 <= shr_m mrs)%Z ->
  shr_m (shr_1 mrs) = (shr_m mrs / 2)%Z /\ (0 <= shr_m (shr_1 mrs))%Z.
Proof.
  destruct mrs as [m r s]. cbn [shr_m shr_1]. intros Hm.
  destruct m as [|[p|p|]|p]; cbn [shr_m]; (split; [|lia]).
  - reflexivity.
  - apply Z.div_unique with (r := 1%Z); lia.
  - apply Z.div_unique with (r := 0%Z); lia.
  - reflexivity.
  - lia.
Qed.

Lemma pow2_xO (p : positive) :
  (2 ^ Zpos p~0 = 2 ^ Zpos p * 2 ^ Zpos p)%Z.
Proof. rewrite <- Z.pow_add_r by lia. f_equal. lia. Qed.

Lemma pow2_xI (p : positive) :
  (2 ^ Zpos p~1 = 2 * (2 ^ Zpos p * 2 ^ Zpos p))%Z.
Proof.
  rewrite <- Z.pow_add_r by lia. rewrite <- Z.pow_succ_r by lia. f_equal. lia.
Qed.

(** Shifting right [p] times divides the mantissa by [2 ^ p]. *)
Lemma iter_pos_shr_m (p : positive) : forall mrs,
  (0 <= shr_m mrs)%Z ->
  shr_m (SpecFloat.iter_pos shr_1 p mrs) = (shr_m mrs / 2 ^ Zpos p)%Z
  /\ (0 <= shr_m (SpecFloat.iter_pos shr_1 p mrs))%Z.
Proof.
  induction p as [p IH|p IH|]; intros mrs Hm; cbn [SpecFloat.iter_pos].
  - destruct (shr_1_m mrs Hm) as [E1 P1].
    destruct (IH _ P1) as [E2 P2]. destruct (IH _ P2) as [E3 P3].
    split; [|exact P3]. rewrite E3, E2, E1, pow2_xI.
    assert (0 < 2 ^ Zpos p)%Z by (apply Z.pow_pos_nonneg; lia).
    rewrite !Z.div_div by lia. reflexivity.
  - destruct (IH _ Hm) as [E2 P2]. destruct (IH _ P2) as [E3 P3].
    split; [|exact P3]. rewrite E3, E2, pow2_xO.
    assert (0 < 2 ^ Zpos p)%Z by (apply Z.pow_pos_nonneg; lia).
    rewrite !Z.div_div by lia. reflexivity.
  - destruct (shr_1_m mrs Hm) as [E1 P1]. split; [|exact P1].
    rewrite E1. reflexivity.
Qed.

Lemma digits2_pos_bounds (p : positive) :
  (2 ^ (Zpos (digits2_pos p) - 1) <= Zpos p < 2 ^ Zpos (digits2_pos p))%Z.
Proof.
  induction p as [p IH|p IH|]; cbn [digits2_pos].
  - rewrite Pos2Z.inj_succ.
    replace (Z.succ (Zpos (digits2_pos p)) - 1)%Z
      with (Zpos (digits2_pos p)) by lia.
    rewrite Z.pow_succ_r by lia.
    assert (E : (2 ^ Zpos (digits2_pos p)
                 = 2 * 2 ^ (Zpos (digits2_pos p) - 1))%Z).
    { rewrite <- Z.pow_succ_r by lia. f_equal. lia. }
    lia.
  - rewrite Pos2Z.inj_succ.
    replace (Z.succ (Zpos (digits2_pos p)) - 1)%Z
      with (Zpos (digits2_pos p)) by lia.
    rewrite Z.pow_succ_r by lia.
    assert (E : (2 ^ Zpos (digits2_pos p)
                 = 2 * 2 ^ (Zpos (digits2_pos p) - 1))%Z).
    { rewrite <- Z.pow_succ_r by lia. f_equal. lia. }
    lia.
  - cbn. lia.
Qed.

Lemma digits2_pos_iter_xO (k p : positive) :
  Zpos (digits2_pos (Pos.iter xO p k)) = (Zpos (digits2_pos p) + Zpos k)%Z.
Proof.
  induction k as [|k IH] using Pos.peano_ind.
  - cbn [Pos.iter digits2_pos]. lia.
  - rewrite Pos.iter_succ. cbn [digits2_pos]. lia.
Qed.

(** A right shift by fewer places than the mantissa has digits leaves a
    positive mantissa. *)
Lemma shr_fexp_pos prec emax (m : positive) (e : Z) (l : location) :
  (fexp prec emax (Zpos (digits2_pos m) + e) - e < Zpos (digits2_pos m))%Z ->
  (0 < shr_m (fst (shr_fexp prec emax (Zpos m) e l)))%Z
  /\ snd (shr_fexp prec emax (Zpos m) e l)
     = Z.max e (fexp prec emax (Zpos (digits2_pos m) + e)).
Proof.
  unfold shr_fexp, shr. cbn [Zdigits2].
  set (n := (fexp prec emax (Zpos (digits2_pos m) + e) - e)%Z).
  assert (Hm0 : shr_m (shr_record_of_loc (Zpos m) l) = Zpos m).
  { destruct l as [|[| |]]; reflexivity. }
  intros Hlt. destruct n as [|k|k] eqn:En; cbn [fst snd].
  - rewrite Hm0. lia.
  - destruct (iter_pos_shr_m k (shr_record_of_loc (Zpos m) l)) as [E _].
    { rewrite Hm0. lia. }
    rewrite E, Hm0. split; [|lia].
    pose proof (digits2_pos_bounds m) as [Hlo _].
    apply Z.div_str_pos. split; [apply Z.pow_pos_nonneg; lia|].
    eapply Z.le_trans; [|exact Hlo]. apply Z.pow_le_mono_r; lia.
  - rewrite Hm0. lia.
Qed.

Lemma binary_round_aux_pos prec emax (m : positive) (e : Z) :
  (0 < prec)%Z -> (3 <= emax + Zpos (digits2_pos m) + e)%Z ->
  positive_float (binary_round_aux prec emax false (Zpos m) e loc_Exact).
Proof.
  intros Hp He. unfold binary_round_aux.
  assert (Hf : forall x, (3 - emax <= x)%Z -> fexp prec emax x = (x - prec)%Z).
  { intros x Hx. unfold fexp, emin. lia. }
  destruct (shr_fexp_pos prec emax m e loc_Exact) as [P1 E1].
  { rewrite Hf by lia. lia. }
  destruct (shr_fexp prec emax (Zpos m) e loc_Exact) as [mrs1 e1].
  cbn [fst snd] in P1, E1.
  set (m1 := round_nearest_even (shr_m mrs1) (loc_of_shr_record mrs1)).
  assert (P1' : (0 < m1)%Z).
  { unfold m1, round_nearest_even.
    destruct (loc_of_shr_record mrs1) as [|[| |]]; try lia.
    destruct (Z.even (shr_m mrs1)); lia. }
  destruct m1 as [|q|q] eqn:Eq1; try lia.
  rewrite Hf in E1 by lia.
  destruct (shr_fexp_pos prec emax q e1 loc_Exact) as [P2 _].
  { unfold fexp, emin. lia. }
  destruct (shr_fexp prec emax (Zpos q) e1 loc_Exact) as [mrs2 e2].
  cbn [fst] in P2.
  destruct (shr_m mrs2) as [|r|r]; try lia.
  destruct (e2 <=? emax - prec)%Z; exact I.
Qed.

(** The float of a positive integer is positive (possibly infinite). *)
Lemma binary_normalize_pos prec emax (n : Z) :
  (0 < prec)%Z -> (2 <= emax)%Z -> (0 < n)%Z ->
  positive_float (binary_normalize prec emax n 0 false).
Proof.
  intros Hp He Hn. destruct n as [|p|p]; try lia.
  unfold binary_normalize, binary_round.
  assert (Hf : fexp prec emax (Zpos (digits2_pos p) + 0)
               = (Zpos (digits2_pos p) - prec)%Z).
  { unfold fexp, emin. lia. }
  rewrite Hf. unfold shl_align.
  destruct (Zpos (digits2_pos p) - prec - 0)%Z as [|k|k] eqn:Ek.
  - apply binary_round_aux_pos; lia.
  - apply binary_round_aux_pos; lia.
  - apply binary_round_aux_pos; [lia|].
    rewrite digits2_pos_iter_xO. lia.
Qed.

Lemma F32_of_count_pos (n : nat) :
  n <> 0 -> positive_float (F32.of_Z (Z.of_nat n)).
Proof.
  intros Hn. apply binary_normalize_pos; unfold F32.prec, F32.emax; lia.
Qed.

Lemma F32_zero_div_pos (d : F32.t) :
  positive_float d -> F32.div F32.zero d = F32.zero.
Proof. destruct d as [s|s| |s m e]; try destruct s; simpl; intros []; reflexivity. Qed.

(** ** The physics penalty (claim C1) *)

Lemma reduce_sum_zeros (v : list F32.t) :
  Forall (fun x => x = F32.zero) v -> TF.reduce_sum v = F32.zero.
Proof.
  unfold TF.reduce_sum. induction 1 as [|x v Hx _ IH]; [reflexivity|].
  subst x. exact IH.
Qed.

(** The mean of a non-empty tensor of zeros is zero. *)
Lemma reduce_mean_zeros (v : list F32.t) :
  v <> [] -> Forall (fun x => x = F32.zero) v -> TF.reduce_mean v = F32.zero.
Proof.
  intros Hne Hz. unfold TF.reduce_mean. rewrite (reduce_sum_zeros v Hz).
  apply F32_zero_div_pos, F32_of_count_pos. now destruct v.
Qed.

(** No violation where the output does not decrease ... *)
Lemma no_violation_nondecreasing (g : F32.t) :
  F32.leb F32.zero g = true -> TF.maximum F32.zero (TF.negative g) = F32.zero.
Proof.
  destruct g as [s|s| |s m e]; try destruct s; cbn; congruence.
Qed.

(** ... and none where it does not increase. *)
Lemma no_violation_nonincreasing (g : F32.t) :
  F32.leb g F32.zero = true -> TF.maximum F32.zero g = F32.zero.
Proof.
  destruct g as [s|s| |s m e]; try destruct s; cbn; congruence.
Qed.

Lemma physics_indices :
  TrainPinnModel.PHYSICS_FEATURES_INDICES !!! "Temperature" = 0
  /\ TrainPinnModel.PHYSICS_FEATURES_INDICES !!! "RH" = 1
  /\ TrainPinnModel.PHYSICS_FEATURES_INDICES !!! "Ws" = 2
  /\ TrainPinnModel.PHYSICS_FEATURES_INDICES !!! "Rain" = 3.
Proof. repeat split; vm_compute; reflexivity. Qed.

(** The code's penalty is the specification's sum of mean violations. *)
Lemma physics_penalty_refines (gradients : list (list F32.t)) :
  TrainPinnModel.physics_penalty (Some gradients) = Spec.physics_penalty gradients.
Proof.
  unfold TrainPinnModel.physics_penalty, Spec.physics_penalty.
  destruct physics_indices as (-> & -> & -> & ->).
  cbn [map Spec.designated_features fold_left].
  unfold Spec.mean_violation, TF.column, TF.negative. cbn [fst snd Spec.violation].
  rewrite !map_map. reflexivity.
Qed.

Lemma physics_penalty_zero (gradients : list (list F32.t)) :
  gradients <> [] ->
  Forall Spec.respects_physics gradients ->
  Spec.physics_penalty gradients = F32.zero.
Proof.
  intros Hne Hok.
  assert (Hmean : forall f, In f Spec.designated_features ->
                            Spec.mean_violation gradients f = F32.zero).
  { intros f Hf. unfold Spec.mean_violation. apply reduce_mean_zeros.
    - destruct gradients; [congruence | discriminate].
    - apply Forall_map. eapply Forall_impl; [exact Hok|].
      intros row (Ht & Hr & Hw & Hn). cbn in Hf.
      destruct Hf as [<-|[<-|[<-|[<-|[]]]]]; cbn [fst snd Spec.violation].
      + apply (no_violation_nondecreasing _ Ht).
      + apply (no_violation_nonincreasing _ Hr).
      + apply (no_violation_nondecreasing _ Hw).
      + apply (no_violation_nonincreasing _ Hn). }
  unfold Spec.physics_penalty. cbn [map Spec.designated_features fold_left].
  rewrite !Hmean by (cbn; tauto). reflexivity.
Qed.

(** C1: for every non-empty batch, [physics_loss_fn] returns the sum over
    temperature, relative humidity, wind speed and rain of the batch mean of
    the per-sample violation, [max(0, -gradient)] for temperature and wind
    speed and [max(0, gradient)] for humidity and rain, of the gradient of the
    network output with respect to the input; and the penalty is exactly [0.0]
    when in every sample the gradient is non-negative for temperature and
    wind speed and non-positive for humidity and rain. *)
Theorem physics_loss_is_sum_of_mean_violations
    (model : Keras.Sequential) (x_batch gradients : list (list F32.t)) :
  x_batch <> [] ->
  Keras.tape_gradient_inputs model x_batch = Some gradients ->
  TrainPinnModel.physics_loss_fn model x_batch = Spec.physics_penalty gradients
  /\ (Forall Spec.respects_physics gradients ->
      TrainPinnModel.physics_loss_fn model x_batch = F32.zero).
Proof.
  intros Hne Hg. unfold TrainPinnModel.physics_loss_fn. rewrite Hg.
  rewrite physics_penalty_refines. split; [reflexivity|].
  intros Hok. apply physics_penalty_zero; [|exact Hok].
  unfold Keras.tape_gradient_inputs in Hg. injection Hg as <-.
  destruct x_batch; [congruence | discriminate].
Qed.

(** The gradient of [physical_model] at the origin has the promised signs,
    and its penalty is zero. *)
Lemma physics_loss_is_sum_of_mean_violations_witness :
  Fixtures.zero_batch <> []
  /\ Forall Spec.respects_physics
       (map (Keras.input_gradient Fixtures.physical_model) Fixtures.zero_batch)
  /\ TrainPinnModel.physics_loss_fn Fixtures.physical_model Fixtures.zero_batch
     = F32.zero.
Proof.
  assert (Hne : Fixtures.zero_batch <> []) by discriminate.
  assert (Hok : Forall Spec.respects_physics
            (map (Keras.input_gradient Fixtures.physical_model)
                 Fixtures.zero_batch)).
  { constructor; [|constructor]. vm_compute. repeat split. }
  split; [exact Hne|]. split; [exact Hok|].
  exact (proj2 (physics_loss_is_sum_of_mean_violations
                  Fixtures.physical_model Fixtures.zero_batch _ Hne eq_refl) Hok).
Defined.

(** ** Fitting the scaler on a constant column (claim C2) *)

Lemma nth_map_seq {A : Type} (f : nat -> A) (n j : nat) (d : A) :
  j < n -> nth j (map f (seq 0 n)) d = f j.
Proof.
  intros Hj. rewrite (nth_indep _ d (f 0)) by (rewrite length_map, length_seq; lia).
  rewrite map_nth. rewrite seq_nth by lia. reflexivity.
Qed.

Lemma fit_returns (X : list (list F64.t)) :
  X <> [] -> existsb (existsb F64.is_inf) X = false ->
  Sklearn.fit X =
  Returned
    {| Sklearn.mean_ :=
         map Sklearn.mean
             (map (fun j => Sklearn.column j X) (seq 0 (Sklearn.n_features X)));
       Sklearn.var_ :=
         map Sklearn.variance
             (map (fun j => Sklearn.column j X) (seq 0 (Sklearn.n_features X)));
       Sklearn.scale_ :=
         map (fun v => Sklearn.handle_zeros_in_scale (F64.sqrt v))
             (map Sklearn.variance
                (map (fun j => Sklearn.column j X)
                     (seq 0 (Sklearn.n_features X)))) |}.
Proof.
  intros Hne Hfin. unfold Sklearn.fit, Sklearn.check_array.
  destruct X as [|row X]; [congruence|]. rewrite Hfin. reflexivity.
Qed.




(** Every batch that [train_dataset] yields has at least one sample: the
    penalty of claim C1 is only ever computed on non-empty batches. *)
Lemma batch_aux_nonempty {A : Type} (fuel n : nat) :
  0 < n -> forall l : list A,
  Forall (fun b => b <> []) (Dataset.batch_aux fuel n l).
Proof.
  intros Hn. induction fuel as [|fuel IH]; intros l; cbn [Dataset.batch_aux].
  - constructor.
  - destruct l as [|a l]; constructor; [|apply IH].
    destruct n as [|n]; [lia|]. discriminate.
Qed.

Lemma train_batches_nonempty shuffle (d : TrainPinnModel.scaled_data)
    (epoch : nat) :
  Forall (fun b => b.1 <> []) (TrainPinnModel.train_dataset shuffle d epoch).
Proof.
  unfold TrainPinnModel.train_dataset, Dataset.batch. apply Forall_map.
  eapply Forall_impl;
    [apply batch_aux_nonempty; unfold TrainPinnModel.BATCH_SIZE; lia|].
  intros b Hb. cbn. destruct b; [congruence | discriminate].
Qed.

(** ** The training step and the training loop (claims C3, C6) *)

Lemma fold_left_ext {A B : Type} (f g : A -> B -> A) (l : list B) :
  (forall a b, f a b = g a b) ->
  forall a, fold_left f l a = fold_left g l a.
Proof.
  intros Hfg. induction l as [|b l IH]; intros a; [reflexivity|].
  cbn [fold_left]. rewrite Hfg. apply IH.
Qed.

Section TrainingLoop.
Context (Gradients : Type)
        (tape_gradient :
           (Keras.Sequential -> F32.t) -> Keras.Sequential -> Gradients)
        (Optimizer : Type)
        (apply_gradients :
           Optimizer -> Gradients -> Keras.Sequential ->
           Optimizer * Keras.Sequential).

Local Abbreviation train_step :=
  (TrainPinnModel.train_step Gradients tape_gradient Optimizer apply_gradients).
Local Abbreviation batch_body :=
  (TrainPinnModel.batch_body Gradients tape_gradient Optimizer apply_gradients).
Local Abbreviation epoch_body :=
  (TrainPinnModel.epoch_body Gradients tape_gradient Optimizer apply_gradients).
Local Abbreviation training_loop :=
  (TrainPinnModel.training_loop Gradients tape_gradient Optimizer
                                apply_gradients).
Local Abbreviation step_losses := (TrainPinnModel.step_losses Optimizer).
Local Abbreviation state := (TrainPinnModel.state Optimizer).

(** One batch appends the losses of one [train_step]. *)
Lemma batch_body_step_losses (sm : state * TrainPinnModel.epoch_metrics)
    (b : list (list F32.t) * list (list F32.t)) :
  step_losses (batch_body sm b).1
  = step_losses sm.1
    ++ [TrainPinnModel.taped_losses b.1 b.2 (TrainPinnModel.model _ sm.1)].
Proof.
  destruct sm as [st m], b as [x_batch y_batch].
  unfold TrainPinnModel.batch_body, TrainPinnModel.train_step.
  destruct (apply_gradients _ _ _) as [optimizer' model']. reflexivity.
Qed.

(** The inner loop appends one record per batch, each computed on a batch
    of the list. *)
Lemma batches_step_losses (bs : list (list (list F32.t) * list (list F32.t))) :
  forall sm,
  exists ls,
    step_losses (fold_left batch_body bs sm).1 = step_losses sm.1 ++ ls
    /\ length ls = length bs
    /\ Forall (fun l => exists x_batch y_batch vars,
                 In (x_batch, y_batch) bs
                 /\ l = TrainPinnModel.taped_losses x_batch y_batch vars) ls.
Proof.
  induction bs as [|b bs IH]; intros sm; cbn [fold_left].
  - exists []. rewrite app_nil_r. repeat split. constructor.
  - destruct (IH (batch_body sm b)) as (ls & E & Hlen & Hall).
    exists (TrainPinnModel.taped_losses b.1 b.2 (TrainPinnModel.model _ sm.1)
            :: ls).
    rewrite E, batch_body_step_losses, <- app_assoc. split; [reflexivity|].
    split; [cbn; lia|]. constructor.
    + exists b.1, b.2, (TrainPinnModel.model _ sm.1).
      split; [left; now destruct b | reflexivity].
    + eapply Forall_impl; [exact Hall|].
      intros l (x & y & v & Hin & ->). exists x, y, v. split; [now right|reflexivity].
Qed.

(** An epoch adds the records of its batches; printing adds none. *)
Lemma epoch_body_step_losses
    (dataset : nat -> list (list (list F32.t) * list (list F32.t)))
    (st : state) (epoch : nat) :
  exists ls,
    step_losses (epoch_body dataset st epoch) = step_losses st ++ ls
    /\ length ls = length (dataset epoch)
    /\ Forall (Spec.recorded_on dataset) ls.
Proof.
  destruct (batches_step_losses (dataset epoch) (st, TrainPinnModel.metrics_new))
    as (ls & E & Hlen & Hall).
  exists ls. unfold TrainPinnModel.epoch_body.
  destruct (fold_left _ _ _) as [st' m]. cbn [fst] in E.
  split; [|split; [exact Hlen|]].
  - destruct (_ || _); exact E.
  - eapply Forall_impl; [exact Hall|].
    intros l (x & y & v & Hin & ->). now exists epoch, x, y, v.
Qed.

Lemma epochs_step_losses
    (dataset : nat -> list (list (list F32.t) * list (list F32.t)))
    (epochs : list nat) :
  forall st,
  exists ls,
    step_losses (fold_left (epoch_body dataset) epochs st) = step_losses st ++ ls
    /\ length ls = list_sum (map (fun epoch => length (dataset epoch)) epochs)
    /\ Forall (Spec.recorded_on dataset) ls.
Proof.
  induction epochs as [|epoch epochs IH]; intros st; cbn [fold_left map].
  - exists []. rewrite app_nil_r. repeat split. constructor.
  - destruct (epoch_body_step_losses dataset st epoch) as (l1 & E1 & H1 & A1).
    destruct (IH (epoch_body dataset st epoch)) as (l2 & E2 & H2 & A2).
    exists (l1 ++ l2). rewrite E2, E1, <- app_assoc. split; [reflexivity|].
    split; [rewrite length_app, H1, H2; reflexivity|].
    apply Forall_app. split; assumption.
Qed.

(** The loop calls [train_step] once for every batch of every epoch, and
    everything it records was computed by [train_step] on a batch of the
    data set. *)
Lemma training_loop_step_losses
    (dataset : nat -> list (list (list F32.t) * list (list F32.t)))
    (optimizer : Optimizer) (model : Keras.Sequential) :
  length (step_losses (training_loop dataset optimizer model))
  = Spec.scheduled_steps dataset
  /\ Forall (Spec.recorded_on dataset)
            (step_losses (training_loop dataset optimizer model)).
Proof.
  unfold TrainPinnModel.training_loop.
  destruct (epochs_step_losses dataset (seq 0 TrainPinnModel.N_EPOCHS)
              (TrainPinnModel.mkState _ optimizer model [] [] []))
    as (ls & E & Hlen & Hall).
  rewrite E. cbn [TrainPinnModel.step_losses app]. split; assumption.
Qed.

(** C3: in every training step the scalar that the tape differentiates with
    respect to the trainable variables, and whose gradients go to the
    optimizer, is the mean-squared-error data loss plus the weight times the
    physics penalty; every total loss of a run is composed in this way; and
    the weight is the constant [0.1] (as a float32) throughout. *)
Theorem total_loss_is_data_plus_weighted_physics
    (dataset : nat -> list (list (list F32.t) * list (list F32.t)))
    (optimizer : Optimizer) (model : Keras.Sequential) :
  let weight := F32.round TrainPinnModel.PHYSICS_LOSS_WEIGHT in
  (forall (opt : Optimizer) (vars : Keras.Sequential)
          (x_batch y_batch : list (list F32.t)),
      train_step opt vars x_batch y_batch
      = (apply_gradients opt
           (tape_gradient
              (fun v => Spec.total_loss weight
                          (Keras.MeanSquaredError y_batch (Keras.call v x_batch))
                          (TrainPinnModel.physics_loss_fn v x_batch))
              vars)
           vars,
         TrainPinnModel.taped_losses x_batch y_batch vars))
  /\ Forall (fun l => TrainPinnModel.total_loss l
                      = Spec.total_loss weight (TrainPinnModel.data_loss l)
                                        (TrainPinnModel.physics_loss l))
            (step_losses (training_loop dataset optimizer model))
  /\ weight = S754_finite false 13421773 (-27).
Proof.
  intros weight. split; [|split].
  - reflexivity.
  - destruct (training_loop_step_losses dataset optimizer model) as [_ Hall].
    eapply Forall_impl; [exact Hall|].
    intros l (epoch & x & y & v & _ & ->). reflexivity.
  - reflexivity.
Qed.
End TrainingLoop.

(** The data loss against an infinite target is infinite or NaN, whatever
    the trainable variables are, and so is the total loss. *)
Lemma infinite_target_loss_not_finite (vars : Keras.Sequential) :
  F32.is_finite
    (TrainPinnModel.total_loss
       (TrainPinnModel.taped_losses Fixtures.zero_batch [[F32.inf]] vars))
  = false.
Proof.
  unfold TrainPinnModel.taped_losses. cbn [TrainPinnModel.total_loss].
  set (weighted := F32.mul _ _).
  assert (Hd : F32.is_finite
                 (TrainPinnModel.mse_loss_fn [[F32.inf]]
                    (Keras.call vars Fixtures.zero_batch)) = false).
  { unfold TrainPinnModel.mse_loss_fn, Keras.MeanSquaredError, Keras.call,
      Fixtures.zero_batch.
    cbn [map zip_with].
    destruct (Keras.forward vars _) as [|p rest]; [reflexivity|].
    cbn [zip_with].
    destruct p as [[]|[]| |[] m e]; reflexivity. }
  destruct (TrainPinnModel.mse_loss_fn _ _) as [s|s| |s m e];
    try discriminate Hd.
  - destruct weighted as [?|[]| |? ? ?]; destruct s; reflexivity.
  - reflexivity.
Qed.

(** C6, as the code has it: no loss or gradient is tested for finiteness.
    The training loop calls [train_step] once for every batch of every one of
    the [N_EPOCHS] epochs, whatever losses arise; and when the script
    returns, all scheduled steps were run and the variables of the last
    step were saved. *)
Theorem training_runs_every_scheduled_step
    (Gradients : Type)
    (tape_gradient :
       (Keras.Sequential -> F32.t) -> Keras.Sequential -> Gradients)
    (Optimizer : Type)
    (apply_gradients :
       Optimizer -> Gradients -> Keras.Sequential ->
       Optimizer * Keras.Sequential)
    shuffle glorot_uniform train_test_split
    (Content : Type) (pickle_dumps : Sklearn.StandardScaler -> Content)
    (keras_save : Keras.Sequential -> Content)
    (base_dir : string) (Adam : Optimizer) (X y : list (list F32.t))
    (fs : gmap string Content) :
  (forall dataset optimizer model,
      length (TrainPinnModel.step_losses Optimizer
                (TrainPinnModel.training_loop Gradients tape_gradient Optimizer
                   apply_gradients dataset optimizer model))
      = Spec.scheduled_steps dataset)
  /\ match TrainPinnModel.main Gradients tape_gradient Optimizer apply_gradients
             shuffle glorot_uniform train_test_split Content pickle_dumps
             keras_save base_dir Adam X y fs with
     | Returned (st, fs') =>
         exists d,
           TrainPinnModel.split_and_scale train_test_split X y = Returned d
           /\ length (TrainPinnModel.step_losses Optimizer st)
              = Spec.scheduled_steps (TrainPinnModel.train_dataset shuffle d)
           /\ fs' = TrainPinnModel.save Content pickle_dumps keras_save base_dir
                      (TrainPinnModel.scaler d)
                      (TrainPinnModel.model Optimizer st) fs
     | Raised _ => True
     end.
Proof.
  split.
  - intros dataset optimizer model.
    apply training_loop_step_losses.
  - unfold TrainPinnModel.main.
    destruct (TrainPinnModel.split_and_scale train_test_split X y) as [d|e] eqn:E;
      cbn.
    + exists d. split; [reflexivity|]. split; [|reflexivity].
      apply training_loop_step_losses.
    + exact I.
Qed.

(** The claim fails on a data set with an infinite target: the loss of
    every step is infinite or NaN, yet the loop runs all its 100 steps and
    prints its 10 progress lines. *)
Lemma training_continues_after_nonfinite_loss :
  let st :=
    TrainPinnModel.training_loop unit Fixtures.no_gradients unit
      Fixtures.frozen_optimizer Fixtures.infinite_target_dataset tt
      Fixtures.physical_model in
  length (TrainPinnModel.step_losses unit st) = 100
  /\ Forall (fun l => F32.is_finite (TrainPinnModel.total_loss l) = false)
            (TrainPinnModel.step_losses unit st).
Proof.
  intros st.
  destruct (training_loop_step_losses unit Fixtures.no_gradients unit
              Fixtures.frozen_optimizer Fixtures.infinite_target_dataset tt
              Fixtures.physical_model) as [Hlen Hall].
  split; [exact Hlen|].
  eapply Forall_impl; [exact Hall|].
  intros l (epoch & x & y & v & Hin & ->).
  destruct Hin as [[= <- <-]|[]].
  apply infinite_target_loss_not_finite.
Qed.

(** ** Runs that agree in gradients and sample orders *)

Lemma training_loop_ext
    (Gradients : Type)
    (tape_gradient1 tape_gradient2 :
       (Keras.Sequential -> F32.t) -> Keras.Sequential -> Gradients)
    (Optimizer : Type)
    (apply_gradients :
       Optimizer -> Gradients -> Keras.Sequential ->
       Optimizer * Keras.Sequential)
    (dataset1 dataset2 : nat -> list (list (list F32.t) * list (list F32.t)))
    (optimizer : Optimizer) (model : Keras.Sequential) :
  (forall loss vars, tape_gradient1 loss vars = tape_gradient2 loss vars) ->
  (forall epoch, dataset1 epoch = dataset2 epoch) ->
  TrainPinnModel.training_loop Gradients tape_gradient1 Optimizer
    apply_gradients dataset1 optimizer model
  = TrainPinnModel.training_loop Gradients tape_gradient2 Optimizer
      apply_gradients dataset2 optimizer model.
Proof.
  intros Hgrad Hdata. unfold TrainPinnModel.training_loop.
  apply fold_left_ext. intros st epoch.
  unfold TrainPinnModel.epoch_body. rewrite Hdata.
  rewrite (fold_left_ext
             (TrainPinnModel.batch_body Gradients tape_gradient1 Optimizer
                                        apply_gradients)
             (TrainPinnModel.batch_body Gradients tape_gradient2 Optimizer
                                        apply_gradients)); [reflexivity|].
  intros [s m] [x_batch y_batch].
  unfold TrainPinnModel.batch_body, TrainPinnModel.train_step.
  rewrite Hgrad. reflexivity.
Qed.

(** ** Saving and loading (claims C4, C10) *)

Lemma path_join_inj (dir a b : string) :
  path_join dir a = path_join dir b -> a = b.
Proof.
  unfold path_join. induction dir as [|c dir IH]; cbn; intros [= H]; auto.
Qed.

Lemma artifact_paths_differ (dir : string) :
  path_join dir "fwi_pinn_model.keras" <> path_join dir "scaler_pinn.pkl".
Proof. intros H. apply path_join_inj in H. discriminate H. Qed.

(** C4: for every scaler and model, and serializers whose loaders invert
    them ([pickle], the Keras format), the server's loading of the files
    that the script saved yields the saved scaler statistics and network
    parameters themselves, and therefore the same answer of [predict] on
    every request. *)
Theorem load_after_save_restores_state
    (Content : Type)
    (pickle_dumps : Sklearn.StandardScaler -> Content)
    (keras_save : Keras.Sequential -> Content)
    (pickle_loads : Content -> outcome Sklearn.StandardScaler)
    (keras_load : Content -> outcome Keras.Sequential)
    (float_of_str : string -> option F64.t)
    (base_dir : string) (scaler : Sklearn.StandardScaler)
    (model : Keras.Sequential) (fs : gmap string Content) :
  (forall s, pickle_loads (pickle_dumps s) = Returned s) ->
  (forall m, keras_load (keras_save m) = Returned m) ->
  App.load_artifacts Content pickle_loads keras_load base_dir
    (TrainPinnModel.save Content pickle_dumps keras_save base_dir scaler model fs)
  = Returned (scaler, model)
  /\ App.load_models Content pickle_loads keras_load base_dir
       (TrainPinnModel.save Content pickle_dumps keras_save base_dir scaler
                            model fs)
     = App.mkModels (Some scaler) (Some model)
  /\ forall request,
       App.predict float_of_str
         (App.load_models Content pickle_loads keras_load base_dir
            (TrainPinnModel.save Content pickle_dumps keras_save base_dir
                                 scaler model fs))
         request
       = App.predict float_of_str (App.mkModels (Some scaler) (Some model))
                     request.
Proof.
  intros Hpickle Hkeras.
  assert (Hload :
    App.load_artifacts Content pickle_loads keras_load base_dir
      (TrainPinnModel.save Content pickle_dumps keras_save base_dir scaler
                           model fs)
    = Returned (scaler, model)).
  { unfold App.load_artifacts, TrainPinnModel.save, App.read_file,
      TrainPinnModel.scaler_filename, TrainPinnModel.model_filename.
    rewrite lookup_insert_eq.
    rewrite lookup_insert_ne by apply artifact_paths_differ.
    rewrite lookup_insert_eq. cbn. rewrite Hpickle. cbn.
    rewrite Hkeras. reflexivity. }
  assert (Hmodels :
    App.load_models Content pickle_loads keras_load base_dir
      (TrainPinnModel.save Content pickle_dumps keras_save base_dir scaler
                           model fs)
    = App.mkModels (Some scaler) (Some model)).
  { unfold App.load_models. rewrite Hload. reflexivity. }
  split; [exact Hload|]. split; [exact Hmodels|].
  intros request. rewrite Hmodels. reflexivity.
Qed.

(** Saving the unit scaler and the physical model, then loading them. *)
Lemma load_after_save_restores_state_witness :
  App.load_models (Sklearn.StandardScaler + Keras.Sequential)
    Fixtures.unpickle Fixtures.load_keras "/srv/fwi"
    (TrainPinnModel.save (Sklearn.StandardScaler + Keras.Sequential) inl inr
       "/srv/fwi" Fixtures.unit_scaler Fixtures.physical_model ∅)
  = App.mkModels (Some Fixtures.unit_scaler) (Some Fixtures.physical_model).
Proof.
  exact (proj1 (proj2 (load_after_save_restores_state
                         (Sklearn.StandardScaler + Keras.Sequential) inl inr
                         Fixtures.unpickle Fixtures.load_keras
                         Fixtures.reject_strings "/srv/fwi"
                         Fixtures.unit_scaler Fixtures.physical_model ∅
                         (fun s => eq_refl) (fun m => eq_refl)))).
Defined.

(** C10: when loading the scaler or the model fails at process start, with
    whatever exception, both globals are [None], and [predict] answers every
    request with the 503 error response, without reading the request. *)
Theorem predict_unavailable_after_failed_load
    (Content : Type)
    (pickle_loads : Content -> outcome Sklearn.StandardScaler)
    (keras_load : Content -> outcome Keras.Sequential)
    (float_of_str : string -> option F64.t)
    (base_dir : string) (fs : gmap string Content) (e : exn) :
  App.load_artifacts Content pickle_loads keras_load base_dir fs = Raised e ->
  App.load_models Content pickle_loads keras_load base_dir fs
  = App.mkModels None None
  /\ forall request,
       App.predict float_of_str
         (App.load_models Content pickle_loads keras_load base_dir fs) request
       = (App.error "Prediction models are not available on the server.", 503).
Proof.
  intros Hfail.
  assert (Hnone : App.load_models Content pickle_loads keras_load base_dir fs
                  = App.mkModels None None).
  { unfold App.load_models. rewrite Hfail.
    destruct (decide (e = FileNotFoundError)); [reflexivity|].
    destruct (decide (e = ImportError)); reflexivity. }
  split; [exact Hnone|]. intros request. rewrite Hnone. reflexivity.
Qed.

(** With no files at all, loading raises [FileNotFoundError]; the scenario
    request is then answered with 503. *)
Lemma predict_unavailable_after_failed_load_witness :
  App.load_artifacts (Sklearn.StandardScaler + Keras.Sequential)
    Fixtures.unpickle Fixtures.load_keras "/srv/fwi" ∅
  = Raised FileNotFoundError
  /\ App.predict Fixtures.reject_strings
       (App.load_models (Sklearn.StandardScaler + Keras.Sequential)
          Fixtures.unpickle Fixtures.load_keras "/srv/fwi" ∅)
       (Py.JObject Fixtures.scenario_request)
     = (App.error "Prediction models are not available on the server.", 503).
Proof.
  assert (Hfail :
    App.load_artifacts (Sklearn.StandardScaler + Keras.Sequential)
      Fixtures.unpickle Fixtures.load_keras "/srv/fwi" ∅
    = Raised FileNotFoundError) by reflexivity.
  split; [exact Hfail|].
  exact (proj2 (predict_unavailable_after_failed_load
                  (Sklearn.StandardScaler + Keras.Sequential)
                  Fixtures.unpickle Fixtures.load_keras Fixtures.reject_strings
                  "/srv/fwi" ∅ FileNotFoundError Hfail)
               (Py.JObject Fixtures.scenario_request)).
Defined.

(** ** The scaler's statistics (claim C5) *)

Lemma mapM_Returned {A B : Type} (f : A -> outcome B) (l : list A)
    (ys : list B) :
  Forall2 (fun x y => f x = Returned y) l ys -> mapM f l = Returned ys.
Proof.
  induction 1 as [|x y l ys Hxy _ IH]; [reflexivity|].
  cbn [mapM]. rewrite Hxy. cbn. rewrite IH. reflexivity.
Qed.

Lemma mapM_Returned_length {A B : Type} (f : A -> outcome B) (l : list A) :
  forall ys, mapM f l = Returned ys -> length ys = length l.
Proof.
  induction l as [|x l IH]; intros ys; cbn [mapM].
  - intros [= <-]. reflexivity.
  - destruct (f x) as [y|e]; cbn; [|discriminate].
    destruct (mapM f l) as [ys'|e]; cbn; [|discriminate].
    intros [= <-]. cbn. f_equal. apply IH. reflexivity.
Qed.

(** The feature order of the endpoint is the order of [FEATURES]. *)
Lemma feature_keys_match_FEATURES :
  length App.feature_keys = length TrainPinnModel.FEATURES.
Proof. reflexivity. Qed.

(** What the [try] block of [predict] computes from the parsed features. *)
Lemma predict_value_of_features (float_of_str : string -> option F64.t)
    (scaler : Sklearn.StandardScaler) (pinn_model : Keras.Sequential)
    (data : Py.json) (features : list F64.t) :
  mapM (fun key => Py.get data key (Py.VInt 0) ≫= Py.float float_of_str)
       App.feature_keys = Returned features ->
  App.predict_value float_of_str scaler pinn_model data
  = (scaled_features ← Sklearn.transform scaler [features];
     match Keras.call pinn_model (astype_float32 scaled_features) with
     | (p :: _) :: _ => Returned (Py.round2 (F64.of_f32 p))
     | _ => Raised (Exn "IndexError")
     end).
Proof. intros Hf. unfold App.predict_value. rewrite Hf. reflexivity. Qed.

(** C5: the scaler's statistics are those of [fit] on the training part of
    the one split and of nothing else: a run with the same training part and
    any other test part has the same statistics. The same scaler
    standardizes the training part and the test part, and at inference
    [predict] standardizes the request's features with the scaler it was
    given. *)
Theorem scaler_fitted_on_training_split_only
    train_test_split (X y X_train X_test y_train y_test : list (list F32.t))
    (d : TrainPinnModel.scaled_data) :
  train_test_split X y = ((X_train, X_test), (y_train, y_test)) ->
  TrainPinnModel.split_and_scale train_test_split X y = Returned d ->
  Sklearn.fit (astype_float64 X_train) = Returned (TrainPinnModel.scaler d)
  /\ Sklearn.transform (TrainPinnModel.scaler d) (astype_float64 X_train)
     = Returned (TrainPinnModel.X_train_scaled d)
  /\ Sklearn.transform (TrainPinnModel.scaler d) (astype_float64 X_test)
     = Returned (TrainPinnModel.X_test_scaled d)
  /\ (forall train_test_split' X' y' X_test' y_train' y_test' d',
        train_test_split' X' y' = ((X_train, X_test'), (y_train', y_test')) ->
        TrainPinnModel.split_and_scale train_test_split' X' y' = Returned d' ->
        TrainPinnModel.scaler d' = TrainPinnModel.scaler d)
  /\ (forall float_of_str pinn_model data features,
        mapM (fun key => Py.get data key (Py.VInt 0) ≫= Py.float float_of_str)
             App.feature_keys = Returned features ->
        App.predict_value float_of_str (TrainPinnModel.scaler d) pinn_model data
        = (scaled_features ←
             Sklearn.transform (TrainPinnModel.scaler d) [features];
           match Keras.call pinn_model (astype_float32 scaled_features) with
           | (p :: _) :: _ => Returned (Py.round2 (F64.of_f32 p))
           | _ => Raised (Exn "IndexError")
           end)).
Proof.
  intros Hsplit Hrun.
  assert (Hchar : forall tts X0 y0 Xte ytr yte d0,
    tts X0 y0 = ((X_train, Xte), (ytr, yte)) ->
    TrainPinnModel.split_and_scale tts X0 y0 = Returned d0 ->
    Sklearn.fit (astype_float64 X_train) = Returned (TrainPinnModel.scaler d0)
    /\ Sklearn.transform (TrainPinnModel.scaler d0) (astype_float64 X_train)
       = Returned (TrainPinnModel.X_train_scaled d0)
    /\ Sklearn.transform (TrainPinnModel.scaler d0) (astype_float64 Xte)
       = Returned (TrainPinnModel.X_test_scaled d0)).
  { intros tts X0 y0 Xte ytr yte d0 Hs.
    unfold TrainPinnModel.split_and_scale, Sklearn.fit_transform. rewrite Hs.
    destruct (Sklearn.fit _) as [s|e1] eqn:E1; cbn; [|discriminate].
    destruct (Sklearn.transform s (astype_float64 X_train)) as [Xs|e2] eqn:E2;
      cbn; [|discriminate].
    destruct (Sklearn.transform s (astype_float64 Xte)) as [Xt|e3] eqn:E3;
      cbn; [|discriminate].
    intros [= <-]. cbn. auto. }
  destruct (Hchar _ _ _ _ _ _ _ Hsplit Hrun) as (Hfit & Htrain & Htest).
  repeat split; try assumption.
  - intros tts' X' y' X_test' y_train' y_test' d' Hsplit' Hrun'.
    destruct (Hchar _ _ _ _ _ _ _ Hsplit' Hrun') as (Hfit' & _).
    congruence.
  - intros float_of_str pinn_model data features.
    apply predict_value_of_features.
Qed.

(** On the two dry days, split after the first: the statistics are those of
    the first day alone. *)
Lemma scaler_fitted_on_training_split_only_witness :
  exists d,
    TrainPinnModel.split_and_scale Fixtures.split_at_80 Fixtures.dry_days
                                   Fixtures.dry_targets = Returned d
    /\ Sklearn.fit (astype_float64 (take 1 Fixtures.dry_days))
       = Returned (TrainPinnModel.scaler d).
Proof.
  destruct (TrainPinnModel.split_and_scale Fixtures.split_at_80
              Fixtures.dry_days Fixtures.dry_targets) as [d|e] eqn:Hrun.
  - exists d. split; [reflexivity|].
    exact (proj1 (scaler_fitted_on_training_split_only Fixtures.split_at_80
                    Fixtures.dry_days Fixtures.dry_targets
                    (take 1 Fixtures.dry_days) (drop 1 Fixtures.dry_days)
                    (take 1 Fixtures.dry_targets) (drop 1 Fixtures.dry_targets)
                    d eq_refl Hrun)).
  - vm_compute in Hrun. discriminate Hrun.
Defined.

(** ** The prediction endpoint (claims C8, C9) *)

(** A model of the script's three layers has exactly one output. *)
Lemma forward_single_output (m : Keras.Sequential) (x : list F32.t) :
  Keras.architecture m = TrainPinnModel.LAYERS ->
  exists p, Keras.forward m x = [p].
Proof.
  unfold Keras.architecture, TrainPinnModel.LAYERS.
  destruct m as [|L1 [|L2 [|L3 [|L4 m]]]]; try discriminate.
  intros [= _ _ _ _ H3 _]. unfold Keras.forward. cbn [fold_left].
  unfold Keras.call_layer at 1. unfold Keras.pre_activation at 1.
  destruct (Keras.bias L3) as [|b [|b' bs]]; try discriminate H3.
  cbn [imap map]. eexists. reflexivity.
Qed.

Lemma transform_single_row (s : Sklearn.StandardScaler) (row : list F64.t) :
  length row = length (Sklearn.mean_ s) ->
  Forall (fun x => F64.is_inf x = false) row ->
  Sklearn.transform s [row] = Returned [Sklearn.standardize s row].
Proof.
  intros Hlen Hfin. unfold Sklearn.transform, Sklearn.check_array.
  assert (Hno : existsb (existsb F64.is_inf) [row] = false).
  { cbn [existsb]. rewrite orb_false_r. clear Hlen.
    induction Hfin as [|x l Hx _ IH]; [reflexivity|].
    cbn [existsb]. rewrite Hx. exact IH. }
  rewrite Hno. cbn. rewrite Hlen, Nat.eqb_refl. reflexivity.
Qed.

Lemma or_empty_dict_object (d : gmap string Py.value) :
  Py.or_empty_dict (Py.JObject d) = Py.JObject d.
Proof.
  unfold Py.or_empty_dict, Py.truthy.
  destruct (bool_decide (d = ∅)) eqn:E; [|reflexivity].
  apply bool_decide_eq_true in E. subst d. reflexivity.
Qed.

(** With both artifacts loaded, well-shaped, and eight features without an
    infinity, [predict] answers 200 with the rounded model output. *)
Lemma predict_of_features (float_of_str : string -> option F64.t)
    (scaler : Sklearn.StandardScaler) (pinn_model : Keras.Sequential)
    (request : Py.json) (features : list F64.t) :
  length (Sklearn.mean_ scaler) = 8 ->
  Keras.architecture pinn_model = TrainPinnModel.LAYERS ->
  mapM (fun key => Py.get (Py.or_empty_dict request) key (Py.VInt 0)
                   ≫= Py.float float_of_str)
       App.feature_keys = Returned features ->
  Forall (fun x => F64.is_inf x = false) features ->
  exists p,
    Keras.forward pinn_model
      (map F32.round (Sklearn.standardize scaler features)) = [p]
    /\ App.predict float_of_str (App.mkModels (Some scaler) (Some pinn_model))
                   request
       = (App.fwi_prediction (Py.round2 (F64.of_f32 p)), 200).
Proof.
  intros Hsc Harch Hfeat Hfin.
  destruct (forward_single_output pinn_model
              (map F32.round (Sklearn.standardize scaler features)) Harch)
    as [p Hp].
  exists p. split; [exact Hp|].
  unfold App.predict. cbn [App.pinn_model App.scaler].
  rewrite (predict_value_of_features _ _ _ _ _ Hfeat).
  rewrite transform_single_row; [|
    rewrite (mapM_Returned_length _ _ _ Hfeat), Hsc; reflexivity | exact Hfin].
  cbn. rewrite Hp. reflexivity.
Qed.

(** C8, as the code has it: for every request whose eight fields convert to
    floats without an infinity, and every loaded scaler and model of the
    script's shape, [predict] answers 200 with a single float: the output of
    the linear last layer on the standardized features, rounded to two
    decimals. It is neither clipped at zero nor tested for finiteness. *)
Theorem predict_returns_rounded_model_output
    (float_of_str : string -> option F64.t)
    (scaler : Sklearn.StandardScaler) (pinn_model : Keras.Sequential)
    (request : Py.json) (features : list F64.t) :
  length (Sklearn.mean_ scaler) = 8 ->
  Keras.architecture pinn_model = TrainPinnModel.LAYERS ->
  mapM (fun key => Py.get (Py.or_empty_dict request) key (Py.VInt 0)
                   ≫= Py.float float_of_str)
       App.feature_keys = Returned features ->
  Forall (fun x => F64.is_inf x = false) features ->
  exists p,
    Keras.forward pinn_model
      (map F32.round (Sklearn.standardize scaler features)) = [p]
    /\ Keras.act (List.last pinn_model (Keras.mkDense [] [] Keras.relu))
       = Keras.linear
    /\ App.predict float_of_str (App.mkModels (Some scaler) (Some pinn_model))
                   request
       = (App.fwi_prediction (Py.round2 (F64.of_f32 p)), 200).
Proof.
  intros Hsc Harch Hfeat Hfin.
  destruct (predict_of_features float_of_str scaler pinn_model request features
              Hsc Harch Hfeat Hfin) as (p & Hp & Hres).
  exists p. split; [exact Hp|]. split; [|exact Hres].
  unfold Keras.architecture, TrainPinnModel.LAYERS in Harch.
  destruct pinn_model as [|L1 [|L2 [|L3 [|L4 m]]]]; try discriminate.
  injection Harch as _ _ _ _ _ H. exact H.
Qed.

(** The scenario request against the unit scaler and the physical model. *)
Lemma predict_returns_rounded_model_output_witness :
  exists p,
    Keras.forward Fixtures.physical_model
      (map F32.round
           (Sklearn.standardize Fixtures.unit_scaler
              (map F64.of_Z [25; 40; 10; 0; 85; 6; 15; 2]%Z))) = [p]
    /\ App.predict Fixtures.reject_strings
         (App.mkModels (Some Fixtures.unit_scaler) (Some Fixtures.physical_model))
         (Py.JObject Fixtures.scenario_request)
       = (App.fwi_prediction (Py.round2 (F64.of_f32 p)), 200).
Proof.
  destruct (predict_returns_rounded_model_output Fixtures.reject_strings
              Fixtures.unit_scaler Fixtures.physical_model
              (Py.JObject Fixtures.scenario_request)
              (map F64.of_Z [25; 40; 10; 0; 85; 6; 15; 2]%Z))
    as (p & Hp & _ & Hres).
  - reflexivity.
  - reflexivity.
  - vm_compute. reflexivity.
  - repeat constructor.
  - exists p. split; [exact Hp | exact Hres].
Defined.

(** The claim fails for the scenario request and a model whose output bias
    is [-1] over zero kernels: [predict] answers 200 with [-1.0]. *)
Lemma predict_returns_negative_value :
  App.predict Fixtures.reject_strings
    (App.mkModels (Some Fixtures.unit_scaler) (Some Fixtures.negative_model))
    (Py.JObject Fixtures.scenario_request)
  = (App.fwi_prediction (F64.opp F64.one), 200)
  /\ F64.ltb (F64.opp F64.one) F64.zero = true.
Proof. split; vm_compute; reflexivity. Qed.

(** C9: a request object in which each of the eight fields is either absent
    or holds a value that [float] converts (to a number that is not an
    infinity) is answered with 200 and a prediction, computed from the
    features in which every absent field is [0.0]; a missing or null body is
    treated as the empty object. *)
Theorem absent_fields_default_to_zero
    (float_of_str : string -> option F64.t)
    (scaler : Sklearn.StandardScaler) (pinn_model : Keras.Sequential)
    (d : gmap string Py.value) (features : list F64.t) :
  length (Sklearn.mean_ scaler) = 8 ->
  Keras.architecture pinn_model = TrainPinnModel.LAYERS ->
  Forall2 (fun key x =>
             F64.is_inf x = false
             /\ match d !! key with
                | None => x = F64.zero
                | Some v => Py.float float_of_str v = Returned x
                end)
          App.feature_keys features ->
  (exists p,
      Keras.forward pinn_model
        (map F32.round (Sklearn.standardize scaler features)) = [p]
      /\ App.predict float_of_str
           (App.mkModels (Some scaler) (Some pinn_model)) (Py.JObject d)
         = (App.fwi_prediction (Py.round2 (F64.of_f32 p)), 200))
  /\ App.predict float_of_str (App.mkModels (Some scaler) (Some pinn_model))
                 (Py.JOther false)
     = App.predict float_of_str (App.mkModels (Some scaler) (Some pinn_model))
                   (Py.JObject ∅).
Proof.
  intros Hsc Harch Hreq. split; [|reflexivity].
  apply predict_of_features; [exact Hsc | exact Harch | |].
  - rewrite or_empty_dict_object. apply mapM_Returned.
    eapply Forall2_impl; [exact Hreq|].
    intros key x [_ Hx]. cbn [Py.get mbind outcome_bind].
    destruct (d !! key) as [v|]; [exact Hx|]. subst x. reflexivity.
  - clear -Hreq. induction Hreq as [|key x ks xs [Hx _] _ IH]; constructor;
      assumption.
Qed.

(** A request with the temperature and the humidity only: the other six
    features are [0.0], and a prediction is returned. *)
Lemma absent_fields_default_to_zero_witness :
  exists p,
    Keras.forward Fixtures.physical_model
      (map F32.round
           (Sklearn.standardize Fixtures.unit_scaler
              (map F64.of_Z [25; 40; 0; 0; 0; 0; 0; 0]%Z))) = [p]
    /\ App.predict Fixtures.reject_strings
         (App.mkModels (Some Fixtures.unit_scaler) (Some Fixtures.physical_model))
         (Py.JObject Fixtures.partial_request)
       = (App.fwi_prediction (Py.round2 (F64.of_f32 p)), 200).
Proof.
  refine (proj1 (absent_fields_default_to_zero Fixtures.reject_strings
                   Fixtures.unit_scaler Fixtures.physical_model
                   Fixtures.partial_request
                   (map F64.of_Z [25; 40; 0; 0; 0; 0; 0; 0]%Z) _ _ _)).
  - reflexivity.
  - reflexivity.
  - unfold App.feature_keys. cbn [map].
    repeat (constructor; [split; vm_compute; reflexivity|]).
    constructor.
Defined.

(** * Further properties of the training script *)

(** ** Losses are never negative *)

Lemma binary_round_aux_plus_signed prec emax (m e : Z) (l : location) :
  plus_signed (binary_round_aux prec emax false m e l).
Proof.
  unfold binary_round_aux.
  destruct (shr_fexp prec emax m e l) as [mrs1 e1].
  destruct (shr_fexp prec emax _ e1 loc_Exact) as [mrs2 e2].
  destruct (shr_m mrs2); [exact I | | exact I].
  destruct (e2 <=? emax - prec)%Z; exact I.
Qed.

Lemma binary_normalize_plus_signed prec emax (m e : Z) :
  (0 <= m)%Z -> plus_signed (binary_normalize prec emax m e false).
Proof.
  intros Hm. destruct m as [|p|p]; [exact I | | lia].
  unfold binary_normalize, binary_round.
  destruct (shl_align _ _ _) as [mz ez]. apply binary_round_aux_plus_signed.
Qed.

Lemma plus_signed_add prec emax (x y : spec_float) :
  plus_signed x -> plus_signed y -> plus_signed (SFadd prec emax x y).
Proof.
  destruct x as [[]|[]| |[] mx ex]; try contradiction;
    destruct y as [[]|[]| |[] my ey]; try contradiction; intros _ _;
    try exact I.
  unfold SFadd. apply binary_normalize_plus_signed. cbn [cond_Zopp]. lia.
Qed.

Lemma plus_signed_mul prec emax (x y : spec_float) :
  plus_signed x -> plus_signed y -> plus_signed (SFmul prec emax x y).
Proof.
  destruct x as [[]|[]| |[] mx ex]; try contradiction;
    destruct y as [[]|[]| |[] my ey]; try contradiction; intros _ _;
    try exact I.
  unfold SFmul. apply binary_round_aux_plus_signed.
Qed.

Lemma plus_signed_square prec emax (x : spec_float) :
  plus_signed (SFmul prec emax x x).
Proof.
  destruct x as [[]|[]| |[] mx ex]; try exact I;
    unfold SFmul; apply binary_round_aux_plus_signed.
Qed.

Lemma plus_signed_div prec emax (x y : spec_float) :
  plus_signed x -> plus_signed y -> plus_signed (SFdiv prec emax x y).
Proof.
  destruct x as [[]|[]| |[] mx ex]; try contradiction;
    destruct y as [[]|[]| |[] my ey]; try contradiction; intros _ _;
    try exact I.
  unfold SFdiv. destruct (SFdiv_core_binary _ _ _ _ _ _) as [[mz ez] lz].
  apply binary_round_aux_plus_signed.
Qed.

Lemma plus_signed_not_below_zero (x : F32.t) :
  plus_signed x -> F32.ltb x F32.zero = false.
Proof. destruct x as [[]|[]| |[] m e]; try contradiction; reflexivity. Qed.

Lemma reduce_sum_plus_signed (v : list F32.t) :
  Forall plus_signed v -> plus_signed (TF.reduce_sum v).
Proof.
  unfold TF.reduce_sum.
  assert (H : forall acc, plus_signed acc -> Forall plus_signed v ->
                          plus_signed (fold_left F32.add v acc)).
  { induction v as [|x v IH]; intros acc Hacc Hv; [exact Hacc|].
    inversion Hv as [|? ? Hx Hv']; subst. cbn [fold_left].
    apply IH; [apply plus_signed_add; assumption | exact Hv']. }
  apply H. exact I.
Qed.

Lemma reduce_mean_plus_signed (v : list F32.t) :
  Forall plus_signed v -> plus_signed (TF.reduce_mean v).
Proof.
  intros Hv. unfold TF.reduce_mean. apply plus_signed_div.
  - apply reduce_sum_plus_signed, Hv.
  - apply binary_normalize_plus_signed. lia.
Qed.

Lemma maximum_zero_plus_signed (x : F32.t) :
  plus_signed (TF.maximum F32.zero x).
Proof. destruct x as [[]|[]| |[] m e]; exact I. Qed.

Lemma physics_penalty_plus_signed (gradients : option (list (list F32.t))) :
  plus_signed (TrainPinnModel.physics_penalty gradients).
Proof.
  destruct gradients as [g|]; [|exact I].
  unfold TrainPinnModel.physics_penalty.
  assert (Hmean : forall v, plus_signed
                    (TF.reduce_mean (map (TF.maximum F32.zero) v))).
  { intros v. apply reduce_mean_plus_signed, Forall_map, Forall_forall.
    intros x _. apply maximum_zero_plus_signed. }
  repeat apply plus_signed_add; apply Hmean.
Qed.

Lemma MeanSquaredError_plus_signed (y_true y_pred : list (list F32.t)) :
  plus_signed (Keras.MeanSquaredError y_true y_pred).
Proof.
  unfold Keras.MeanSquaredError. apply reduce_mean_plus_signed.
  apply Forall_forall. intros l Hl.
  apply elem_of_zip_with in Hl. destruct Hl as (yt & yp & -> & _ & _).
  apply reduce_mean_plus_signed. apply Forall_forall. intros s Hs.
  apply elem_of_zip_with in Hs. destruct Hs as (a & b & -> & _ & _).
  apply plus_signed_square.
Qed.

(** X1: whatever the variables and the batch are (also an empty batch, or
    NaN and infinite entries), none of the three losses that [train_step]
    returns compares below zero: each is a zero, a positive number, plus
    infinity or NaN. *)
Theorem step_losses_never_negative
    (model : Keras.Sequential) (x_batch y_batch : list (list F32.t)) :
  F32.ltb (TrainPinnModel.data_loss
             (TrainPinnModel.taped_losses x_batch y_batch model)) F32.zero
  = false
  /\ F32.ltb (TrainPinnModel.physics_loss
                (TrainPinnModel.taped_losses x_batch y_batch model)) F32.zero
     = false
  /\ F32.ltb (TrainPinnModel.total_loss
                (TrainPinnModel.taped_losses x_batch y_batch model)) F32.zero
     = false.
Proof.
  unfold TrainPinnModel.taped_losses.
  cbn [TrainPinnModel.data_loss TrainPinnModel.physics_loss
       TrainPinnModel.total_loss].
  pose proof (MeanSquaredError_plus_signed y_batch (Keras.call model x_batch))
    as Hdata.
  pose proof (physics_penalty_plus_signed
                (Keras.tape_gradient_inputs model x_batch)) as Hphys.
  repeat split; apply plus_signed_not_below_zero.
  - exact Hdata.
  - exact Hphys.
  - apply plus_signed_add; [exact Hdata|].
    apply plus_signed_mul; [exact I | exact Hphys].
Qed.

(** ** Batching *)

Lemma batch_aux_concat {A : Type} (n : nat) :
  0 < n -> forall (fuel : nat) (l : list A),
  length l <= fuel -> concat (Dataset.batch_aux fuel n l) = l.
Proof.
  intros Hn. induction fuel as [|fuel IH]; intros l Hl.
  - destruct l; [reflexivity | cbn in Hl; lia].
  - cbn [Dataset.batch_aux]. destruct l as [|a l]; [reflexivity|].
    cbn [concat]. rewrite IH.
    + apply take_drop.
    + rewrite length_drop. cbn [length] in *. lia.
Qed.

Lemma batch_aux_sizes {A : Type} (n fuel : nat) : forall l : list A,
  Forall (fun b => length b <= n) (Dataset.batch_aux fuel n l).
Proof.
  induction fuel as [|fuel IH]; intros l; cbn [Dataset.batch_aux].
  - constructor.
  - destruct l as [|a l]; constructor; [|apply IH].
    rewrite length_take. lia.
Qed.

(** A batch that is followed by another one is full. *)
Lemma batch_aux_full {A : Type} (n fuel : nat) : forall (l : list A) i b,
  Dataset.batch_aux fuel n l !! i = Some b ->
  S i < length (Dataset.batch_aux fuel n l) ->
  length b = n.
Proof.
  induction fuel as [|fuel IH]; intros l i b; cbn [Dataset.batch_aux].
  - discriminate.
  - destruct l as [|a l]; [discriminate|].
    destruct i as [|i]; cbn [lookup list_lookup length].
    + intros [= <-] Hlen. rewrite length_take.
      destruct (Dataset.batch_aux fuel n (drop n (a :: l))) as [|b' bs] eqn:E;
        [cbn in Hlen; lia|].
      destruct fuel as [|fuel']; [discriminate E|].
      cbn [Dataset.batch_aux] in E.
      destruct (drop n (a :: l)) as [|c rest] eqn:Ed; [discriminate E|].
      assert (n < length (a :: l)); [|lia].
      destruct (Nat.lt_ge_cases n (length (a :: l))) as [?|Hge]; [assumption|].
      rewrite drop_ge in Ed by exact Hge. discriminate Ed.
    + intros Hb Hlen. apply (IH _ i b Hb). lia.
Qed.

Lemma zip_unzip_batch {A B : Type} (b : list (A * B)) :
  zip (Dataset.unzip_batch b).1 (Dataset.unzip_batch b).2 = b.
Proof.
  unfold Dataset.unzip_batch. cbn [fst snd].
  induction b as [|[x y] b IH]; [reflexivity|]. cbn. rewrite IH. reflexivity.
Qed.

(** X2: when [shuffle] only reorders the samples, one pass over
    [train_dataset] yields every training sample exactly once: the batches,
    put end to end, are a permutation of the scaled samples. Every batch
    holds between 1 and 32 samples with as many targets, and every batch but
    the last holds exactly 32. *)
Theorem epoch_visits_every_sample_once
    (shuffle :
       nat -> list (list F32.t * list F32.t) -> list (list F32.t * list F32.t))
    (d : TrainPinnModel.scaled_data) (epoch : nat) :
  (forall e l, Permutation (shuffle e l) l) ->
  Permutation
    (concat (map (fun b => zip b.1 b.2)
                 (TrainPinnModel.train_dataset shuffle d epoch)))
    (Dataset.from_tensor_slices
       (astype_float32 (TrainPinnModel.X_train_scaled d))
       (TrainPinnModel.y_train d))
  /\ Forall (fun b => 1 <= length b.1 <= TrainPinnModel.BATCH_SIZE
                      /\ length b.2 = length b.1)
            (TrainPinnModel.train_dataset shuffle d epoch)
  /\ (forall i b,
        TrainPinnModel.train_dataset shuffle d epoch !! i = Some b ->
        S i < length (TrainPinnModel.train_dataset shuffle d epoch) ->
        length b.1 = TrainPinnModel.BATCH_SIZE).
Proof.
  intros Hperm. unfold TrainPinnModel.train_dataset.
  set (samples := Dataset.from_tensor_slices _ _).
  set (shuffled := shuffle epoch samples).
  assert (Hn : 0 < TrainPinnModel.BATCH_SIZE)
    by (unfold TrainPinnModel.BATCH_SIZE; lia).
  split; [|split].
  - rewrite map_map.
    rewrite (map_ext _ (fun b => b) (fun b => zip_unzip_batch b)), map_id.
    unfold Dataset.batch. rewrite batch_aux_concat by (exact Hn || lia).
    apply Hperm.
  - apply Forall_map. unfold Dataset.batch.
    pose proof (batch_aux_sizes TrainPinnModel.BATCH_SIZE (length shuffled)
                  shuffled) as Hle.
    pose proof (batch_aux_nonempty (length shuffled) TrainPinnModel.BATCH_SIZE
                  Hn shuffled) as Hne.
    induction Hle as [|b bs Hb _ IH]; [constructor|].
    inversion Hne as [|? ? Hb' Hne']; subst.
    constructor; [|apply IH, Hne'].
    unfold Dataset.unzip_batch. cbn [fst snd]. rewrite !length_map.
    split; [|reflexivity]. split; [|exact Hb].
    destruct b; [congruence | cbn; lia].
  - intros i b Hb Hlen. rewrite length_map in Hlen.
    rewrite list_lookup_fmap in Hb.
    destruct (Dataset.batch _ shuffled !! i) as [b0|] eqn:E; [|discriminate].
    cbn in Hb. injection Hb as <-. cbn [Dataset.unzip_batch fst].
    rewrite length_map. exact (batch_aux_full _ _ _ _ _ E Hlen).
Qed.

(** Reversing the two dry days is a reordering. *)
Lemma epoch_visits_every_sample_once_witness :
  Permutation
    (concat (map (fun b => zip b.1 b.2)
                 (TrainPinnModel.train_dataset (fun _ l => rev l)
                    Fixtures.dry_scaled 0)))
    (Dataset.from_tensor_slices
       (astype_float32 (TrainPinnModel.X_train_scaled Fixtures.dry_scaled))
       (TrainPinnModel.y_train Fixtures.dry_scaled)).
Proof.
  exact (proj1 (epoch_visits_every_sample_once (fun _ l => rev l)
                  Fixtures.dry_scaled 0
                  (fun e l => Permutation_sym (Permutation_rev l)))).
Defined.

(** ** What the loop prints, and what it leaves behind *)

Section LoopRecords.
Context (Gradients : Type)
        (tape_gradient :
           (Keras.Sequential -> F32.t) -> Keras.Sequential -> Gradients)
        (Optimizer : Type)
        (apply_gradients :
           Optimizer -> Gradients -> Keras.Sequential ->
           Optimizer * Keras.Sequential).

Local Abbreviation batch_body :=
  (TrainPinnModel.batch_body Gradients tape_gradient Optimizer apply_gradients).
Local Abbreviation epoch_body :=
  (TrainPinnModel.epoch_body Gradients tape_gradient Optimizer apply_gradients).
Local Abbreviation training_loop :=
  (TrainPinnModel.training_loop Gradients tape_gradient Optimizer
                                apply_gradients).
Local Abbreviation state := (TrainPinnModel.state Optimizer).
Local Abbreviation step_losses := (TrainPinnModel.step_losses Optimizer).
Local Abbreviation trajectory := (TrainPinnModel.trajectory Optimizer).
Local Abbreviation printed := (TrainPinnModel.printed Optimizer).
Local Abbreviation model := (TrainPinnModel.model Optimizer).

Lemma last_cons_default {A : Type} (ms : list A) : forall x d,
  List.last (x :: ms) d = List.last ms x.
Proof.
  induction ms as [|y ms IH]; intros x d; [reflexivity|].
  change (List.last (x :: y :: ms) d) with (List.last (y :: ms) d).
  rewrite !IH. reflexivity.
Qed.

(** One batch: one more recorded loss, one more trajectory entry, nothing
    printed, and each running mean fed with its loss. *)
Lemma batch_body_records (sm : state * TrainPinnModel.epoch_metrics)
    (b : list (list F32.t) * list (list F32.t)) :
  let l := TrainPinnModel.taped_losses b.1 b.2 (model sm.1) in
  let r := batch_body sm b in
  step_losses r.1 = step_losses sm.1 ++ [l]
  /\ trajectory r.1 = trajectory sm.1 ++ [model r.1]
  /\ printed r.1 = printed sm.1
  /\ TrainPinnModel.epoch_data_loss_avg r.2
     = TrainPinnModel.update_state (TrainPinnModel.epoch_data_loss_avg sm.2)
                                   (TrainPinnModel.data_loss l)
  /\ TrainPinnModel.epoch_physics_loss_avg r.2
     = TrainPinnModel.update_state (TrainPinnModel.epoch_physics_loss_avg sm.2)
                                   (TrainPinnModel.physics_loss l)
  /\ TrainPinnModel.epoch_total_loss_avg r.2
     = TrainPinnModel.update_state (TrainPinnModel.epoch_total_loss_avg sm.2)
                                   (TrainPinnModel.total_loss l).
Proof.
  destruct sm as [st m], b as [x_batch y_batch].
  unfold TrainPinnModel.batch_body, TrainPinnModel.train_step.
  destruct (apply_gradients _ _ _) as [optimizer' model'].
  cbn. repeat split.
Qed.

(** The running means after the batches of an epoch: totals and counts of
    the recorded losses. The inner loop prints nothing, and the model is the
    last entry of the trajectory once a step was made. *)
Lemma batches_records (bs : list (list (list F32.t) * list (list F32.t))) :
  forall (sm : state * TrainPinnModel.epoch_metrics),
  exists ls ms,
    let r := fold_left batch_body bs sm in
    step_losses r.1 = step_losses sm.1 ++ ls
    /\ trajectory r.1 = trajectory sm.1 ++ ms
    /\ length ms = length ls
    /\ length ls = length bs
    /\ model r.1 = List.last ms (model sm.1)
    /\ printed r.1 = printed sm.1
    /\ TrainPinnModel.total (TrainPinnModel.epoch_data_loss_avg r.2)
       = fold_left F32.add (map TrainPinnModel.data_loss ls)
           (TrainPinnModel.total (TrainPinnModel.epoch_data_loss_avg sm.2))
    /\ TrainPinnModel.total (TrainPinnModel.epoch_physics_loss_avg r.2)
       = fold_left F32.add (map TrainPinnModel.physics_loss ls)
           (TrainPinnModel.total (TrainPinnModel.epoch_physics_loss_avg sm.2))
    /\ TrainPinnModel.total (TrainPinnModel.epoch_total_loss_avg r.2)
       = fold_left F32.add (map TrainPinnModel.total_loss ls)
           (TrainPinnModel.total (TrainPinnModel.epoch_total_loss_avg sm.2))
    /\ TrainPinnModel.count (TrainPinnModel.epoch_data_loss_avg r.2)
       = TrainPinnModel.count (TrainPinnModel.epoch_data_loss_avg sm.2)
         + length ls
    /\ TrainPinnModel.count (TrainPinnModel.epoch_physics_loss_avg r.2)
       = TrainPinnModel.count (TrainPinnModel.epoch_physics_loss_avg sm.2)
         + length ls
    /\ TrainPinnModel.count (TrainPinnModel.epoch_total_loss_avg r.2)
       = TrainPinnModel.count (TrainPinnModel.epoch_total_loss_avg sm.2)
         + length ls.
Proof.
  induction bs as [|b bs IH]; intros sm; cbn [fold_left].
  - exists [], []. cbn. rewrite !app_nil_r, !Nat.add_0_r. repeat split.
  - destruct (IH (batch_body sm b))
      as (ls & ms & E1 & E2 & E3 & E4 & E5 & E6 & T1 & T2 & T3 & C1 & C2 & C3).
    destruct (batch_body_records sm b) as (B1 & B2 & B3 & B4 & B5 & B6).
    cbv zeta in *.
    exists (TrainPinnModel.taped_losses b.1 b.2 (model sm.1) :: ls),
           (model (batch_body sm b).1 :: ms).
    rewrite E1, E2, E5, E6, T1, T2, T3, C1, C2, C3.
    rewrite B1, B2, B3, B4, B5, B6, <- !app_assoc.
    cbn [app length map fold_left TrainPinnModel.update_state
         TrainPinnModel.total TrainPinnModel.count].
    rewrite last_cons_default.
    repeat split; lia.
Qed.

(** One epoch: the records it adds, and the progress line it prints. *)
Lemma epoch_records
    (dataset : nat -> list (list (list F32.t) * list (list F32.t)))
    (st : state) (epoch : nat) :
  exists ls ms,
    step_losses (epoch_body dataset st epoch) = step_losses st ++ ls
    /\ trajectory (epoch_body dataset st epoch) = trajectory st ++ ms
    /\ length ms = length ls
    /\ length ls = length (dataset epoch)
    /\ model (epoch_body dataset st epoch) = List.last ms (model st)
    /\ printed (epoch_body dataset st epoch)
       = printed st
         ++ (if prints_progress epoch then
               [TrainPinnModel.mkReport (epoch + 1)
                  (reported_mean (map TrainPinnModel.data_loss ls))
                  (reported_mean (map TrainPinnModel.physics_loss ls))
                  (reported_mean (map TrainPinnModel.total_loss ls))]
             else []).
Proof.
  destruct (batches_records (dataset epoch) (st, TrainPinnModel.metrics_new))
    as (ls & ms & E1 & E2 & E3 & E4 & E5 & E6 & T1 & T2 & T3 & C1 & C2 & C3).
  exists ls, ms. unfold TrainPinnModel.epoch_body.
  destruct (fold_left _ _ _) as [st' m].
  cbn [fst snd TrainPinnModel.metrics_new TrainPinnModel.epoch_data_loss_avg
       TrainPinnModel.epoch_physics_loss_avg
       TrainPinnModel.epoch_total_loss_avg TrainPinnModel.Mean_new
       TrainPinnModel.total TrainPinnModel.count] in *.
  fold (prints_progress epoch).
  assert (Hmean : forall (M : TrainPinnModel.Mean) (f : _ -> F32.t),
            TrainPinnModel.total M = fold_left F32.add (map f ls) F32.zero ->
            TrainPinnModel.count M = 0 + length ls ->
            TrainPinnModel.result M = reported_mean (map f ls)).
  { intros M f HT HC. unfold TrainPinnModel.result, reported_mean.
    rewrite HC, HT. cbn [Nat.add].
    destruct ls as [|l ls']; [reflexivity|].
    cbn [map length]. unfold TF.reduce_mean, TF.reduce_sum.
    cbn [length]. rewrite length_map. reflexivity. }
  destruct (prints_progress epoch);
    cbn [TrainPinnModel.step_losses TrainPinnModel.trajectory
         TrainPinnModel.model TrainPinnModel.printed].
  - rewrite (Hmean _ _ T1 C1), (Hmean _ _ T2 C2), (Hmean _ _ T3 C3), E6.
    repeat split; assumption.
  - rewrite app_nil_r. repeat split; assumption.
Qed.

Lemma epochs_records
    (dataset : nat -> list (list (list F32.t) * list (list F32.t)))
    (epochs : list nat) :
  forall st,
  exists ls ms,
    step_losses (fold_left (epoch_body dataset) epochs st) = step_losses st ++ ls
    /\ trajectory (fold_left (epoch_body dataset) epochs st)
       = trajectory st ++ ms
    /\ length ms = length ls
    /\ model (fold_left (epoch_body dataset) epochs st)
       = List.last ms (model st)
    /\ map TrainPinnModel.report_epoch
           (printed (fold_left (epoch_body dataset) epochs st))
       = map TrainPinnModel.report_epoch (printed st)
         ++ map (fun epoch => epoch + 1) (List.filter prints_progress epochs).
Proof.
  induction epochs as [|epoch epochs IH]; intros st; cbn [fold_left].
  - exists [], []. cbn. rewrite !app_nil_r. repeat split.
  - destruct (epoch_records dataset st epoch)
      as (l1 & m1 & E1 & E2 & E3 & _ & E5 & E6).
    destruct (IH (epoch_body dataset st epoch))
      as (l2 & m2 & F1 & F2 & F3 & F5 & F6).
    exists (l1 ++ l2), (m1 ++ m2).
    rewrite F1, F2, F5, F6, E1, E2, E5, E6, <- !app_assoc, !length_app.
    repeat split; try lia.
    + destruct m2 as [|x m2] using rev_ind.
      * rewrite app_nil_r. reflexivity.
      * rewrite app_assoc, !last_last. reflexivity.
    + rewrite map_app, <- app_assoc. f_equal.
      cbn [List.filter]. destruct (prints_progress epoch); reflexivity.
Qed.

(** X3: whatever the data and the losses are, a run prints exactly ten
    progress lines, for the epochs 10, 20, ..., 100. *)
Theorem progress_is_printed_every_tenth_epoch
    (dataset : nat -> list (list (list F32.t) * list (list F32.t)))
    (optimizer : Optimizer) (initial : Keras.Sequential) :
  map TrainPinnModel.report_epoch
      (printed (training_loop dataset optimizer initial))
  = [10; 20; 30; 40; 50; 60; 70; 80; 90; 100].
Proof.
  unfold TrainPinnModel.training_loop.
  destruct (epochs_records dataset (seq 0 TrainPinnModel.N_EPOCHS)
              (TrainPinnModel.mkState _ optimizer initial [] [] []))
    as (ls & ms & _ & _ & _ & _ & Hp).
  rewrite Hp. reflexivity.
Qed.

(** X4: the three values of a progress line are the means of the data,
    physics and total losses of the steps of that epoch alone (the losses
    recorded since the epoch began), and [0.0] for an epoch without a
    batch. *)
Theorem progress_line_averages_the_epoch
    (dataset : nat -> list (list (list F32.t) * list (list F32.t)))
    (st : state) (epoch : nat) :
  let st' := epoch_body dataset st epoch in
  let ls := drop (length (step_losses st)) (step_losses st') in
  length ls = length (dataset epoch)
  /\ printed st'
     = printed st
       ++ (if prints_progress epoch then
             [TrainPinnModel.mkReport (epoch + 1)
                (reported_mean (map TrainPinnModel.data_loss ls))
                (reported_mean (map TrainPinnModel.physics_loss ls))
                (reported_mean (map TrainPinnModel.total_loss ls))]
           else []).
Proof.
  intros st' ls. subst st' ls.
  destruct (epoch_records dataset st epoch)
    as (ls & ms & E1 & _ & _ & E4 & _ & E6).
  rewrite E1, drop_app_length. split; assumption.
Qed.

(** X5: the trajectory has one entry per training step, and the model the
    loop ends with is its last entry: the variables after the last step of
    the last epoch, or the initial model when the data set has no batch. *)
Theorem final_model_is_last_of_trajectory
    (dataset : nat -> list (list (list F32.t) * list (list F32.t)))
    (optimizer : Optimizer) (initial : Keras.Sequential) :
  length (trajectory (training_loop dataset optimizer initial))
  = Spec.scheduled_steps dataset
  /\ model (training_loop dataset optimizer initial)
     = List.last (trajectory (training_loop dataset optimizer initial)) initial.
Proof.
  pose proof (training_loop_step_losses Gradients tape_gradient Optimizer
                apply_gradients dataset optimizer initial) as [Hlen _].
  unfold TrainPinnModel.training_loop in *.
  destruct (epochs_records dataset (seq 0 TrainPinnModel.N_EPOCHS)
              (TrainPinnModel.mkState _ optimizer initial [] [] []))
    as (ls & ms & E1 & E2 & E3 & E5 & _).
  rewrite E1 in Hlen. rewrite E2, E5.
  cbn [TrainPinnModel.step_losses TrainPinnModel.trajectory
       TrainPinnModel.model app] in *.
  split; [lia | reflexivity].
Qed.
End LoopRecords.

(** ** What the script saves, and what the test data cannot change *)

Lemma main_returned
    (Gradients : Type)
    (tape_gradient :
       (Keras.Sequential -> F32.t) -> Keras.Sequential -> Gradients)
    (Optimizer : Type)
    (apply_gradients :
       Optimizer -> Gradients -> Keras.Sequential ->
       Optimizer * Keras.Sequential)
    shuffle glorot_uniform train_test_split
    (Content : Type) (pickle_dumps : Sklearn.StandardScaler -> Content)
    (keras_save : Keras.Sequential -> Content)
    (base_dir : string) (Adam : Optimizer) (X y : list (list F32.t))
    (fs : gmap string Content) (d : TrainPinnModel.scaled_data) :
  TrainPinnModel.split_and_scale train_test_split X y = Returned d ->
  TrainPinnModel.main Gradients tape_gradient Optimizer apply_gradients shuffle
    glorot_uniform train_test_split Content pickle_dumps keras_save base_dir
    Adam X y fs
  = Returned
      (TrainPinnModel.training_loop Gradients tape_gradient Optimizer
         apply_gradients (TrainPinnModel.train_dataset shuffle d) Adam
         (TrainPinnModel.build_model glorot_uniform),
       TrainPinnModel.save Content pickle_dumps keras_save base_dir
         (TrainPinnModel.scaler d)
         (TrainPinnModel.model Optimizer
            (TrainPinnModel.training_loop Gradients tape_gradient Optimizer
               apply_gradients (TrainPinnModel.train_dataset shuffle d) Adam
               (TrainPinnModel.build_model glorot_uniform)))
         fs).
Proof. intros E. unfold TrainPinnModel.main. rewrite E. reflexivity. Qed.

Lemma main_returned_inv
    (Gradients : Type)
    (tape_gradient :
       (Keras.Sequential -> F32.t) -> Keras.Sequential -> Gradients)
    (Optimizer : Type)
    (apply_gradients :
       Optimizer -> Gradients -> Keras.Sequential ->
       Optimizer * Keras.Sequential)
    shuffle glorot_uniform train_test_split
    (Content : Type) (pickle_dumps : Sklearn.StandardScaler -> Content)
    (keras_save : Keras.Sequential -> Content)
    (base_dir : string) (Adam : Optimizer) (X y : list (list F32.t))
    (fs : gmap string Content) st fs' :
  TrainPinnModel.main Gradients tape_gradient Optimizer apply_gradients shuffle
    glorot_uniform train_test_split Content pickle_dumps keras_save base_dir
    Adam X y fs = Returned (st, fs') ->
  exists d,
    TrainPinnModel.split_and_scale train_test_split X y = Returned d
    /\ st = TrainPinnModel.training_loop Gradients tape_gradient Optimizer
              apply_gradients (TrainPinnModel.train_dataset shuffle d) Adam
              (TrainPinnModel.build_model glorot_uniform)
    /\ fs' = TrainPinnModel.save Content pickle_dumps keras_save base_dir
               (TrainPinnModel.scaler d) (TrainPinnModel.model Optimizer st) fs.
Proof.
  unfold TrainPinnModel.main.
  destruct (TrainPinnModel.split_and_scale train_test_split X y) as [d|e];
    [|discriminate].
  cbv beta iota zeta delta [mbind outcome_bind mret outcome_ret].
  intros [= <- <-]. exists d. repeat split.
Qed.

(** What [split_and_scale] returns is determined by the split. *)
Lemma split_and_scale_returned train_test_split
    (X y X_train X_test y_train y_test : list (list F32.t))
    (d : TrainPinnModel.scaled_data) :
  train_test_split X y = ((X_train, X_test), (y_train, y_test)) ->
  TrainPinnModel.split_and_scale train_test_split X y = Returned d ->
  Sklearn.fit (astype_float64 X_train) = Returned (TrainPinnModel.scaler d)
  /\ Sklearn.transform (TrainPinnModel.scaler d) (astype_float64 X_train)
     = Returned (TrainPinnModel.X_train_scaled d)
  /\ TrainPinnModel.y_train d = y_train.
Proof.
  intros Hs. unfold TrainPinnModel.split_and_scale, Sklearn.fit_transform.
  rewrite Hs.
  destruct (Sklearn.fit _) as [s|e1] eqn:E1; cbn; [|discriminate].
  destruct (Sklearn.transform s (astype_float64 X_train)) as [Xs|e2] eqn:E2;
    cbn; [|discriminate].
  destruct (Sklearn.transform s (astype_float64 X_test)) as [Xt|e3] eqn:E3;
    cbn; [|discriminate].
  intros [= <-]. cbn. auto.
Qed.

(** X6: the script changes exactly two files. When it returns, the scaler
    file holds the scaler fitted on the training part, the model file holds
    the final variables, both under [base_dir] and replacing what was there,
    and every other path holds what it held before. *)
Theorem script_writes_exactly_two_files
    (Gradients : Type)
    (tape_gradient :
       (Keras.Sequential -> F32.t) -> Keras.Sequential -> Gradients)
    (Optimizer : Type)
    (apply_gradients :
       Optimizer -> Gradients -> Keras.Sequential ->
       Optimizer * Keras.Sequential)
    shuffle glorot_uniform train_test_split
    (Content : Type) (pickle_dumps : Sklearn.StandardScaler -> Content)
    (keras_save : Keras.Sequential -> Content)
    (base_dir : string) (Adam : Optimizer) (X y : list (list F32.t))
    (fs : gmap string Content) :
  match TrainPinnModel.main Gradients tape_gradient Optimizer apply_gradients
          shuffle glorot_uniform train_test_split Content pickle_dumps
          keras_save base_dir Adam X y fs with
  | Returned (st, fs') =>
      (exists s,
          Sklearn.fit (astype_float64 (train_test_split X y).1.1) = Returned s
          /\ fs' !! path_join base_dir "scaler_pinn.pkl"
             = Some (pickle_dumps s))
      /\ fs' !! path_join base_dir "fwi_pinn_model.keras"
         = Some (keras_save (TrainPinnModel.model Optimizer st))
      /\ (forall path,
            path <> path_join base_dir "scaler_pinn.pkl" ->
            path <> path_join base_dir "fwi_pinn_model.keras" ->
            fs' !! path = fs !! path)
  | Raised _ => True
  end.
Proof.
  destruct (TrainPinnModel.main _ _ _ _ _ _ _ _ _ _ _ _ _ _ _)
    as [[st fs']|e] eqn:Hmain; [|exact I].
  apply main_returned_inv in Hmain. destruct Hmain as (d & Hd & _ & ->).
  destruct (train_test_split X y) as [[X_train X_test] [y_train y_test]] eqn:Hs.
  destruct (split_and_scale_returned _ _ _ _ _ _ _ _ Hs Hd) as (Hfit & _ & _).
  unfold TrainPinnModel.save, TrainPinnModel.scaler_filename,
    TrainPinnModel.model_filename.
  split; [|split].
  - exists (TrainPinnModel.scaler d). split; [exact Hfit|].
    rewrite lookup_insert_ne by apply artifact_paths_differ.
    apply lookup_insert_eq.
  - apply lookup_insert_eq.
  - intros path H1 H2. rewrite !lookup_insert_ne by congruence. reflexivity.
Qed.

(** X7: the test part of the split cannot change what is trained or saved.
    Two runs whose training parts (samples and targets) agree, with whatever
    test parts, and which both return, end in the same state (losses,
    trajectory, final variables) and write the same files. *)
Theorem test_data_never_reaches_the_model
    (Gradients : Type)
    (tape_gradient :
       (Keras.Sequential -> F32.t) -> Keras.Sequential -> Gradients)
    (Optimizer : Type)
    (apply_gradients :
       Optimizer -> Gradients -> Keras.Sequential ->
       Optimizer * Keras.Sequential)
    shuffle glorot_uniform train_test_split1 train_test_split2
    (Content : Type) (pickle_dumps : Sklearn.StandardScaler -> Content)
    (keras_save : Keras.Sequential -> Content)
    (base_dir : string) (Adam : Optimizer)
    (X1 y1 X2 y2 : list (list F32.t)) (fs : gmap string Content)
    st1 fs1 st2 fs2 :
  (train_test_split1 X1 y1).1.1 = (train_test_split2 X2 y2).1.1 ->
  (train_test_split1 X1 y1).2.1 = (train_test_split2 X2 y2).2.1 ->
  TrainPinnModel.main Gradients tape_gradient Optimizer apply_gradients shuffle
    glorot_uniform train_test_split1 Content pickle_dumps keras_save base_dir
    Adam X1 y1 fs = Returned (st1, fs1) ->
  TrainPinnModel.main Gradients tape_gradient Optimizer apply_gradients shuffle
    glorot_uniform train_test_split2 Content pickle_dumps keras_save base_dir
    Adam X2 y2 fs = Returned (st2, fs2) ->
  st1 = st2 /\ fs1 = fs2.
Proof.
  intros HX Hy H1 H2.
  apply main_returned_inv in H1. destruct H1 as (d1 & Hd1 & -> & ->).
  apply main_returned_inv in H2. destruct H2 as (d2 & Hd2 & -> & ->).
  destruct (train_test_split1 X1 y1) as [[Xtr1 Xte1] [ytr1 yte1]] eqn:Hs1.
  destruct (train_test_split2 X2 y2) as [[Xtr2 Xte2] [ytr2 yte2]] eqn:Hs2.
  cbn [fst snd] in HX, Hy. subst Xtr2 ytr2.
  destruct (split_and_scale_returned _ _ _ _ _ _ _ _ Hs1 Hd1) as (F1 & T1 & Y1).
  destruct (split_and_scale_returned _ _ _ _ _ _ _ _ Hs2 Hd2) as (F2 & T2 & Y2).
  assert (Hscaler : TrainPinnModel.scaler d1 = TrainPinnModel.scaler d2)
    by congruence.
  assert (Hscaled : TrainPinnModel.X_train_scaled d1
                    = TrainPinnModel.X_train_scaled d2).
  { rewrite Hscaler in T1. congruence. }
  assert (Hloop :
    TrainPinnModel.training_loop Gradients tape_gradient Optimizer
      apply_gradients (TrainPinnModel.train_dataset shuffle d1) Adam
      (TrainPinnModel.build_model glorot_uniform)
    = TrainPinnModel.training_loop Gradients tape_gradient Optimizer
        apply_gradients (TrainPinnModel.train_dataset shuffle d2) Adam
        (TrainPinnModel.build_model glorot_uniform)).
  { apply training_loop_ext; [reflexivity|].
    intros epoch. unfold TrainPinnModel.train_dataset.
    rewrite Hscaled, Y1, Y2. reflexivity. }
  rewrite Hloop, Hscaler. split; reflexivity.
Qed.

(** Two runs on the dry days: the test part is the second day in one and
    the first day again in the other. *)
Lemma test_data_never_reaches_the_model_witness :
  exists st fs,
    TrainPinnModel.main unit Fixtures.no_gradients unit
      Fixtures.frozen_optimizer Fixtures.keep_order Fixtures.zero_kernels
      Fixtures.split_at_80 (Sklearn.StandardScaler + Keras.Sequential) inl inr
      "/srv/fwi" tt Fixtures.dry_days Fixtures.dry_targets ∅
    = Returned (st, fs)
    /\ TrainPinnModel.main unit Fixtures.no_gradients unit
         Fixtures.frozen_optimizer Fixtures.keep_order Fixtures.zero_kernels
         Fixtures.split_test_is_train
         (Sklearn.StandardScaler + Keras.Sequential) inl inr
         "/srv/fwi" tt Fixtures.dry_days Fixtures.dry_targets ∅
       = Returned (st, fs).
Proof.
  destruct (TrainPinnModel.split_and_scale Fixtures.split_at_80
              Fixtures.dry_days Fixtures.dry_targets) as [d1|e] eqn:E1;
    [|vm_compute in E1; discriminate E1].
  destruct (TrainPinnModel.split_and_scale Fixtures.split_test_is_train
              Fixtures.dry_days Fixtures.dry_targets) as [d2|e] eqn:E2;
    [|vm_compute in E2; discriminate E2].
  pose proof (main_returned unit Fixtures.no_gradients unit
                Fixtures.frozen_optimizer Fixtures.keep_order
                Fixtures.zero_kernels Fixtures.split_at_80
                (Sklearn.StandardScaler + Keras.Sequential) inl inr
                "/srv/fwi" tt Fixtures.dry_days Fixtures.dry_targets ∅ d1 E1)
    as M1.
  pose proof (main_returned unit Fixtures.no_gradients unit
                Fixtures.frozen_optimizer Fixtures.keep_order
                Fixtures.zero_kernels Fixtures.split_test_is_train
                (Sklearn.StandardScaler + Keras.Sequential) inl inr
                "/srv/fwi" tt Fixtures.dry_days Fixtures.dry_targets ∅ d2 E2)
    as M2.
  destruct (test_data_never_reaches_the_model _ _ _ _ _ _ _ _ _ _ _ _ _
              _ _ _ _ _ _ _ _ _ eq_refl eq_refl M1 M2) as [Hst Hfs].
  eexists _, _. split; [exact M1|]. rewrite Hfs, Hst. exact M2.
Defined.

(** ** The shape of the model's output *)

(** X8: whatever the initial kernels are, the model that the script builds
    has the three layers 128 (ReLU), 64 (ReLU), 1 (linear), and it maps a
    batch to one row per sample, each row holding a single value. *)
Theorem model_output_has_shape_batch_by_one
    (glorot_uniform : nat -> nat -> nat -> list (list F32.t))
    (x_batch : list (list F32.t)) :
  Keras.architecture (TrainPinnModel.build_model glorot_uniform)
  = TrainPinnModel.LAYERS
  /\ length (Keras.call (TrainPinnModel.build_model glorot_uniform) x_batch)
     = length x_batch
  /\ Forall (fun row => length row = 1)
            (Keras.call (TrainPinnModel.build_model glorot_uniform) x_batch).
Proof.
  assert (Harch : Keras.architecture (TrainPinnModel.build_model glorot_uniform)
                  = TrainPinnModel.LAYERS) by reflexivity.
  split; [exact Harch|]. unfold Keras.call. split; [apply length_map|].
  apply Forall_map, Forall_forall. intros x _.
  destruct (forward_single_output _ x Harch) as [p ->]. reflexivity.
Qed.

(** * Further properties of the prediction endpoint *)

Lemma mapM_first_raise {A B : Type} (f : A -> outcome B)
    (before after : list A) (x : A) (e : exn) :
  Forall (fun a => exists b, f a = Returned b) before ->
  f x = Raised e ->
  mapM f (before ++ x :: after) = Raised e.
Proof.
  intros Hbefore Hx. induction Hbefore as [|a before [b Hb] _ IH];
    cbn [app mapM].
  - rewrite Hx. reflexivity.
  - rewrite Hb. cbn. rewrite IH. reflexivity.
Qed.

(** X9: with both artifacts loaded, a request is refused with status 400,
    and no prediction is made, when the first field (in feature order) that
    [float] cannot convert is reached: a [null], a list, a non-numeric
    string, an integer too large for a float. The answer names that
    field's exception. A body that is a non-empty list, string or number
    instead of an object is refused with 400 as well ([AttributeError]). *)
Theorem predict_refuses_unconvertible_field
    (float_of_str : string -> option F64.t)
    (scaler : Sklearn.StandardScaler) (pinn_model : Keras.Sequential)
    (d : gmap string Py.value) (before after : list string) (key : string)
    (v : Py.value) (e : exn) :
  App.feature_keys = before ++ key :: after ->
  Forall (fun k => exists x,
            Py.float float_of_str
              (match d !! k with Some w => w | None => Py.VInt 0 end)
            = Returned x) before ->
  d !! key = Some v ->
  Py.float float_of_str v = Raised e ->
  App.predict float_of_str (App.mkModels (Some scaler) (Some pinn_model))
              (Py.JObject d)
  = (App.prediction_error e, 400)
  /\ App.predict float_of_str (App.mkModels (Some scaler) (Some pinn_model))
                 (Py.JOther true)
     = (App.prediction_error AttributeError, 400).
Proof.
  intros Hkeys Hbefore Hkey Hv. split; [|reflexivity].
  unfold App.predict. cbn [App.pinn_model App.scaler].
  rewrite or_empty_dict_object. unfold App.predict_value.
  rewrite Hkeys.
  rewrite (mapM_first_raise _ before after key e); [reflexivity| |].
  - eapply Forall_impl; [exact Hbefore|]. intros k [x Hx]. exists x. exact Hx.
  - cbn [Py.get mbind outcome_bind]. rewrite Hkey. exact Hv.
Qed.

(** A [null] temperature is refused with [TypeError]. *)
Lemma predict_refuses_unconvertible_field_witness :
  App.predict Fixtures.reject_strings
    (App.mkModels (Some Fixtures.unit_scaler) (Some Fixtures.physical_model))
    (Py.JObject Fixtures.null_temperature_request)
  = (App.prediction_error TypeError, 400).
Proof.
  exact (proj1 (predict_refuses_unconvertible_field Fixtures.reject_strings
                  Fixtures.unit_scaler Fixtures.physical_model
                  Fixtures.null_temperature_request []
                  ["humidity"; "wind_speed"; "rain"; "ffmc"; "dmc"; "dc"; "isi"]
                  "temperature" Py.VNone TypeError eq_refl
                  (Forall_nil_2 _) eq_refl eq_refl)).
Defined.

Lemma existsb_is_inf (row : list F64.t) :
  Exists (fun x => F64.is_inf x = true) row -> existsb F64.is_inf row = true.
Proof.
  induction 1 as [x l Hx|x l _ IH]; cbn [existsb].
  - rewrite Hx. reflexivity.
  - rewrite IH. apply orb_true_r.
Qed.

(** X10: a request whose fields all convert is still refused with status
    400 ([ValueError], from the scaler's input validation) when one of the
    eight features is an infinity, or when the loaded scaler was fitted on
    another number of features than eight; the model is not evaluated. *)
Theorem predict_refuses_infinite_feature
    (float_of_str : string -> option F64.t)
    (scaler : Sklearn.StandardScaler) (pinn_model : Keras.Sequential)
    (request : Py.json) (features : list F64.t) :
  mapM (fun key => Py.get (Py.or_empty_dict request) key (Py.VInt 0)
                   ≫= Py.float float_of_str)
       App.feature_keys = Returned features ->
  Exists (fun x => F64.is_inf x = true) features
  \/ length (Sklearn.mean_ scaler) <> 8 ->
  App.predict float_of_str (App.mkModels (Some scaler) (Some pinn_model))
              request
  = (App.prediction_error ValueError, 400).
Proof.
  intros Hfeat Hbad. unfold App.predict. cbn [App.pinn_model App.scaler].
  rewrite (predict_value_of_features _ _ _ _ _ Hfeat).
  unfold Sklearn.transform, Sklearn.check_array. cbn [existsb].
  rewrite orb_false_r.
  destruct (existsb F64.is_inf features) eqn:Einf; [reflexivity|].
  destruct Hbad as [Hinf|Hlen].
  - rewrite (existsb_is_inf _ Hinf) in Einf. discriminate Einf.
  - cbn [mbind outcome_bind forallb].
    rewrite (mapM_Returned_length _ _ _ Hfeat).
    change (length App.feature_keys) with 8.
    destruct (Nat.eqb_spec 8 (length (Sklearn.mean_ scaler))) as [E|_];
      [congruence | reflexivity].
Qed.

(** A request with an infinite rain. *)
Lemma predict_refuses_infinite_feature_witness :
  App.predict Fixtures.reject_strings
    (App.mkModels (Some Fixtures.unit_scaler) (Some Fixtures.physical_model))
    (Py.JObject Fixtures.infinite_rain_request)
  = (App.prediction_error ValueError, 400).
Proof.
  apply (predict_refuses_infinite_feature Fixtures.reject_strings
           Fixtures.unit_scaler Fixtures.physical_model
           (Py.JObject Fixtures.infinite_rain_request)
           [F64.of_Z 25; F64.zero; F64.zero; F64.inf;
            F64.zero; F64.zero; F64.zero; F64.zero]).
  - vm_compute. reflexivity.
  - left. do 3 apply Exists_cons_tl. apply Exists_cons_hd. reflexivity.
Defined.

(** * Properties of accounts and sessions *)

Lemma find_app_none {A : Type} (f : A -> bool) (l1 l2 : list A) :
  List.find f l1 = None -> List.find f (l1 ++ l2) = List.find f l2.
Proof.
  induction l1 as [|a l1 IH]; [reflexivity|]. cbn [List.find app].
  destruct (f a); [discriminate | exact IH].
Qed.

Lemma first_by_email_none (users : list Auth.User) (e : string) :
  Auth.first_by_email users e = None -> ~ In e (map Auth.email users).
Proof.
  intros Hnone Hin. apply in_map_iff in Hin. destruct Hin as (u & Hu & Hin).
  pose proof (find_none _ _ Hnone u Hin) as Hf. cbn in Hf.
  rewrite Hu, String.eqb_refl in Hf. discriminate Hf.
Qed.

Lemma ids_below_next (users : list Auth.User) (u : Auth.User) :
  In u users -> Auth.id u < Auth.next_id users.
Proof.
  unfold Auth.next_id. induction users as [|v users IH]; [contradiction|].
  intros [<-|Hin]; cbn [map fold_right]; [lia|].
  specialize (IH Hin). lia.
Qed.

Lemma get_by_id_next_none (users : list Auth.User) :
  Auth.get_by_id users (Auth.next_id users) = None.
Proof.
  unfold Auth.get_by_id.
  destruct (List.find _ users) as [u|] eqn:E; [|reflexivity].
  apply find_some in E. destruct E as [Hin Hid].
  apply Nat.eqb_eq in Hid. pose proof (ids_below_next users u Hin). lia.
Qed.

(** X11: registration keeps the table sound: it never changes or removes a
    row (the old table is a prefix of the new one), and when e-mail
    addresses and ids were unique before, they are unique afterwards,
    whatever is submitted. *)
Theorem register_keeps_users_unique
    (Salt : Type) (generate_password_hash : Salt -> string -> string)
    (users : list Auth.User) (salt : Salt) (c : Auth.credentials) :
  NoDup (map Auth.email users) ->
  NoDup (map Auth.id users) ->
  let users' := (Auth.register Salt generate_password_hash users salt c).1 in
  (exists added, users' = users ++ added)
  /\ NoDup (map Auth.email users')
  /\ NoDup (map Auth.id users').
Proof.
  intros He Hi. unfold Auth.register.
  assert (Hsame : (exists added, users = users ++ added)
                  /\ NoDup (map Auth.email users)
                  /\ NoDup (map Auth.id users)).
  { split; [exists []; symmetry; apply app_nil_r | split; assumption]. }
  destruct (Auth.given_email c) as [e|]; [|exact Hsame].
  destruct (Auth.given_password c) as [p|]; [|exact Hsame].
  destruct (negb _); [exact Hsame|].
  destruct (Auth.first_by_email users e) as [u|] eqn:Efind; [exact Hsame|].
  cbn [fst]. split; [eexists; reflexivity|].
  rewrite !map_app. cbn [map Auth.email Auth.id]. split.
  - apply NoDup_app. split; [exact He|]. split; [|apply NoDup_singleton].
    intros x Hx Hx'. apply list_elem_of_In in Hx.
    apply list_elem_of_singleton in Hx'. subst x.
    exact (first_by_email_none _ _ Efind Hx).
  - apply NoDup_app. split; [exact Hi|]. split; [|apply NoDup_singleton].
    intros x Hx Hx'. apply list_elem_of_In in Hx.
    apply list_elem_of_singleton in Hx'. subst x.
    apply in_map_iff in Hx. destruct Hx as (u & Hu & Hin).
    pose proof (ids_below_next users u Hin). lia.
Qed.

(** Registering a second user in the table with one user. *)
Lemma register_keeps_users_unique_witness :
  NoDup (map Auth.email
           (Auth.register string Fixtures.toy_hash Fixtures.one_user "salt"
              (Auth.mkCredentials (Some "bob@example.org") (Some "secret"))).1).
Proof.
  refine (proj1 (proj2 (register_keeps_users_unique string Fixtures.toy_hash
                          Fixtures.one_user "salt"
                          (Auth.mkCredentials (Some "bob@example.org")
                                              (Some "secret")) _ _))).
  - apply NoDup_singleton.
  - apply NoDup_singleton.
Defined.

(** X12: registration and login fit together. For an e-mail address that is
    not yet registered and a non-empty password, [register] answers 201, and
    a following [login] with the same two values answers 200 and opens a
    session for the new user, whom [check_session] then reports - provided
    that bcrypt accepts a password against its own hash. *)
Theorem register_then_login_succeeds
    (Salt : Type) (generate_password_hash : Salt -> string -> string)
    (check_password_hash : string -> string -> bool)
    (users : list Auth.User) (salt : Salt) (e p : string)
    (session : option nat) :
  (forall s pw, check_password_hash (generate_password_hash s pw) pw = true) ->
  e <> "" -> p <> "" ->
  Auth.first_by_email users e = None ->
  let c := Auth.mkCredentials (Some e) (Some p) in
  let users' := (Auth.register Salt generate_password_hash users salt c).1 in
  (Auth.register Salt generate_password_hash users salt c).2
  = (Auth.message ("User " +:+ e +:+ " registered successfully"), 201)
  /\ Auth.login check_password_hash users' session c
     = (Some (Auth.next_id users), (Auth.login_successful e, 200))
  /\ Auth.check_session users' (Some (Auth.next_id users))
     = (Auth.session_info true (Some e), 200).
Proof.
  intros Hbcrypt He Hp Hfree c users'. subst c users'.
  assert (Hte : Auth.truthy (Some e) = true).
  { cbn. apply negb_true_iff, String.eqb_neq, He. }
  assert (Htp : Auth.truthy (Some p) = true).
  { cbn. apply negb_true_iff, String.eqb_neq, Hp. }
  unfold Auth.register, Auth.login.
  cbn [Auth.given_email Auth.given_password]. rewrite Hte, Htp, Hfree.
  cbn [andb negb fst snd]. split; [reflexivity|].
  unfold Auth.first_by_email in *. rewrite (find_app_none _ _ _ Hfree).
  cbn [List.find Auth.email Auth.password Auth.id]. rewrite String.eqb_refl.
  cbn [Auth.password Auth.id Auth.email].
  rewrite Hbcrypt. split; [reflexivity|].
  unfold Auth.check_session, Auth.current_user, Auth.load_user.
  pose proof (get_by_id_next_none users) as Hnone.
  unfold Auth.get_by_id in *. rewrite (find_app_none _ _ _ Hnone).
  cbn [List.find Auth.id Auth.email]. rewrite Nat.eqb_refl. reflexivity.
Qed.

(** Bob registers in the table with one user, and logs in. *)
Lemma register_then_login_succeeds_witness :
  Auth.login Fixtures.toy_check
    (Auth.register string Fixtures.toy_hash Fixtures.one_user "salt"
       (Auth.mkCredentials (Some "bob@example.org") (Some "secret"))).1
    None (Auth.mkCredentials (Some "bob@example.org") (Some "secret"))
  = (Some 2, (Auth.login_successful "bob@example.org", 200)).
Proof.
  refine (proj1 (proj2 (register_then_login_succeeds string Fixtures.toy_hash
                          Fixtures.toy_check Fixtures.one_user "salt"
                          "bob@example.org" "secret" None _ _ _ _))).
  - intros s pw. apply String.eqb_refl.
  - discriminate.
  - discriminate.
  - reflexivity.
Defined.

(** X13: a session is opened only for a registered e-mail address whose
    stored hash bcrypt accepts for the submitted password; the session then
    belongs to a user of the table, so that protected views accept it. Every
    other login attempt (unknown address, wrong password, missing or empty
    field) leaves the session as it was and answers 400 or 401. *)
Theorem login_opens_session_only_for_valid_credentials
    (check_password_hash : string -> string -> bool)
    (users : list Auth.User) (session : option nat) (c : Auth.credentials) :
  let r := Auth.login check_password_hash users session c in
  (r.2.2 = 200 /\
   exists e p user,
     c = Auth.mkCredentials (Some e) (Some p)
     /\ Auth.first_by_email users e = Some user
     /\ check_password_hash (Auth.password user) p = true
     /\ r.1 = Some (Auth.id user)
     /\ Auth.is_authenticated users r.1 = true)
  \/ ((r.2.2 = 400 \/ r.2.2 = 401) /\ r.1 = session).
Proof.
  cbv zeta. unfold Auth.login. destruct c as [[e|] [p|]]; cbn [Auth.given_email
    Auth.given_password]; try (right; split; [left|]; reflexivity).
  destruct (negb _); [right; split; [left|]; reflexivity|].
  destruct (Auth.first_by_email users e) as [user|] eqn:Efind;
    [|right; split; [right|]; reflexivity].
  destruct (check_password_hash _ p) eqn:Echeck;
    [|right; split; [right|]; reflexivity].
  left. split; [reflexivity|]. exists e, p, user. repeat split; try assumption.
  cbn [fst]. unfold Auth.is_authenticated, Auth.current_user, Auth.load_user,
    Auth.get_by_id.
  destruct (List.find _ users) as [u|] eqn:Eid; [reflexivity|].
  apply find_some in Efind. destruct Efind as [Hin _].
  pose proof (find_none _ _ Eid user Hin) as Hf. cbn in Hf.
  rewrite Nat.eqb_refl in Hf. discriminate Hf.
Qed.

(** X14: after [logout] nobody is logged in, whatever the session was
    before: [check_session] answers 401, and the protected prediction route
    answers 401 for every request, loaded models or not. An authenticated
    caller gets 200 from [logout], an anonymous one 401. *)
Theorem logout_closes_the_session
    (float_of_str : string -> option F64.t)
    (users : list Auth.User) (session : option nat) :
  let after := (Auth.logout users session).1 in
  Auth.is_authenticated users after = false
  /\ Auth.check_session users after = (Auth.session_info false None, 401)
  /\ (forall ctx request,
        App.api_predict float_of_str ctx
          (Auth.is_authenticated users after) request
        = (App.unauthorized, 401))
  /\ (Auth.logout users session).2.2
     = (if Auth.is_authenticated users session then 200 else 401).
Proof.
  cbv zeta. unfold Auth.logout.
  destruct (Auth.is_authenticated users session) eqn:Ea; cbn [fst snd].
  - repeat split.
  - assert (Hc : Auth.current_user users session = None).
    { unfold Auth.is_authenticated in Ea.
      destruct (Auth.current_user users session); [discriminate|reflexivity]. }
    unfold Auth.check_session. rewrite Hc, Ea. repeat split.
Qed.

(** * Properties of the fire view *)

Lemma line_body_spec (float_of_str : string -> option F64.t)
    (lat_idx lon_idx : nat) (fires : list Fires.fire) (line : string) :
  Fires.line_body float_of_str lat_idx lon_idx fires line
  = Returned
      (fires ++ match Fires.fire_of_line float_of_str lat_idx lon_idx line with
                | Some f => [f]
                | None => []
                end).
Proof.
  unfold Fires.line_body, Fires.fire_of_line, Fires.item, Fires.float.
  destruct (Fires.split ","%char line !! lat_idx) as [a|]; cbn;
    [|rewrite app_nil_r; reflexivity].
  destruct (float_of_str a) as [x|]; cbn;
    [|destruct (_ !! lon_idx); rewrite app_nil_r; reflexivity].
  destruct (Fires.split ","%char line !! lon_idx) as [b|]; cbn;
    [|rewrite app_nil_r; reflexivity].
  destruct (float_of_str b) as [y|]; cbn; [reflexivity|].
  rewrite app_nil_r. reflexivity.
Qed.

Lemma for_lines_spec (float_of_str : string -> option F64.t)
    (lat_idx lon_idx : nat) (lines : list string) :
  forall fires,
  Fires.for_lines float_of_str lat_idx lon_idx lines fires
  = Returned
      (fires ++ omap (Fires.fire_of_line float_of_str lat_idx lon_idx) lines).
Proof.
  induction lines as [|line lines IH]; intros fires; cbn [Fires.for_lines omap].
  - rewrite app_nil_r. reflexivity.
  - rewrite line_body_spec. cbn [mbind outcome_bind]. rewrite IH.
    rewrite <- app_assoc. f_equal. f_equal. cbn.
    destruct (Fires.fire_of_line _ _ _ line); reflexivity.
Qed.

Lemma omap_length_le {A B : Type} (f : A -> option B) (l : list A) :
  length (omap f l) <= length l.
Proof.
  induction l as [|a l IH]; cbn; [lia|]. destruct (f a); cbn; lia.
Qed.

(** X15: with the key set and an answer of at least two lines whose header
    names a latitude and a longitude column, the view answers 200 with one
    fire for each data line that has both fields as numbers, in the order of
    the lines. A line with a missing or non-numeric field is skipped: it
    neither fails the request nor hides the lines after it. *)
Theorem fires_are_the_well_formed_lines
    (float_of_str : string -> option F64.t)
    (get_lines : string -> outcome (list string))
    (key header : string) (data : list string) (lat_idx lon_idx : nat) :
  key <> "" ->
  get_lines (Fires.url key) = Returned (header :: data) ->
  data <> [] ->
  Fires.index "latitude" (Fires.split ","%char header) = Returned lat_idx ->
  Fires.index "longitude" (Fires.split ","%char header) = Returned lon_idx ->
  Fires.get_fires float_of_str get_lines (Some key)
  = (Fires.fires
       (omap (Fires.fire_of_line float_of_str lat_idx lon_idx) data), 200)
  /\ length (omap (Fires.fire_of_line float_of_str lat_idx lon_idx) data)
     <= length data.
Proof.
  intros Hkey Hget Hdata Hlat Hlon. split; [|apply omap_length_le].
  unfold Fires.get_fires. apply String.eqb_neq in Hkey. rewrite Hkey, Hget.
  cbn [mbind outcome_bind]. unfold Fires.parse.
  destruct data as [|line data]; [congruence|].
  cbn [length Nat.ltb Nat.leb hd tl]. rewrite Hlat. cbn [mbind outcome_bind].
  rewrite Hlon. cbn [mbind outcome_bind]. rewrite for_lines_spec.
  reflexivity.
Qed.

(** Of four data lines, the two well-formed ones are returned. *)
Lemma fires_are_the_well_formed_lines_witness :
  Fires.get_fires Fixtures.float_of_digits Fixtures.fire_service (Some "k")
  = (Fires.fires [Fires.mkFire (F64.of_Z 10) (F64.of_Z 76);
                  Fires.mkFire (F64.of_Z 13) (F64.of_Z 78)], 200).
Proof.
  exact (proj1 (fires_are_the_well_formed_lines Fixtures.float_of_digits
                  Fixtures.fire_service "k" "latitude,longitude,bright"
                  ["10,76,300"; "x,77,310"; "12"; "13,78,305"] 0 1
                  ltac:(discriminate) eq_refl ltac:(discriminate)
                  eq_refl eq_refl)).
Defined.

(** X16: the view never fails with anything but an answer of its own. An
    unset or empty key gives 500 without a request to the service; a failed
    request gives 500 with its exception; an answer of at most one line
    gives 200 with no fire; a header without a latitude or longitude
    column gives 500 ([ValueError]). *)
Theorem fires_edge_cases
    (float_of_str : string -> option F64.t)
    (get_lines : string -> outcome (list string)) :
  Fires.get_fires float_of_str get_lines None
  = (Fires.error "Server missing NASA_API_KEY", 500)
  /\ Fires.get_fires float_of_str get_lines (Some "")
     = (Fires.error "Server missing NASA_API_KEY", 500)
  /\ (forall key e,
        key <> "" -> get_lines (Fires.url key) = Raised e ->
        Fires.get_fires float_of_str get_lines (Some key)
        = (Fires.failed e, 500))
  /\ (forall key lines,
        key <> "" -> get_lines (Fires.url key) = Returned lines ->
        length lines <= 1 ->
        Fires.get_fires float_of_str get_lines (Some key)
        = (Fires.fires [], 200))
  /\ (forall key header data,
        key <> "" -> get_lines (Fires.url key) = Returned (header :: data) ->
        data <> [] ->
        ~ In "latitude" (Fires.split ","%char header)
        \/ ~ In "longitude" (Fires.split ","%char header) ->
        Fires.get_fires float_of_str get_lines (Some key)
        = (Fires.failed ValueError, 500)).
Proof.
  assert (Hindex : forall x l, ~ In x l -> Fires.index x l = Raised ValueError).
  { intros x l. induction l as [|y l IH]; intros Hnot; [reflexivity|].
    cbn [Fires.index]. destruct (String.eqb_spec y x) as [->|_].
    - exfalso. apply Hnot. now left.
    - rewrite IH; [reflexivity|]. intros Hin. apply Hnot. now right. }
  assert (Hraise : forall x l e, Fires.index x l = Raised e -> e = ValueError).
  { intros x l. induction l as [|y l IH]; intros e; cbn [Fires.index].
    - congruence.
    - destruct (String.eqb y x); [discriminate|].
      destruct (Fires.index x l) as [i|e']; cbn; [discriminate|].
      intros [= <-]. apply IH. reflexivity. }
  split; [reflexivity|]. split; [reflexivity|]. split; [|split].
  - intros key e Hkey Hget. unfold Fires.get_fires.
    apply String.eqb_neq in Hkey. rewrite Hkey, Hget. reflexivity.
  - intros key lines Hkey Hget Hlen. unfold Fires.get_fires.
    apply String.eqb_neq in Hkey. rewrite Hkey, Hget.
    cbn [mbind outcome_bind]. unfold Fires.parse.
    destruct (Nat.ltb_spec 1 (length lines)); [lia | reflexivity].
  - intros key header data Hkey Hget Hdata Hmiss. unfold Fires.get_fires.
    apply String.eqb_neq in Hkey. rewrite Hkey, Hget.
    cbn [mbind outcome_bind]. unfold Fires.parse.
    destruct data as [|line data]; [congruence|].
    cbn [length Nat.ltb Nat.leb hd tl].
    destruct (Fires.index "latitude" _) as [i|e] eqn:Elat;
      cbn [mbind outcome_bind].
    + destruct Hmiss as [Hlat|Hlon].
      * rewrite (Hindex _ _ Hlat) in Elat. discriminate Elat.
      * rewrite (Hindex _ _ Hlon). reflexivity.
    + rewrite (Hraise _ _ _ Elat). reflexivity.
Qed.

(** A header without a longitude column: the view answers 500. *)
Lemma fires_edge_cases_witness :
  Fires.get_fires Fixtures.float_of_digits Fixtures.headless_fire_service
    (Some "k")
  = (Fires.failed ValueError, 500).
Proof.
  refine (proj2 (proj2 (proj2 (proj2 (fires_edge_cases
                                        Fixtures.float_of_digits
                                        Fixtures.headless_fire_service))))
            "k" "latitude,bright" ["10,300"] _ eq_refl _ _).
  - discriminate.
  - discriminate.
  - right. vm_compute. intros [H|[H|[]]]; discriminate H.
Defined.

Lemma split_nonempty (sep : Ascii.ascii) (s : string) :
  exists piece pieces, Fires.split sep s = piece :: pieces.
Proof.
  destruct s as [|c s]; cbn [Fires.split]; [eauto|].
  destruct (Ascii.eqb c sep); [eauto|].
  destruct (Fires.split sep s); eauto.
Qed.

(** Splitting a line at the separator and joining the pieces with it gives
    the line back. *)
Lemma join_split (sep : Ascii.ascii) (s : string) :
  Fires.join sep (Fires.split sep s) = s.
Proof.
  induction s as [|c s IH]; [reflexivity|]. cbn [Fires.split].
  destruct (split_nonempty sep s) as (piece & pieces & E).
  rewrite E in *. destruct (Ascii.eqb_spec c sep) as [->|Hc].
  - change (Fires.join sep (EmptyString :: piece :: pieces))
      with (String sep (Fires.join sep (piece :: pieces))).
    rewrite IH. reflexivity.
  - cbn [Fires.join] in *. destruct pieces as [|p2 ps].
    + subst s. reflexivity.
    + cbn. rewrite <- IH. reflexivity.
Qed.

(** * Properties of the weather view *)

Lemma dict_with_key_truthy (d : gmap string Json.value) (key : string)
    (v : Json.value) :
  d !! key = Some v -> Json.truthy (Json.JDict d) = true.
Proof.
  intros Hkey. cbn [Json.truthy]. destruct (Nat.eqb_spec (size d) 0) as [E|_];
    [|reflexivity].
  apply map_size_empty_iff in E. subst d. rewrite lookup_empty in Hkey.
  discriminate Hkey.
Qed.

(** With a one-hour reading in the rain dict the loop stops at it. *)
Lemma rain_reading_one_hour (d : gmap string Json.value) (v : Json.value) :
  d !! "1h" = Some v ->
  Weather.rain_reading ["1h"; "3h"]
    (Json.or_else (Json.JDict d) (Json.JDict ∅))
  = Returned (Json.or_else v (Json.JInt 0)).
Proof.
  intros H1h. unfold Json.or_else at 1.
  rewrite (dict_with_key_truthy d "1h" v H1h).
  cbn [Weather.rain_reading Json.contains Json.get mbind outcome_bind].
  rewrite H1h. rewrite bool_decide_eq_true_2 by (eexists; reflexivity).
  reflexivity.
Qed.

Lemma rain_reading_no_dict :
  Weather.rain_reading ["1h"; "3h"]
    (Json.or_else Json.JNull (Json.JDict ∅))
  = Returned (Json.JInt 0).
Proof. reflexivity. Qed.

Lemma get_dict (d : gmap string Json.value) (key : string)
    (dflt : Json.value) :
  Json.get (Json.JDict d) key dflt = Returned (default dflt (d !! key)).
Proof. cbn [Json.get]. destruct (d !! key); reflexivity. Qed.

(** X17: when the rain dict of the answer has a one-hour reading, the
    three-hour reading has no influence on the view's answer; and a
    one-hour reading that is null or zero gives the same answer as an
    answer without any rain entry, whatever the three-hour reading is. *)
Theorem one_hour_rain_reading_hides_three_hour
    (data rain_dict : gmap string Json.value) (v : Json.value) :
  rain_dict !! "1h" = Some v ->
  Weather.weather_of (Json.JDict (<["rain" := Json.JDict rain_dict]> data))
  = Weather.weather_of
      (Json.JDict (<["rain" := Json.JDict {["1h" := v]}]> data))
  /\ (Json.truthy v = false ->
      Weather.weather_of (Json.JDict (<["rain" := Json.JDict rain_dict]> data))
      = Weather.weather_of (Json.JDict (delete "rain" data))).
Proof.
  intros H1h. unfold Weather.weather_of. rewrite !get_dict.
  rewrite !lookup_insert_eq, !lookup_delete_eq.
  rewrite !lookup_insert_ne, !lookup_delete_ne by discriminate.
  cbn [mbind outcome_bind default from_option id].
  destruct (Json.get (Json.or_else _ _) "speed" Json.JNull) as [speed|e];
    cbn [mbind outcome_bind]; [|split; reflexivity].
  rewrite (rain_reading_one_hour rain_dict v H1h).
  rewrite (rain_reading_one_hour {["1h" := v]} v (lookup_singleton_eq _ _)).
  split; [reflexivity|]. intros Hfalsy. rewrite rain_reading_no_dict.
  assert (Json.or_else v (Json.JInt 0) = Json.JInt 0) as ->
    by (unfold Json.or_else; rewrite Hfalsy; reflexivity).
  reflexivity.
Qed.

(** A null one-hour reading beside a three-hour reading of 5 mm: the view
    reports no rain. *)
Lemma one_hour_rain_reading_hides_three_hour_witness :
  Weather.weather_of
    (Json.JDict (<["rain" := Json.JDict Fixtures.rain_1h_null]>
                   Fixtures.calm_answer))
  = Returned (Weather.mkWeather (Json.JInt 30) (Json.JInt 40)
                                F64.zero F64.zero).
Proof.
  rewrite (proj2 (one_hour_rain_reading_hides_three_hour Fixtures.calm_answer
                    Fixtures.rain_1h_null Json.JNull
                    ltac:(vm_compute; reflexivity)) eq_refl).
  vm_compute. reflexivity.
Defined.

Lemma coords_of_known (country : string) (coords : string * string) :
  Weather.coords_of country = Some coords ->
  country = "India" \/ country = "USA" \/ country = "Canada".
Proof.
  unfold Weather.coords_of, Weather.COUNTRY_COORDS. cbn [List.find fst].
  destruct (String.eqb_spec "India" country); [auto|].
  destruct (String.eqb_spec "USA" country); [auto|].
  destruct (String.eqb_spec "Canada" country); [auto|]. discriminate.
Qed.

(** X18: the country is checked before the key and before any request: a
    country other than the three of [COUNTRY_COORDS] is answered 404
    whatever the key and the service are, and a request without the
    parameter is a request for India. *)
Theorem weather_checks_the_country_first
    (request : string -> Weather.failure + Json.value)
    (country : string) (key : option string) :
  country <> "India" -> country <> "USA" -> country <> "Canada" ->
  Weather.get_weather request (Some country) key
  = (Weather.error "Country not found", 404)
  /\ Weather.get_weather request None key
     = Weather.get_weather request (Some "India") key.
Proof.
  intros HI HU HC. split; [|reflexivity]. unfold Weather.get_weather.
  cbn [default from_option id].
  destruct (Weather.coords_of country) as [coords|] eqn:E; [|reflexivity].
  destruct (coords_of_known _ _ E) as [->| [->| ->]]; congruence.
Qed.

Lemma weather_checks_the_country_first_witness :
  Weather.get_weather Fixtures.service_down (Some "Algeria") None
  = (Weather.error "Country not found", 404).
Proof.
  exact (proj1 (weather_checks_the_country_first Fixtures.service_down
                  "Algeria" None ltac:(discriminate) ltac:(discriminate)
                  ltac:(discriminate))).
Defined.

(** X19: when the request to the weather service fails, the view passes
    the service's status on only if the failure is an HTTP error that
    carries an answer whose body is JSON; an HTTP error with another body
    or without an answer, and every other request failure, is answered
    502. *)
Theorem weather_service_failure_status
    (request : string -> Weather.failure + Json.value)
    (country : option string) (coords : string * string) (key : string)
    (f : Weather.failure) :
  Weather.coords_of (default "India" country) = Some coords ->
  key <> "" ->
  request (Weather.url coords key) = inl f ->
  snd (Weather.get_weather request country (Some key))
  = match f with
    | Weather.HTTPError (Some resp) =>
        match Weather.json resp with
        | Returned _ => Weather.status_code resp
        | Raised _ => 502
        end
    | Weather.HTTPError None => 502
    | Weather.RequestException _ => 502
    | Weather.OtherException _ => 500
    end.
Proof.
  intros Hcoords Hkey Hreq. unfold Weather.get_weather.
  rewrite Hcoords. apply String.eqb_neq in Hkey. rewrite Hkey, Hreq.
  destruct f as [[resp|]| |]; try reflexivity.
  destruct (Weather.json resp); reflexivity.
Qed.

(** The service answers 503 with a page that is no JSON: the view answers
    502. *)
Lemma weather_service_failure_status_witness :
  snd (Weather.get_weather Fixtures.service_down (Some "USA") (Some "k"))
  = 502.
Proof.
  exact (weather_service_failure_status Fixtures.service_down (Some "USA")
           ("38.9637", "-95.7129") "k"
           (Weather.HTTPError (Some Fixtures.gateway_page))
           eq_refl ltac:(discriminate) eq_refl).
Defined.

Lemma or_else_falsy (v dflt : Json.value) :
  Json.truthy v = false -> Json.or_else v dflt = dflt.
Proof. intros H. unfold Json.or_else. rewrite H. reflexivity. Qed.

(** X20: an answer of the service that is a JSON object is accepted with
    any of its three parts missing, null or empty: the view then reports
    the integer 0 for temperature and humidity and the float 0.0 for wind
    speed and rain. An answer that is no JSON object is answered 500. *)
Theorem weather_defaults_for_missing_parts
    (request : string -> Weather.failure + Json.value)
    (country : option string) (coords : string * string) (key : string)
    (data : Json.value) :
  Weather.coords_of (default "India" country) = Some coords ->
  key <> "" ->
  request (Weather.url coords key) = inr data ->
  match data with
  | Json.JDict d =>
      Json.truthy (default Json.JNull (d !! "wind")) = false ->
      Json.truthy (default Json.JNull (d !! "main")) = false ->
      Json.truthy (default Json.JNull (d !! "rain")) = false ->
      Weather.get_weather request country (Some key)
      = (Weather.weather (Weather.mkWeather (Json.JInt 0) (Json.JInt 0)
                                            F64.zero F64.zero), 200)
  | _ =>
      Weather.get_weather request country (Some key)
      = (Weather.unexpected AttributeError, 500)
  end.
Proof.
  intros Hcoords Hkey Hreq. unfold Weather.get_weather.
  rewrite Hcoords. apply String.eqb_neq in Hkey. rewrite Hkey, Hreq.
  destruct data as [| | | | | |d]; try reflexivity.
  intros Hwind Hmain Hrain. unfold Weather.weather_of. rewrite !get_dict.
  cbn [mbind outcome_bind].
  rewrite (or_else_falsy _ (Json.JDict ∅) Hwind).
  rewrite (or_else_falsy _ (Json.JDict ∅) Hmain).
  rewrite (or_else_falsy _ (Json.JDict ∅) Hrain). reflexivity.
Qed.

Lemma weather_defaults_for_missing_parts_witness :
  Weather.get_weather (fun _ => inr (Json.JDict ∅)) None (Some "k")
  = (Weather.weather (Weather.mkWeather (Json.JInt 0) (Json.JInt 0)
                                        F64.zero F64.zero), 200).
Proof.
  exact (weather_defaults_for_missing_parts (fun _ => inr (Json.JDict ∅))
           None ("28.6139", "77.2090") "k" (Json.JDict ∅)
           eq_refl ltac:(discriminate) eq_refl eq_refl eq_refl eq_refl).
Defined.

(** * Properties of the station view *)

Lemma mapM_Returned_inv {A B : Type} (f : A -> outcome B) (l : list A) :
  forall ys,
  mapM f l = Returned ys -> Forall2 (fun x y => f x = Returned y) l ys.
Proof.
  induction l as [|x l IH]; intros ys; cbn [mapM].
  - intros [= <-]. constructor.
  - destruct (f x) as [y|e] eqn:Ex; cbn; [|discriminate].
    destruct (mapM f l) as [ys'|e]; cbn; [|discriminate].
    intros [= <-]. constructor; [exact Ex | apply IH; reflexivity].
Qed.

Lemma mapM_raises {A B : Type} (f : A -> outcome B) (l : list A) (x : A)
    (e : exn) :
  In x l -> f x = Raised e -> exists e', mapM f l = Raised e'.
Proof.
  induction l as [|a l IH]; intros Hin Hx; [destruct Hin|].
  cbn [mapM]. destruct (f a) as [b|e'] eqn:Ea; cbn; [|eauto].
  destruct Hin as [->|Hin]; [congruence|].
  destruct (IH Hin Hx) as [e'' ->]. cbn. eauto.
Qed.

Lemma Forall2_seq_lookup {B : Type} (R : nat -> B -> Prop) (n : nat) :
  forall (a : nat) (l : list B),
  Forall2 R (seq a n) l ->
  length l = n /\ forall i r, l !! i = Some r -> R (a + i) r.
Proof.
  induction n as [|n IH]; intros a l H; cbn [seq] in H.
  - inversion H; subst. split; [reflexivity|]. intros i r Hi.
    rewrite lookup_nil in Hi. discriminate Hi.
  - inversion H as [|? r0 ? l' Hr Hrest]; subst.
    destruct (IH _ _ Hrest) as [Hlen Hlook]. split; [cbn; lia|].
    intros [|i] r Hi; cbn in Hi.
    + injection Hi as <-. rewrite Nat.add_0_r. exact Hr.
    + replace (a + S i) with (S a + i) by lia. apply Hlook. exact Hi.
Qed.

(** What a turn of the loop that appends a row has read. *)
Lemma row_of_Returned (obs dates : Json.value) (n i : nat) (r : Station.row) :
  Station.row_of obs dates n i = Returned r ->
  Station.id r = i + 1
  /\ Json.getitem dates i = Returned (Station.date r)
  /\ (exists temp_c,
        Station.reading obs "air_temp_set_1" n i = Returned temp_c
        /\ Station.air_temp temp_c = Returned (Station.airTemp r))
  /\ Station.reading obs "relative_humidity_set_1" n i
     = Returned (Station.rh r)
  /\ Station.reading obs "wind_speed_set_1" n i = Returned (Station.wind r)
  /\ Station.reading obs "precip_accum_one_hour_set_1" n i
     = Returned (Station.precip r)
  /\ (Station.init r, Station.month r, Station.solar r, Station.ffmc r,
      Station.dmc r, Station.dc r, Station.isi r, Station.bui r,
      Station.fwi r)
     = ("daily", "N/A", Json.JNull, 85, 6, 15, 2, Json.JNull, Json.JNull)%Z.
Proof.
  unfold Station.row_of.
  destruct (Station.reading obs "air_temp_set_1" n i) as [temp_c|];
    cbn [mbind outcome_bind]; [|discriminate].
  destruct (Json.getitem dates i) as [date|];
    cbn [mbind outcome_bind]; [|discriminate].
  destruct (Station.air_temp temp_c) as [t|] eqn:Et;
    cbn [mbind outcome_bind]; [|discriminate].
  destruct (Station.reading obs "relative_humidity_set_1" n i) as [rh|];
    cbn [mbind outcome_bind]; [|discriminate].
  destruct (Station.reading obs "wind_speed_set_1" n i) as [wind|];
    cbn [mbind outcome_bind]; [|discriminate].
  destruct (Station.reading obs "precip_accum_one_hour_set_1" n i) as [p|];
    cbn [mbind outcome_bind]; [|discriminate].
  intros [= <-]. cbn. split; [reflexivity|]. split; [reflexivity|].
  split; [exists temp_c; split; [reflexivity | exact Et]|].
  repeat split; reflexivity.
Qed.

(** The rows of a successful answer come from one run of the loop. *)
Lemma rows_of_Returned (data : Json.value) (l : list Station.row) :
  Station.rows_of data = Returned (Some l) ->
  exists station first obs dates n,
    Json.get data "STATION" Json.JNull = Returned station
    /\ Json.getitem station 0 = Returned first
    /\ Json.get first "OBSERVATIONS" (Json.JDict ∅) = Returned obs
    /\ Json.get obs "date_time" (Json.JList []) = Returned dates
    /\ Json.len dates = Returned n
    /\ Forall2 (fun i r => Station.row_of obs dates n i = Returned r)
               (seq 0 n) l.
Proof.
  unfold Station.rows_of.
  destruct (Json.get data "STATION" Json.JNull) as [station|] eqn:E1;
    cbn [mbind outcome_bind]; [|discriminate].
  destruct (Json.truthy station); [|discriminate].
  destruct (Json.getitem station 0) as [first|] eqn:E2;
    cbn [mbind outcome_bind]; [|discriminate].
  destruct (Json.get first "OBSERVATIONS" (Json.JDict ∅)) as [obs|] eqn:E3;
    cbn [mbind outcome_bind]; [|discriminate].
  destruct (Json.get obs "date_time" (Json.JList [])) as [dates|] eqn:E4;
    cbn [mbind outcome_bind]; [|discriminate].
  destruct (Json.len dates) as [n|] eqn:E5;
    cbn [mbind outcome_bind]; [|discriminate].
  destruct (mapM (Station.row_of obs dates n) (seq 0 n)) as [l'|] eqn:Eloop;
    cbn [mbind outcome_bind]; [|discriminate].
  intros [= <-]. exists station, first, obs, dates, n.
  repeat split; try assumption. apply mapM_Returned_inv. exact Eloop.
Qed.

Lemma get_station_data_rows (request : string -> outcome Json.value)
    (station_id start_date end_date key : option string)
    (l : list Station.row) :
  Station.get_station_data request station_id start_date end_date key
  = (Station.rows l, 200) ->
  exists data, Station.rows_of data = Returned (Some l).
Proof.
  unfold Station.get_station_data.
  destruct (negb _); [discriminate|]. destruct (negb _); [discriminate|].
  destruct (request _) as [data|]; cbn [mbind outcome_bind]; [|discriminate].
  destruct (Station.rows_of data) as [[l'|]|] eqn:E; try discriminate.
  intros [= <-]. eauto.
Qed.

(** X21: whenever the station view answers with rows, the rows are
    numbered 1, 2, 3, ... in their order, and every row carries the same
    placeholders: "daily", "N/A", 85, 6, 15 and 2 for [ffmc], [dmc], [dc]
    and [isi], and null for [solar], [bui] and [fwi]. *)
Theorem station_rows_are_numbered_from_one
    (request : string -> outcome Json.value)
    (station_id start_date end_date key : option string)
    (l : list Station.row) :
  Station.get_station_data request station_id start_date end_date key
  = (Station.rows l, 200) ->
  map Station.id l = seq 1 (length l)
  /\ Forall (fun r =>
       (Station.init r, Station.month r, Station.solar r, Station.ffmc r,
        Station.dmc r, Station.dc r, Station.isi r, Station.bui r,
        Station.fwi r)
       = ("daily", "N/A", Json.JNull, 85, 6, 15, 2, Json.JNull, Json.JNull)%Z)
     l.
Proof.
  intros Hview. destruct (get_station_data_rows _ _ _ _ _ _ Hview)
    as (data & Hrows).
  destruct (rows_of_Returned _ _ Hrows)
    as (station & first & obs & dates & n & _ & _ & _ & _ & _ & Hloop).
  destruct (Forall2_seq_lookup _ _ _ _ Hloop) as [Hlen Hrow]. split.
  - apply list_eq. intros i. rewrite list_lookup_fmap.
    destruct (l !! i) as [r|] eqn:Ei; cbn.
    + destruct (row_of_Returned _ _ _ _ _ (Hrow i r Ei)) as (Hid & _).
      cbn in Hid. rewrite Hid. symmetry. apply lookup_seq.
      split; [lia|]. apply lookup_lt_Some in Ei. exact Ei.
    + symmetry. apply lookup_ge_None. rewrite length_seq.
      apply lookup_ge_None in Ei. exact Ei.
  - apply Forall_lookup. intros i r Ei.
    destruct (row_of_Returned _ _ _ _ _ (Hrow i r Ei))
      as (_ & _ & _ & _ & _ & _ & Hconst). exact Hconst.
Qed.

(** Three observation times give the rows 1, 2 and 3; 100 and 0 degrees
    Celsius are reported as 212 and 32 degrees Fahrenheit, the missing
    temperature as null. *)
Lemma station_rows_are_numbered_from_one_witness :
  map Station.id Fixtures.station_rows = [1; 2; 3]
  /\ map Station.airTemp Fixtures.station_rows
     = [Json.JFloat (F64.of_Z 212); Json.JNull; Json.JFloat (F64.of_Z 32)].
Proof.
  split; [|vm_compute; reflexivity].
  exact (proj1 (station_rows_are_numbered_from_one Fixtures.station_service
                  (Some "KSLC") (Some "20240101") (Some "20240102")
                  (Some "k") Fixtures.station_rows
                  ltac:(vm_compute; reflexivity))).
Defined.

Lemma getitem_list (l : list Json.value) (i : nat) (x : Json.value) :
  Json.getitem (Json.JList l) i = Returned x -> l !! i = Some x.
Proof.
  cbn [Json.getitem]. destruct (l !! i); [|discriminate].
  intros [= <-]. reflexivity.
Qed.

(** The rows of an answer of the usual shape: a list of stations, the
    first with its observations and their list of times. *)
Lemma rows_of_station (d first obs : gmap string Json.value)
    (others dates : list Json.value) (l : list Station.row) :
  d !! "STATION" = Some (Json.JList (Json.JDict first :: others)) ->
  first !! "OBSERVATIONS" = Some (Json.JDict obs) ->
  obs !! "date_time" = Some (Json.JList dates) ->
  Station.rows_of (Json.JDict d)
  = l ← mapM (Station.row_of (Json.JDict obs) (Json.JList dates)
                             (length dates))
             (seq 0 (length dates));
    mret (Some l).
Proof.
  intros Hst Hobs Hdates. unfold Station.rows_of. rewrite get_dict, Hst.
  cbn [default from_option id mbind outcome_bind Json.truthy length Nat.eqb
       negb Json.getitem lookup list_lookup].
  rewrite get_dict, Hobs.
  cbn [default from_option id mbind outcome_bind].
  rewrite get_dict, Hdates. reflexivity.
Qed.

(** X22: for an answer of the usual shape, a successful answer of the
    station view has one row for each observation time, with the times in
    their order; each of the humidity, wind and precipitation columns is
    null throughout when the station reports no such series, and is the
    series, cut to the number of times, when the series is a list. Without
    a temperature series every air temperature is null. *)
Theorem station_series_are_copied_in_order
    (d first obs : gmap string Json.value)
    (others dates : list Json.value) (l : list Station.row) :
  d !! "STATION" = Some (Json.JList (Json.JDict first :: others)) ->
  first !! "OBSERVATIONS" = Some (Json.JDict obs) ->
  obs !! "date_time" = Some (Json.JList dates) ->
  Station.rows_of (Json.JDict d) = Returned (Some l) ->
  map Station.date l = dates
  /\ (forall name column,
        In (name, column)
           [("relative_humidity_set_1", Station.rh);
            ("wind_speed_set_1", Station.wind);
            ("precip_accum_one_hour_set_1", Station.precip)] ->
        match obs !! name with
        | None => Forall (fun r => column r = Json.JNull) l
        | Some (Json.JList series) =>
            map column l = take (length dates) series
        | Some _ => True
        end)
  /\ (obs !! "air_temp_set_1" = None ->
      Forall (fun r => Station.airTemp r = Json.JNull) l).
Proof.
  intros Hst Hobs Hdates Hrows.
  rewrite (rows_of_station _ _ _ _ _ l Hst Hobs Hdates) in Hrows.
  destruct (mapM _ _) as [l'|] eqn:Eloop; cbn in Hrows; [|discriminate].
  injection Hrows as ->. apply mapM_Returned_inv in Eloop.
  destruct (Forall2_seq_lookup _ _ _ _ Eloop) as [Hlen Hrow].
  cbn [Nat.add] in Hrow.
  assert (Hcol : forall name column,
    (forall i r, l !! i = Some r ->
       Station.reading (Json.JDict obs) name (length dates) i
       = Returned (column r)) ->
    match obs !! name with
    | None => Forall (fun r => column r = Json.JNull) l
    | Some (Json.JList series) => map column l = take (length dates) series
    | Some _ => True
    end).
  { intros name column Hread.
    destruct (obs !! name) as [[| | | | |series|]|] eqn:Ename; try exact I.
    - apply list_eq. intros i. change (map column l) with (column <$> l).
      rewrite list_lookup_fmap.
      destruct (l !! i) as [r|] eqn:Ei; cbn.
      + specialize (Hread i r Ei). unfold Station.reading in Hread.
        rewrite get_dict, Ename in Hread. cbn in Hread.
        apply getitem_list in Hread. rewrite lookup_take_lt; [congruence|].
        apply lookup_lt_Some in Ei. lia.
      + symmetry. apply lookup_take_ge. apply lookup_ge_None in Ei. lia.
    - apply Forall_lookup. intros i r Ei. specialize (Hread i r Ei).
      unfold Station.reading in Hread. rewrite get_dict, Ename in Hread.
      cbn in Hread. apply getitem_list in Hread.
      apply lookup_replicate_1 in Hread. tauto. }
  split; [|split].
  - apply list_eq. intros i. change (map Station.date l) with (Station.date <$> l).
    rewrite list_lookup_fmap. destruct (l !! i) as [r|] eqn:Ei; cbn.
    + destruct (row_of_Returned _ _ _ _ _ (Hrow i r Ei)) as (_ & Hdate & _).
      apply getitem_list in Hdate. congruence.
    + symmetry. apply lookup_ge_None. apply lookup_ge_None in Ei. lia.
  - intros name column [[= <- <-]|[[= <- <-]|[[= <- <-]|[]]]]; apply Hcol;
      intros i r Ei;
      destruct (row_of_Returned _ _ _ _ _ (Hrow i r Ei))
        as (_ & _ & _ & Hrh & Hwind & Hprecip & _); assumption.
  - intros Hnone. apply Forall_lookup. intros i r Ei.
    destruct (row_of_Returned _ _ _ _ _ (Hrow i r Ei))
      as (_ & _ & (temp_c & Hread & Htemp) & _).
    unfold Station.reading in Hread. rewrite get_dict, Hnone in Hread.
    cbn in Hread. apply getitem_list in Hread.
    apply lookup_replicate_1 in Hread. destruct Hread as [-> _].
    cbn in Htemp. congruence.
Qed.

(** The humidity series of four readings is cut to the three observation
    times; there is no wind series. *)
Lemma station_series_are_copied_in_order_witness :
  map Station.date Fixtures.station_rows
  = [Json.JStr "d1"; Json.JStr "d2"; Json.JStr "d3"]
  /\ map Station.rh Fixtures.station_rows
     = [Json.JInt 40; Json.JInt 45; Json.JInt 50]
  /\ Forall (fun r => Station.wind r = Json.JNull) Fixtures.station_rows.
Proof.
  pose proof (station_series_are_copied_in_order Fixtures.station_answer
                Fixtures.first_station
                Fixtures.station_observations []
                [Json.JStr "d1"; Json.JStr "d2"; Json.JStr "d3"]
                Fixtures.station_rows
                ltac:(vm_compute; reflexivity) ltac:(vm_compute; reflexivity)
                ltac:(vm_compute; reflexivity) ltac:(vm_compute; reflexivity))
    as (Hdates & Hcols & _).
  split; [exact Hdates|]. split.
  - exact (Hcols "relative_humidity_set_1" Station.rh (or_introl eq_refl)).
  - exact (Hcols "wind_speed_set_1" Station.wind
             (or_intror (or_introl eq_refl))).
Defined.

(** A reading that cannot be taken fails the turn of the loop. *)
Lemma row_of_raises (obs dates : Json.value) (n i : nat) (name : string)
    (e : exn) :
  In name ["air_temp_set_1"; "relative_humidity_set_1"; "wind_speed_set_1";
           "precip_accum_one_hour_set_1"] ->
  Station.reading obs name n i = Raised e ->
  exists e', Station.row_of obs dates n i = Raised e'.
Proof.
  intros Hname Hread. unfold Station.row_of.
  destruct (Station.reading obs "air_temp_set_1" n i) as [temp_c|] eqn:E1;
    cbn [mbind outcome_bind]; [|eauto].
  destruct (Json.getitem dates i) as [date|];
    cbn [mbind outcome_bind]; [|eauto].
  destruct (Station.air_temp temp_c) as [t|];
    cbn [mbind outcome_bind]; [|eauto].
  destruct (Station.reading obs "relative_humidity_set_1" n i) as [rh|] eqn:E2;
    cbn [mbind outcome_bind]; [|eauto].
  destruct (Station.reading obs "wind_speed_set_1" n i) as [wind|] eqn:E3;
    cbn [mbind outcome_bind]; [|eauto].
  destruct (Station.reading obs "precip_accum_one_hour_set_1" n i)
    as [p|] eqn:E4; cbn [mbind outcome_bind]; [|eauto].
  destruct Hname as [<-|[<-|[<-|[<-|[]]]]]; congruence.
Qed.

(** X23: for an answer of the usual shape, one series that is a list with
    fewer readings than there are observation times fails the whole
    request: the view answers 500 and returns no row, not even the rows
    before the missing reading. *)
Theorem short_series_fails_the_station_request
    (request : string -> outcome Json.value)
    (station_id start_date end_date key : string)
    (d first obs : gmap string Json.value)
    (others dates series : list Json.value) (name : string) :
  station_id <> "" -> start_date <> "" -> end_date <> "" -> key <> "" ->
  request (Station.api_url key station_id start_date end_date)
  = Returned (Json.JDict d) ->
  d !! "STATION" = Some (Json.JList (Json.JDict first :: others)) ->
  first !! "OBSERVATIONS" = Some (Json.JDict obs) ->
  obs !! "date_time" = Some (Json.JList dates) ->
  In name ["air_temp_set_1"; "relative_humidity_set_1"; "wind_speed_set_1";
           "precip_accum_one_hour_set_1"] ->
  obs !! name = Some (Json.JList series) ->
  length series < length dates ->
  exists e,
    Station.get_station_data request (Some station_id) (Some start_date)
                             (Some end_date) (Some key)
    = (Station.failed e, 500).
Proof.
  intros Hid Hsd Hed Hkey Hreq Hst Hobs Hdates Hname Hseries Hshort.
  unfold Station.get_station_data, Station.given.
  apply String.eqb_neq in Hid, Hsd, Hed, Hkey. rewrite Hid, Hsd, Hed, Hkey.
  cbn [negb andb default from_option id]. rewrite Hreq.
  cbn [mbind outcome_bind].
  rewrite (rows_of_station _ _ _ _ _ [] Hst Hobs Hdates).
  destruct (row_of_raises (Json.JDict obs) (Json.JList dates) (length dates)
              (length series) name IndexError Hname) as [e' Hrow].
  { unfold Station.reading. rewrite get_dict, Hseries.
    cbn [default from_option id mbind outcome_bind Json.getitem].
    rewrite (proj2 (lookup_ge_None series (length series))) by lia.
    reflexivity. }
  assert (Hin : In (length series) (seq 0 (length dates)))
    by (apply in_seq; lia).
  destruct (mapM_raises _ _ _ _ Hin Hrow) as [e'' ->].
  exists e''. reflexivity.
Qed.

(** Two humidity readings for three observation times: no row is
    returned. *)
Lemma short_series_fails_the_station_request_witness :
  exists e,
    Station.get_station_data Fixtures.short_service (Some "KSLC")
      (Some "20240101") (Some "20240102") (Some "k")
    = (Station.failed e, 500).
Proof.
  refine (short_series_fails_the_station_request Fixtures.short_service
            "KSLC" "20240101" "20240102" "k" Fixtures.short_answer
            Fixtures.first_short_station Fixtures.short_observations []
            [Json.JStr "d1"; Json.JStr "d2"; Json.JStr "d3"]
            [Json.JInt 40; Json.JInt 45] "relative_humidity_set_1"
            _ _ _ _ _ _ _ _ _ _ _); try discriminate;
    try (vm_compute; reflexivity); try (right; left; reflexivity);
    try (cbn; lia).
Defined.

(** X24: the station view checks in this order: a request that lacks one
    of the three parameters, or gives it empty, is answered 400 whatever
    the server's key is; with the parameters given, an unset or empty key
    is answered 500 without a request; and an answer of the service
    without stations is answered 404. *)
Theorem station_checks_parameters_then_key
    (request : string -> outcome Json.value)
    (station_id start_date end_date key : option string) :
  (Station.given station_id && Station.given start_date
   && Station.given end_date = false ->
   Station.get_station_data request station_id start_date end_date key
   = (Station.error "Missing station_id, start_date, or end_date", 400))
  /\ (Station.given station_id && Station.given start_date
      && Station.given end_date = true ->
      Station.given key = false ->
      Station.get_station_data request station_id start_date end_date key
      = (Station.error "Server missing SYNOPTIC_API_KEY", 500))
  /\ (forall d,
      Station.given station_id && Station.given start_date
      && Station.given end_date = true ->
      Station.given key = true ->
      request (Station.api_url (default "" key) (default "" station_id)
                               (default "" start_date) (default "" end_date))
      = Returned (Json.JDict d) ->
      Json.truthy (default Json.JNull (d !! "STATION")) = false ->
      Station.get_station_data request station_id start_date end_date key
      = (Station.error "Station data not found or invalid ID", 404)).
Proof.
  unfold Station.get_station_data. repeat split.
  - intros ->. reflexivity.
  - intros -> ->. reflexivity.
  - intros d -> -> -> Hnone. cbn [negb mbind outcome_bind].
    unfold Station.rows_of. rewrite get_dict. cbn [mbind outcome_bind].
    rewrite Hnone. reflexivity.
Qed.

(** A station the service does not know: its answer lists no station. *)
Lemma station_checks_parameters_then_key_witness :
  Station.get_station_data Fixtures.unknown_station_service (Some "NOPE")
    (Some "20240101") (Some "20240102") (Some "k")
  = (Station.error "Station data not found or invalid ID", 404).
Proof.
  exact (proj2 (proj2 (station_checks_parameters_then_key
                         Fixtures.unknown_station_service (Some "NOPE")
                         (Some "20240101") (Some "20240102") (Some "k")))
           {[ "STATION" := Json.JList [] ]} eq_refl eq_refl eq_refl
           ltac:(vm_compute; reflexivity)).
Defined.

(** * Reproducibility of a run (claim C7) *)

Section Replay.
Context (Gradients : Type)
        (tape_gradient :
           (Keras.Sequential -> F32.t) -> Keras.Sequential -> Gradients)
        (Optimizer : Type)
        (apply_gradients :
           Optimizer -> Gradients -> Keras.Sequential ->
           Optimizer * Keras.Sequential).

Local Abbreviation batch_body :=
  (TrainPinnModel.batch_body Gradients tape_gradient Optimizer apply_gradients).
Local Abbreviation epoch_body :=
  (TrainPinnModel.epoch_body Gradients tape_gradient Optimizer apply_gradients).
Local Abbreviation training_loop :=
  (TrainPinnModel.training_loop Gradients tape_gradient Optimizer
                                apply_gradients).
Local Abbreviation state := (TrainPinnModel.state Optimizer).
Local Abbreviation optimizer := (TrainPinnModel.optimizer Optimizer).
Local Abbreviation trajectory := (TrainPinnModel.trajectory Optimizer).
Local Abbreviation model := (TrainPinnModel.model Optimizer).
Local Abbreviation step_gradient := (Run.step_gradient Gradients tape_gradient).
Local Abbreviation gradients_along :=
  (Run.gradients_along Gradients tape_gradient Optimizer apply_gradients).
Local Abbreviation replay := (Run.replay Gradients Optimizer apply_gradients).
Local Abbreviation final := (Run.final Gradients Optimizer apply_gradients).

(** One step: the optimizer is applied to the gradient of the batch at the
    current variables, and the new variables join the trajectory. Nothing
    else of the state reaches the optimizer or the variables. *)
Lemma batch_body_step (sm : state * TrainPinnModel.epoch_metrics)
    (b : Run.batch) :
  let om := apply_gradients (optimizer sm.1) (step_gradient (model sm.1) b)
                            (model sm.1) in
  optimizer (batch_body sm b).1 = om.1
  /\ model (batch_body sm b).1 = om.2
  /\ trajectory (batch_body sm b).1 = trajectory sm.1 ++ [om.2].
Proof.
  destruct sm as [st m], b as [x_batch y_batch].
  unfold TrainPinnModel.batch_body, TrainPinnModel.train_step,
    Run.step_gradient.
  cbn [fst snd]. destruct (apply_gradients _ _ _) as [optimizer' model'].
  cbn. repeat split.
Qed.

Lemma batches_replay (bs : list Run.batch) :
  forall sm : state * TrainPinnModel.epoch_metrics,
  let gs := gradients_along bs (optimizer sm.1) (model sm.1) in
  let r := fold_left batch_body bs sm in
  trajectory r.1
  = trajectory sm.1 ++ map snd (replay gs (optimizer sm.1) (model sm.1))
  /\ (optimizer r.1, model r.1) = final gs (optimizer sm.1) (model sm.1).
Proof.
  induction bs as [|b bs IH]; intros sm; cbn [fold_left].
  - cbn. rewrite app_nil_r. split; reflexivity.
  - destruct (batch_body_step sm b) as (Ho & Hm & Ht). cbv zeta in Ho, Hm, Ht.
    destruct (IH (batch_body sm b)) as [IHt IHf]. cbv zeta in IHt, IHf.
    rewrite Ho, Hm, Ht in IHt. rewrite Ho, Hm in IHf.
    cbn [Run.gradients_along Run.replay map]. unfold Run.final.
    cbn [fold_left fst snd]. split.
    + rewrite IHt, <- app_assoc. reflexivity.
    + rewrite IHf. unfold Run.final.
      destruct (apply_gradients _ _ _) as [o' m']. reflexivity.
Qed.

(** The steps over a list of batches depend on the state only through the
    optimizer, the variables and the trajectory. *)
Lemma batches_proj (bs : list Run.batch)
    (sm1 sm2 : state * TrainPinnModel.epoch_metrics) :
  optimizer sm1.1 = optimizer sm2.1 ->
  model sm1.1 = model sm2.1 ->
  trajectory sm1.1 = trajectory sm2.1 ->
  optimizer (fold_left batch_body bs sm1).1
  = optimizer (fold_left batch_body bs sm2).1
  /\ model (fold_left batch_body bs sm1).1
     = model (fold_left batch_body bs sm2).1
  /\ trajectory (fold_left batch_body bs sm1).1
     = trajectory (fold_left batch_body bs sm2).1.
Proof.
  intros Ho Hm Ht.
  destruct (batches_replay bs sm1) as [T1 F1].
  destruct (batches_replay bs sm2) as [T2 F2]. cbv zeta in *.
  rewrite Ho, Hm in F1. rewrite Ho, Hm, Ht in T1.
  rewrite <- F2 in F1. injection F1 as F1o F1m.
  rewrite T1, T2. auto.
Qed.

Lemma epoch_body_proj (dataset : nat -> list Run.batch) (st : state)
    (epoch : nat) :
  let r := fold_left batch_body (dataset epoch)
                     (st, TrainPinnModel.metrics_new) in
  optimizer (epoch_body dataset st epoch) = optimizer r.1
  /\ model (epoch_body dataset st epoch) = model r.1
  /\ trajectory (epoch_body dataset st epoch) = trajectory r.1.
Proof.
  unfold TrainPinnModel.epoch_body.
  destruct (fold_left _ _ _) as [st' m]. cbn [fst].
  destruct (_ || _); repeat split.
Qed.

(** The epochs one after the other are the steps over all their batches. *)
Lemma epochs_flatten (dataset : nat -> list Run.batch) (epochs : list nat) :
  forall (st : state) (m : TrainPinnModel.epoch_metrics),
  let r := fold_left batch_body (concat (map dataset epochs)) (st, m) in
  optimizer (fold_left (epoch_body dataset) epochs st) = optimizer r.1
  /\ model (fold_left (epoch_body dataset) epochs st) = model r.1
  /\ trajectory (fold_left (epoch_body dataset) epochs st) = trajectory r.1.
Proof.
  induction epochs as [|epoch epochs IH]; intros st m;
    cbn [fold_left map concat].
  - repeat split.
  - rewrite fold_left_app.
    destruct (epoch_body_proj dataset st epoch) as (Eo & Em & Et).
    cbv zeta in Eo, Em, Et.
    destruct (batches_proj (dataset epoch) (st, TrainPinnModel.metrics_new)
                (st, m) eq_refl eq_refl eq_refl) as (Po & Pm & Pt).
    destruct (IH (epoch_body dataset st epoch) m) as (Io & Im & It).
    cbv zeta in Io, Im, It. rewrite Io, Im, It.
    apply batches_proj.
    + exact (eq_trans Eo Po).
    + exact (eq_trans Em Pm).
    + exact (eq_trans Et Pt).
Qed.

(** The run in terms of its gradient sequence: the trajectory is the
    replay of the gradients from the initial optimizer and variables, and
    the loop ends with the optimizer and variables of the last
    application. *)
Lemma training_loop_replay (dataset : nat -> list Run.batch)
    (Adam : Optimizer) (initial : Keras.Sequential) :
  let gs := Run.gradient_sequence Gradients tape_gradient Optimizer
              apply_gradients dataset Adam initial in
  let st := training_loop dataset Adam initial in
  trajectory st = map snd (replay gs Adam initial)
  /\ (optimizer st, model st) = final gs Adam initial.
Proof.
  cbv zeta. unfold TrainPinnModel.training_loop, Run.gradient_sequence,
    Run.batches_of_run.
  destruct (epochs_flatten dataset (seq 0 TrainPinnModel.N_EPOCHS)
              (TrainPinnModel.mkState Optimizer Adam initial [] [] [])
              TrainPinnModel.metrics_new) as (Eo & Em & Et).
  cbv zeta in Eo, Em, Et. rewrite Eo, Em, Et.
  exact (batches_replay _ (TrainPinnModel.mkState Optimizer Adam initial [] [] [],
                           TrainPinnModel.metrics_new)).
Qed.
End Replay.



(** An optimizer that leaves the variables as they are replays every
    gradient sequence to the initial variables. *)
Lemma frozen_replay (gs : list unit) (m : Keras.Sequential) :
  map snd (Run.replay unit unit Fixtures.frozen_optimizer gs tt m)
  = map (fun _ => m) gs.
Proof.
  induction gs as [|g gs IH]; [reflexivity|].
  cbn [Run.replay map Fixtures.frozen_optimizer fst snd].
  rewrite IH. reflexivity.
Qed.

Lemma frozen_final (gs : list unit) (m : Keras.Sequential) :
  Run.final unit unit Fixtures.frozen_optimizer gs tt m = (tt, m).
Proof.
  unfold Run.final. induction gs as [|g gs IH]; [reflexivity|].
  cbn [fold_left Fixtures.frozen_optimizer fst snd]. exact IH.
Qed.

Lemma zero_and_unit_kernels_differ :
  TrainPinnModel.build_model Fixtures.zero_kernels
  <> TrainPinnModel.build_model Fixtures.unit_kernels.
Proof.
  intros H.
  apply (f_equal (fun m => match m with
                           | L :: _ =>
                               match Keras.kernel L with
                               | (k :: _) :: _ => Some k
                               | _ => None
                               end
                           | [] => None
                           end)) in H.
  vm_compute in H. discriminate H.
Qed.

